(** * CoverFlowAI backend: credit ledger, generation orchestrator, payment webhook

    A shallow embedding of [backend/database.go] and of the HTTP handlers and
    provider functions of the backend's main file.

    Conventions of the embedding.
    - Go [int] is a 64-bit integer: it is a [Z], and the additions the code
      performs without a guard are wrapped by [wrap64].  A decrement the code
      guards by [> 0] cannot leave the range and is written as is.
    - [time.Time] is the number of nanoseconds since Go's zero time
      ([time.Time{}] is [0]); the process's location is a fixed offset [tz]
      east of UTC.  [time.Duration] is a number of nanoseconds.
    - A Go [error] is observed through its message only, so it is the message.
    - The SQLite store is a reliable in-memory table: the only failures of a
      query are [gorm.ErrRecordNotFound] and a violated unique index.  gorm's
      bookkeeping columns [CreatedAt]/[UpdatedAt] are left out.
    - Everything the process reads from outside (clock, uuid generator,
      Redis connection, HTTP exchanges, JSON decoding, file system) is a field
      of the record [World]; the effects it performs are listed in a trace. *)

From Stdlib Require Import ZArith List String Ascii Lia Bool DecimalString.
From stdpp Require Import base gmap strings list.
Import ListNotations.
Open Scope Z_scope.

(** ** Go base types *)

Definition wrap64 (z : Z) : Z := (z + 2 ^ 63) mod 2 ^ 64 - 2 ^ 63.

Definition error := string.

Inductive result (A : Type) : Type :=
| Ok (a : A)
| Err (e : error).
Arguments Ok {A} a.
Arguments Err {A} e.

Definition Time := Z.
Definition Duration := Z.

Definition Second : Duration := 1000000000.
Definition Minute : Duration := 60 * Second.
Definition Day : Duration := 24 * 60 * Minute.

Definition zeroTime : Time := 0.
Definition Before (t u : Time) : bool := t <? u.
Definition IsZero (t : Time) : bool := t =? 0.

(** [time.Date(now.Year(), now.Month(), now.Day(), 0, 0, 0, 0, now.Location())]:
    the local midnight that starts the day of [now]. *)
Definition startOfDay (tz : Z) (now : Time) : Time := now - (now + tz) mod Day.

(** [%d] *)
Definition fmt_d (z : Z) : string := NilZero.string_of_int (Z.to_int z).

(** ** strings package *)

Definition HasPrefix (s pre : string) : bool := String.prefix pre s.

Fixpoint Contains (s sub : string) : bool :=
  if String.prefix sub s then true
  else match s with
       | EmptyString => false
       | String _ rest => Contains rest sub
       end.

Definition HasSuffix (s suf : string) : bool :=
  let n := String.length s in
  let k := String.length suf in
  if (k <=? n)%nat then String.eqb (String.substring (n - k) k s) suf else false.

(** [strings.Split s sep] for a non-empty separator: [skip] counts the
    characters of a separator just matched that are still to be dropped,
    [cur] is the piece being read. *)
Fixpoint splitFrom (sep : string) (skip : nat) (cur : string) (s : string) : list string :=
  match s with
  | EmptyString => [cur]
  | String c rest =>
      match skip with
      | S k => splitFrom sep k cur rest
      | O =>
          if String.prefix sep s
          then cur :: splitFrom sep (String.length sep - 1) EmptyString rest
          else splitFrom sep O (cur +:+ String c EmptyString) rest
      end
  end.

Definition Split (s sep : string) : list string := splitFrom sep O EmptyString s.

(** ** database.go: the tables *)

Record User := mkUser {
  ID : string;
  Email : string;
  Name : string;
  Picture : string;
  FreeGenerationsLeft : Z;
  LastFreeGeneration : Time;
  PaidGenerations : Z
}.

Record Generation := mkGeneration {
  gen_ID : string;
  gen_UserID : string;
  ImageURL : string;
  Provider : string;
  IsFree : bool
}.

(** [Amount] and the prices are [float64] in the source; they are only copied,
    never computed with, and are kept in hundredths of the currency unit. *)
Record Transaction := mkTransaction {
  tx_ID : string;
  tx_UserID : string;
  PackageType : string;
  Amount : Z;
  Currency : string;
  Status : string;
  LavaOrderID : string
}.

Record Package := mkPackage {
  pkg_Type : string;
  pkg_Name : string;
  Count : Z;
  PriceUSD : Z;
  PriceRUB : Z;
  Popular : bool
}.

Definition Packages : list Package :=
  [ mkPackage "pack1" "Starter" 10 299 24900 false;
    mkPackage "pack2" "Basic" 30 799 59900 true;
    mkPackage "pack3" "Professional" 100 1999 149900 false ].

Record DB := mkDB {
  users : gmap string User;
  generations : list Generation;
  transactions : list Transaction
}.

Definition emptyDB : DB := mkDB ∅ [] [].

Definition ErrRecordNotFound : error := "record not found".
Definition ErrUniqueConstraint : error := "UNIQUE constraint failed".

(** [db.Where("id = ?", id).First(&user)] *)
Definition firstUser (db : DB) (id : string) : result User :=
  match users db !! id with
  | Some u => Ok u
  | None => Err ErrRecordNotFound
  end.

(** [db.Save(&user)]: upsert on the primary key. *)
Definition saveUser (db : DB) (u : User) : DB :=
  mkDB (<[ID u := u]> (users db)) (generations db) (transactions db).

(** The unique index on [Email]: some other row already holds this address. *)
Definition emailTaken (db : DB) (id email : string) : bool :=
  existsb (fun kv => String.eqb (Email (snd kv)) email && negb (String.eqb (fst kv) id))
          (map_to_list (users db)).

(** [db.Create(&generation)] *)
Definition createGeneration (db : DB) (g : Generation) : DB :=
  mkDB (users db) (generations db ++ [g]) (transactions db).

(** [db.Where("lava_order_id = ?", orderID).First(&transaction)].  The column
    carries a unique index, so at most one row matches. *)
Definition firstTransactionByOrder (db : DB) (orderID : string) : result Transaction :=
  match find (fun t => String.eqb (LavaOrderID t) orderID) (transactions db) with
  | Some t => Ok t
  | None => Err ErrRecordNotFound
  end.

(** [db.Save(&transaction)]: the row with this primary key is replaced, or the
    row is added when there is none. *)
Fixpoint upsertTransaction (t : Transaction) (l : list Transaction) : list Transaction :=
  match l with
  | [] => [t]
  | t' :: rest =>
      if String.eqb (tx_ID t') (tx_ID t) then t :: rest
      else t' :: upsertTransaction t rest
  end.

(** The callers change the status of a row they have just read, which cannot
    violate the unique index on [LavaOrderID]. *)
Definition saveTransaction (db : DB) (t : Transaction) : DB :=
  mkDB (users db) (generations db) (upsertTransaction t (transactions db)).

(** Field updates [user.F = v]. *)
Definition withFree (v : Z) (u : User) : User :=
  mkUser (ID u) (Email u) (Name u) (Picture u) v (LastFreeGeneration u) (PaidGenerations u).
Definition withLast (v : Time) (u : User) : User :=
  mkUser (ID u) (Email u) (Name u) (Picture u) (FreeGenerationsLeft u) v (PaidGenerations u).
Definition withPaid (v : Z) (u : User) : User :=
  mkUser (ID u) (Email u) (Name u) (Picture u) (FreeGenerationsLeft u) (LastFreeGeneration u) v.
Definition withProfile (email name picture : string) (u : User) : User :=
  mkUser (ID u) email name picture (FreeGenerationsLeft u) (LastFreeGeneration u) (PaidGenerations u).
Definition withStatus (v : string) (t : Transaction) : Transaction :=
  mkTransaction (tx_ID t) (tx_UserID t) (PackageType t) (Amount t) (Currency t) v (LavaOrderID t).

(** ** database.go: the ledger *)

Definition GetOrCreateUser (db : DB) (userID email name picture : string)
  : DB * result User :=
  match firstUser db userID with
  | Err _ =>
      let user := mkUser userID email name picture 1 zeroTime 0 in
      if emailTaken db userID email then (db, Err ErrUniqueConstraint)
      else (saveUser db user, Ok user)
  | Ok user =>
      let user := withProfile email name picture user in
      (* the result of this [db.Save] is not looked at *)
      if emailTaken db userID email then (db, Ok user)
      else (saveUser db user, Ok user)
  end.

Definition CheckGenerationLimit (tz : Z) (now : Time) (db : DB) (userID : string)
  : DB * result (bool * Z) :=
  match firstUser db userID with
  | Err e => (db, Err e)
  | Ok user =>
      let today := startOfDay tz now in
      let '(user, db) :=
        if Before (LastFreeGeneration user) today
        then let user := withLast zeroTime (withFree 1 user) in (user, saveUser db user)
        else (user, db) in
      let canGenerate := (0 <? FreeGenerationsLeft user) || (0 <? PaidGenerations user) in
      let remaining := wrap64 (FreeGenerationsLeft user + PaidGenerations user) in
      (db, Ok (canGenerate, remaining))
  end.

(** [now] is the reading of the clock that fixes [today], [stamp] the later
    reading stored in [LastFreeGeneration].  The result is [None] for [nil]. *)
Definition UseGeneration (tz : Z) (now stamp : Time) (db : DB) (userID : string)
  (isFree : bool) : DB * option error :=
  match firstUser db userID with
  | Err e => (db, Some e)
  | Ok user =>
      if isFree then
        let today := startOfDay tz now in
        let user := if Before (LastFreeGeneration user) today then withFree 1 user else user in
        if 0 <? FreeGenerationsLeft user
        then (saveUser db (withLast stamp (withFree (FreeGenerationsLeft user - 1) user)), None)
        else (db, Some ErrRecordNotFound)
      else
        if 0 <? PaidGenerations user
        then (saveUser db (withPaid (PaidGenerations user - 1) user), None)
        else (db, Some ErrRecordNotFound)
  end.

Definition AddPaidGenerations (db : DB) (userID : string) (count : Z) : DB * option error :=
  match firstUser db userID with
  | Err e => (db, Some e)
  | Ok user => (saveUser db (withPaid (wrap64 (PaidGenerations user + count)) user), None)
  end.

(** ** The outside world *)

(** One HTTP exchange: [client.Do] fails, or the response arrives and reading
    its body fails, or the body is read. *)
Inductive HTTPOutcome : Type :=
| HttpSendErr (e : error)
| HttpReadErr (status : Z) (e : error)
| HttpResp (status : Z) (body : string).

Record NanoBananaCreateTaskResponse := mkCreateTaskResponse {
  ct_Code : Z;
  ct_Msg : string;
  ct_TaskID : string
}.

Record NanoBananaTaskResponse := mkTaskResponse {
  tr_Code : Z;
  tr_Msg : string;
  tr_State : string;
  tr_ResultJSON : string;
  tr_FailCode : string;
  tr_FailMsg : string;
  tr_CostTime : Z
}.

Record NanoBananaResult := mkNanoBananaResult {
  ResultUrls : list string
}.

Record OpenAIResponse := mkOpenAIResponse {
  oa_Data : list string;
  oa_Error : option string
}.

Record World := mkWorld {
  (* configuration *)
  w_tz : Z;
  w_nanoBananaKey : string;
  w_openAIKey : string;
  w_BASE_URL : string;
  w_storageDir : string;
  (* readings of time.Now(), in program order *)
  w_now_check : Time;
  w_now_decide : Time;
  w_now_redis : Time;
  w_now_unix : Z;
  w_now_use : Time;
  w_now_stamp : Time;
  (* uuid.New().String(), by call site *)
  w_uuid_image : string;
  w_uuid_file : string;
  w_uuid_generation : string;
  w_uuid_response : string;
  (* library calls *)
  w_base64 : string -> result (list Byte.byte);
  w_newRequest : string -> option error;
  w_unmarshalCreateTask : string -> result NanoBananaCreateTaskResponse;
  w_unmarshalTask : string -> result NanoBananaTaskResponse;
  w_unmarshalResult : string -> result NanoBananaResult;
  w_unmarshalOpenAI : string -> result OpenAIResponse;
  (* Redis connection: the error of SET, whether DEL reaches the server *)
  w_redisSet : option error;
  w_redisDel : bool;
  (* HTTP exchanges *)
  w_createTaskHTTP : HTTPOutcome;
  w_pollHTTP : Z -> HTTPOutcome;
  w_openAIHTTP : HTTPOutcome;
  w_downloadHTTP : HTTPOutcome;
  (* file system *)
  w_mkdirAll : option error;
  w_writeFile : option error
}.

(** The effects a request performs outside the database, and the lines it
    prints that start with [Warning:]. *)
Inductive Event : Type :=
| EvRedisSet (key : string) (ttl : Duration)
| EvRedisDel (key : string)
| EvCreateTask (imageURL prompt : string)
| EvPoll (url : string) (attempt : Z)
| EvSleep (d : Duration)
| EvOpenAI (prompt : string)
| EvDownload (url : string)
| EvWriteFile (path : string)
| EvWarn (msg : string).

(** ** The Redis cache: a value and the instant it expires at *)

Definition redisSet (w : World) (redis : gmap string (list Byte.byte * Time))
  (key : string) (value : list Byte.byte) (ttl : Duration)
  : result (gmap string (list Byte.byte * Time)) :=
  match w_redisSet w with
  | Some e => Err e
  | None => Ok (<[key := (value, w_now_redis w + ttl)]> redis)
  end.

Definition redisDel (w : World) (redis : gmap string (list Byte.byte * Time))
  (key : string) : gmap string (list Byte.byte * Time) :=
  if w_redisDel w then delete key redis else redis.

(** [GET key] at the instant [now]: an expired entry is not there. *)
Definition redisGet (redis : gmap string (list Byte.byte * Time)) (key : string)
  (now : Time) : option (list Byte.byte) :=
  match redis !! key with
  | Some (value, expiry) => if now <? expiry then Some value else None
  | None => None
  end.

(** ** Provider functions *)

(** [filepath.Join] of two elements; [Clean] leaves the ids and file names
    joined here as they are. *)
Definition filepath_Join (a b : string) : string :=
  if String.eqb a "" then b
  else if String.eqb b "" then a
  else a +:+ "/" +:+ b.

(** [%.1f] of the quotient [num / den] ([den > 0]), rounded to the nearest
    tenth, ties to even; the rounding error of the [float64] quotient itself
    is not modelled. *)
Definition fmt_1f (num den : Z) : string :=
  let a := Z.abs num in
  let q := (10 * a) / den in
  let r := (10 * a) mod den in
  let tenths := if (den <? 2 * r) || ((2 * r =? den) && Z.odd q) then q + 1 else q in
  (if num <? 0 then "-" else "") +:+ fmt_d (tenths / 10) +:+ "." +:+ fmt_d (tenths mod 10).

Definition downloadAndSaveImage (w : World) (imageURL userID storageDir : string)
  : result string * list Event :=
  let userDir := filepath_Join storageDir userID in
  let filename := w_uuid_file w +:+ "_" +:+ fmt_d (w_now_unix w) +:+ ".png" in
  let filePath := filepath_Join userDir filename in
  let save (readErr : option error) : result string * list Event :=
    match readErr with
    | Some e => (Err ("failed to read image data: " +:+ e), [EvDownload imageURL])
    | None =>
        match w_mkdirAll w with
        | Some e => (Err ("failed to create user directory: " +:+ e), [EvDownload imageURL])
        | None =>
            match w_writeFile w with
            | Some e => (Err ("failed to save image: " +:+ e),
                         [EvDownload imageURL; EvWriteFile filePath])
            | None => (Ok (filepath_Join userID filename),
                       [EvDownload imageURL; EvWriteFile filePath])
            end
        end
    end in
  let checked (status : Z) (readErr : option error) : result string * list Event :=
    if negb (status =? 200)
    then (Err ("failed to download image: status " +:+ fmt_d status), [EvDownload imageURL])
    else save readErr in
  match w_downloadHTTP w with
  | HttpSendErr e => (Err ("failed to download image: " +:+ e), [EvDownload imageURL])
  | HttpReadErr status e => checked status (Some e)
  | HttpResp status _ => checked status None
  end.

Definition defaultNanoBananaPrompt : string :=
  "Transform this collage into a professional YouTube thumbnail cover. " +:+
  "Make it visually striking, modern, and optimized for video thumbnails. " +:+
  "Ensure high quality, attention-grabbing design with good contrast and readable text. " +:+
  "Maintain the key elements from the collage but enhance them professionally. " +:+
  "Use 16:9 aspect ratio suitable for YouTube thumbnails.".

(** Building the request ([json.Marshal], [http.NewRequest] on a constant URL)
    does not fail. *)
Definition createNanoBananaTask (w : World) (imageURL apiKey customPrompt : string)
  : result string * list Event :=
  let prompt := if String.eqb customPrompt "" then defaultNanoBananaPrompt else customPrompt in
  let answer (status : Z) (body : string) : result string :=
    if status =? 401 then Err "authentication failed: check your NANO_BANANA_API_KEY"
    else if status =? 402 then Err "insufficient account balance"
    else if status =? 429 then Err "rate limit exceeded, please try again later"
    else if negb (status =? 200)
    then Err ("nano banana API error: " +:+ body +:+ " (status: " +:+ fmt_d status +:+ ")")
    else
      match w_unmarshalCreateTask w body with
      | Err e => Err ("failed to unmarshal response: " +:+ e)
      | Ok taskResp =>
          if negb (ct_Code taskResp =? 200) then
            let errorMsg := ct_Msg taskResp in
            let errorMsg :=
              if ct_Code taskResp =? 400 then "invalid request parameters: " +:+ errorMsg
              else if ct_Code taskResp =? 401 then "authentication failed: " +:+ errorMsg
              else if ct_Code taskResp =? 402 then "insufficient account balance: " +:+ errorMsg
              else if ct_Code taskResp =? 422 then "parameter validation failed: " +:+ errorMsg
              else if ct_Code taskResp =? 429 then "rate limit exceeded: " +:+ errorMsg
              else if ct_Code taskResp =? 500 then "internal server error: " +:+ errorMsg
              else errorMsg in
            Err ("nano banana API error: " +:+ errorMsg +:+ " (code: " +:+
                 fmt_d (ct_Code taskResp) +:+ ")")
          else if String.eqb (ct_TaskID taskResp) "" then Err "no task ID in response"
          else Ok (ct_TaskID taskResp)
      end in
  match w_createTaskHTTP w with
  | HttpSendErr e => (Err ("failed to send request: " +:+ e), [EvCreateTask imageURL prompt])
  | HttpReadErr _ e => (Err ("failed to read response: " +:+ e), [EvCreateTask imageURL prompt])
  | HttpResp status body => (answer status body, [EvCreateTask imageURL prompt])
  end.

Definition taskTimeout (maxAttempts : Z) (interval : Duration) : error :=
  "task timeout after " +:+ fmt_d maxAttempts +:+ " attempts (approximately " +:+
  fmt_1f (maxAttempts * interval) (60 * Second) +:+ " minutes)".

(** The body of [for i := 0; i < maxAttempts; i++]: [remaining] is the number
    of iterations left, [maxAttempts - i]. *)
Fixpoint pollLoop (w : World) (url : string) (maxAttempts : Z) (interval : Duration)
  (remaining : nat) (i : Z) : result string * list Event :=
  match remaining with
  | O => (Err (taskTimeout maxAttempts interval), [])
  | S k =>
      match w_newRequest w url with
      | Some e => (Err ("failed to create request: " +:+ e), [])
      | None =>
          let retry :=
            let '(r, tr) := pollLoop w url maxAttempts interval k (i + 1) in
            (r, EvPoll url i :: EvSleep interval :: tr) in
          let stop (r : result string) := (r, [EvPoll url i]) in
          match w_pollHTTP w i with
          | HttpSendErr _ => retry
          | HttpReadErr _ _ => retry
          | HttpResp _ body =>
              match w_unmarshalTask w body with
              | Err _ => retry
              | Ok taskResp =>
                  if negb (tr_Code taskResp =? 200) then
                    stop (Err ("nano banana API error: " +:+ tr_Msg taskResp +:+ " (code: " +:+
                               fmt_d (tr_Code taskResp) +:+ ")"))
                  else if String.eqb (tr_State taskResp) "success" then
                    if String.eqb (tr_ResultJSON taskResp) "" then
                      stop (Err "empty result JSON in response")
                    else
                      match w_unmarshalResult w (tr_ResultJSON taskResp) with
                      | Err e => stop (Err ("failed to parse result JSON: " +:+ e))
                      | Ok res =>
                          match ResultUrls res with
                          | [] => stop (Err "no result URLs in response")
                          | u :: _ => stop (Ok u)
                          end
                      end
                  else if String.eqb (tr_State taskResp) "fail" then
                    let failMsg :=
                      if String.eqb (tr_FailMsg taskResp) "" then "unknown error"
                      else tr_FailMsg taskResp in
                    stop (Err ("task failed: " +:+ failMsg +:+ " (failCode: " +:+
                               tr_FailCode taskResp +:+ ")"))
                  else retry
              end
          end
      end
  end.

Definition pollNanoBananaTask (w : World) (taskID apiKey : string) (maxAttempts : Z)
  (interval : Duration) : result string * list Event :=
  let url := "https://api.kie.ai/api/v1/jobs/recordInfo?taskId=" +:+ taskID in
  pollLoop w url maxAttempts interval (Z.to_nat maxAttempts) 0.

Definition getenvBASE_URL (w : World) : string :=
  if String.eqb (w_BASE_URL w) "" then "http://localhost:8080" else w_BASE_URL w.

Definition generateCoverWithNanoBanana (w : World)
  (redis : gmap string (list Byte.byte * Time))
  (imageData imageFormat apiKey userID storageDir customPrompt : string)
  : result string * gmap string (list Byte.byte * Time) * list Event :=
  match w_base64 w imageData with
  | Err e => (Err ("failed to decode base64 image: " +:+ e), redis, [])
  | Ok decodedData =>
      if 10 * 1024 * 1024 <? Z.of_nat (length decodedData)
      then (Err "image size exceeds 10MB limit", redis, [])
      else
        let imageID := w_uuid_image w +:+ "." +:+ imageFormat in
        let redisKey := "image:" +:+ imageID in
        match redisSet w redis redisKey decodedData (30 * Minute) with
        | Err e => (Err ("failed to save image to Redis: " +:+ e), redis,
                    [EvRedisSet redisKey (30 * Minute)])
        | Ok redis =>
            let baseURL := getenvBASE_URL w in
            let imageURL := baseURL +:+ "/api/image/" +:+ imageID in
            let '(task, tr1) := createNanoBananaTask w imageURL apiKey customPrompt in
            match task with
            | Err e =>
                (Err ("failed to create Nano Banana task: " +:+ e),
                 redisDel w redis redisKey,
                 EvRedisSet redisKey (30 * Minute) :: tr1 ++ [EvRedisDel redisKey])
            | Ok taskID =>
                let maxAttempts := 120 in
                let interval := 5 * Second in
                let '(polled, tr2) := pollNanoBananaTask w taskID apiKey maxAttempts interval in
                match polled with
                | Err e =>
                    (Err ("failed to get Nano Banana result: " +:+ e),
                     redisDel w redis redisKey,
                     EvRedisSet redisKey (30 * Minute) :: tr1 ++ tr2 ++ [EvRedisDel redisKey])
                | Ok resultURL =>
                    let redis := redisDel w redis redisKey in
                    let '(saved, tr3) := downloadAndSaveImage w resultURL userID storageDir in
                    let tr := EvRedisSet redisKey (30 * Minute)
                              :: tr1 ++ tr2 ++ [EvRedisDel redisKey] ++ tr3 in
                    match saved with
                    | Err e =>
                        (Ok resultURL, redis,
                         tr ++ [EvWarn ("Warning: Failed to save image locally: " +:+ e)])
                    | Ok savedPath => (Ok (baseURL +:+ "/storage/" +:+ savedPath), redis, tr)
                    end
                end
            end
        end
  end.

Definition defaultOpenAIPrompt : string :=
  "Create a professional YouTube thumbnail cover based on this collage. " +:+
  "Make it visually appealing, modern, and optimized for video thumbnails. " +:+
  "Ensure high quality and attention-grabbing design.".

Definition generateCoverWithOpenAI (w : World)
  (imageData apiKey userID storageDir customPrompt : string)
  : result string * list Event :=
  let prompt := if String.eqb customPrompt "" then defaultOpenAIPrompt else customPrompt in
  match w_openAIHTTP w with
  | HttpSendErr e => (Err ("failed to send request: " +:+ e), [EvOpenAI prompt])
  | HttpReadErr _ e => (Err ("failed to read response: " +:+ e), [EvOpenAI prompt])
  | HttpResp status body =>
      if negb (status =? 200)
      then (Err ("OpenAI API error: " +:+ body +:+ " (status: " +:+ fmt_d status +:+ ")"),
            [EvOpenAI prompt])
      else
        match w_unmarshalOpenAI w body with
        | Err e => (Err ("failed to unmarshal response: " +:+ e), [EvOpenAI prompt])
        | Ok openAIResp =>
            match oa_Error openAIResp with
            | Some m => (Err ("OpenAI API error: " +:+ m), [EvOpenAI prompt])
            | None =>
                match oa_Data openAIResp with
                | [] => (Err "no image URL in response", [EvOpenAI prompt])
                | resultURL :: _ =>
                    let '(saved, tr) := downloadAndSaveImage w resultURL userID storageDir in
                    match saved with
                    | Err e =>
                        (Ok resultURL,
                         EvOpenAI prompt :: tr ++
                         [EvWarn ("Warning: Failed to save image locally: " +:+ e)])
                    | Ok savedPath =>
                        (Ok (getenvBASE_URL w +:+ "/storage/" +:+ savedPath), EvOpenAI prompt :: tr)
                    end
                end
            end
        end
  end.

(** ** HTTP boundary *)

Inductive Body : Type :=
| BError (err : string)
| BErrorDetails (err details : string)
| BNoGenerations (err : string) (remaining : Z) (message : string)
| BStatus (status : string)
| BCover (id image_url : string)
| BData (contentType : string) (data : list Byte.byte).

Record Response := mkResponse {
  code : Z;
  body : Body
}.

Definition StatusOK : Z := 200.
Definition StatusBadRequest : Z := 400.
Definition StatusUnauthorized : Z := 401.
Definition StatusPaymentRequired : Z := 402.
Definition StatusNotFound : Z := 404.
Definition StatusInternalServerError : Z := 500.

(** A value held by the session or by a decoded JSON object: a string, or
    something else. *)
Inductive Value : Type :=
| VString (s : string)
| VOther.

(** [v, _ := x.(string)] *)
Definition asString (x : option Value) : string :=
  match x with
  | Some (VString s) => s
  | _ => ""
  end.

(** *** GET /api/image/:imageId

    [connErr] is the error of the Redis connection, if any. *)
Definition imageHandler (redis : gmap string (list Byte.byte * Time)) (now : Time)
  (connErr : option error) (imageID : string) : Response :=
  match connErr with
  | Some _ => mkResponse StatusInternalServerError (BError "Failed to get image from cache")
  | None =>
      match redisGet redis ("image:" +:+ imageID) now with
      | None => mkResponse StatusNotFound (BError "Image not found")
      | Some imageData =>
          let contentType :=
            if HasSuffix imageID ".jpg" || HasSuffix imageID ".jpeg" then "image/jpeg"
            else if HasSuffix imageID ".webp" then "image/webp"
            else "image/png" in
          mkResponse StatusOK (BData contentType imageData)
      end
  end.

(** *** POST /api/payment/webhook

    [webhookData] is [None] when the body does not bind to a JSON object. *)
Definition paymentWebhook (db : DB) (webhookData : option (gmap string Value))
  : Response * DB :=
  match webhookData with
  | None => (mkResponse StatusBadRequest (BError "Invalid webhook data"), db)
  | Some webhookData =>
      let orderID := asString (webhookData !! "order_id") in
      let status := asString (webhookData !! "status") in
      match firstTransactionByOrder db orderID with
      | Err _ => (mkResponse StatusNotFound (BError "Transaction not found"), db)
      | Ok transaction =>
          if String.eqb status "success" || String.eqb status "completed" then
            let transaction := withStatus "completed" transaction in
            let db := saveTransaction db transaction in
            let db :=
              match find (fun pkg => String.eqb (pkg_Type pkg) (PackageType transaction))
                         Packages with
              | Some pkg => fst (AddPaidGenerations db (tx_UserID transaction) (Count pkg))
              | None => db
              end in
            (mkResponse StatusOK (BStatus "ok"), db)
          else
            let transaction := withStatus "failed" transaction in
            (mkResponse StatusOK (BStatus "ok"), saveTransaction db transaction)
      end
  end.

(** *** POST /api/generate-cover *)

Record GenerateCoverRequest := mkGenerateCoverRequest {
  req_Image : string;
  req_Provider : string;
  req_Prompt : string
}.

(** The image payload and its format, from a data URI or a bare base64 text. *)
Definition parseImage (image : string) : string * string :=
  let '(imageData, imageFormat) :=
    if HasPrefix image "data:image" then
      match Split image ";base64," with
      | [p0; p1] =>
          match Split p0 "/" with
          | [_; f] => (p1, f)
          | _ => (p1, "")
          end
      | _ =>
          match Split image "," with
          | [_; p1] => (p1, "")
          | _ => (image, "")
          end
      end
    else (image, "") in
  (imageData, if String.eqb imageFormat "" then "png" else imageFormat).

(** What the handler has settled on once the request passed the limit check. *)
Record Ticket := mkTicket {
  t_userID : string;
  t_provider : string;
  t_imageData : string;
  t_imageFormat : string;
  t_prompt : string;
  t_useFree : bool
}.

Definition zeroUser : User := mkUser "" "" "" "" 0 zeroTime 0.

(** The account a request runs for: the session's [user_id] when it is a
    string, the fixed id [anonymous] otherwise. *)
Definition sessionUserID (user_id : option Value) : string :=
  match user_id with
  | Some (VString id) => id
  | _ => "anonymous"
  end.

(** First part of the handler, up to the choice between a free and a paid
    generation.  [req] is [None] when the body does not bind. *)
Definition limitStep (w : World) (db : DB) (user_id : option Value)
  (req : option GenerateCoverRequest) : DB * (Response + Ticket) :=
  match req with
  | None => (db, inl (mkResponse StatusBadRequest (BError "Invalid request body")))
  | Some req =>
      let userIDStr := sessionUserID user_id in
      let provider := if String.eqb (req_Provider req) "" then "nanobanana" else req_Provider req in
      let '(imageData, imageFormat) := parseImage (req_Image req) in
      let '(db, checked) := CheckGenerationLimit (w_tz w) (w_now_check w) db userIDStr in
      match checked with
      | Err _ =>
          (db, inl (mkResponse StatusInternalServerError
                      (BError "Failed to check generation limit")))
      | Ok (canGenerate, remaining) =>
          if negb canGenerate then
            (db, inl (mkResponse StatusPaymentRequired
                        (BNoGenerations "No generations left" remaining
                           "You have reached your generation limit. Please purchase a package to continue.")))
          else
            let user := match firstUser db userIDStr with Ok u => u | Err _ => zeroUser end in
            let today := startOfDay (w_tz w) (w_now_decide w) in
            let useFree :=
              (0 <? FreeGenerationsLeft user)
              && (Before (LastFreeGeneration user) today || IsZero (LastFreeGeneration user)) in
            (db, inr (mkTicket userIDStr provider imageData imageFormat (req_Prompt req) useFree))
      end
  end.

(** Second part: the call of the provider chosen by the request. *)
Definition generate (w : World) (redis : gmap string (list Byte.byte * Time)) (t : Ticket)
  : (Response + result string) * gmap string (list Byte.byte * Time) * list Event :=
  if String.eqb (t_provider t) "nanobanana" then
    if String.eqb (w_nanoBananaKey w) "" then
      (inl (mkResponse StatusInternalServerError (BError "Nano Banana API key not configured")),
       redis, [])
    else
      let '(r, redis, tr) :=
        generateCoverWithNanoBanana w redis (t_imageData t) (t_imageFormat t)
          (w_nanoBananaKey w) (t_userID t) (w_storageDir w) (t_prompt t) in
      (inr r, redis, tr)
  else if String.eqb (t_provider t) "openai" then
    if String.eqb (w_openAIKey w) "" then
      (inl (mkResponse StatusInternalServerError (BError "OpenAI API key not configured")),
       redis, [])
    else
      let '(r, tr) :=
        generateCoverWithOpenAI w (t_imageData t) (w_openAIKey w) (t_userID t)
          (w_storageDir w) (t_prompt t) in
      (inr r, redis, tr)
  else
    (inl (mkResponse StatusBadRequest (BError "Invalid provider. Use 'openai' or 'nanobanana'")),
     redis, []).

(** Last part: the credit and the [Generation] row after a success, the error
    response after a failure. *)
Definition settle (w : World) (db : DB) (t : Ticket) (outcome : result string)
  : Response * DB * list Event :=
  match outcome with
  | Ok coverURL =>
      let '(db, used) :=
        UseGeneration (w_tz w) (w_now_use w) (w_now_stamp w) db (t_userID t) (t_useFree t) in
      let warned :=
        match used with
        | Some e => [EvWarn ("Warning: Failed to update generation count: " +:+ e)]
        | None => []
        end in
      let generation :=
        mkGeneration (w_uuid_generation w) (t_userID t) coverURL (t_provider t) (t_useFree t) in
      let db := createGeneration db generation in
      (mkResponse StatusOK (BCover (w_uuid_response w) coverURL), db, warned)
  | Err errMsg =>
      let statusCode :=
        if Contains errMsg "API key not configured" || Contains errMsg "IMGBB_API_KEY not set"
        then StatusBadRequest
        else if Contains errMsg "authentication failed"
                || Contains errMsg "insufficient account balance"
        then StatusUnauthorized
        else StatusInternalServerError in
      (mkResponse statusCode (BErrorDetails "Failed to generate cover" errMsg), db, [])
  end.

Definition generateCoverHandler (w : World) (db : DB)
  (redis : gmap string (list Byte.byte * Time)) (user_id : option Value)
  (req : option GenerateCoverRequest)
  : Response * DB * gmap string (list Byte.byte * Time) * list Event :=
  let '(db, passed) := limitStep w db user_id req in
  match passed with
  | inl resp => (resp, db, redis, [])
  | inr t =>
      let '(generated, redis, tr) := generate w redis t in
      match generated with
      | inl resp => (resp, db, redis, tr)
      | inr outcome =>
          let '(resp, db, warned) := settle w db t outcome in
          (resp, db, redis, tr ++ warned)
      end
  end.

(** ** The other endpoints *)

(** A JSON value of a reply ([gin.H] holds them by key): [JOther] stands for
    a value that is neither null, a boolean, a number nor a string. *)
Inductive JValue : Type :=
| JNull
| JBool (b : bool)
| JNum (n : Z)
| JStr (s : string)
| JOther.

(** [c.JSON(status, gin.H{...})] and [c.Redirect(status, location)]. *)
Inductive Answer : Type :=
| AJSON (status : Z) (body : gmap string JValue)
| ARedirect (status : Z) (location : string).

Definition StatusTemporaryRedirect : Z := 307.

Definition ginH (fields : list (string * JValue)) : gmap string JValue := list_to_map fields.

(** A value read from the session, as it is written into a reply. *)
Definition ofSession (v : option Value) : JValue :=
  match v with
  | Some (VString s) => JStr s
  | Some VOther => JOther
  | None => JNull
  end.

(** *** GET /api/auth/me *)
Definition authMeHandler (tz : Z) (now : Time) (db : DB) (session : gmap string Value)
  : Answer * DB :=
  match session !! "user_id" with
  | None => (AJSON StatusUnauthorized (ginH [("error", JStr "Not authenticated")]), db)
  | Some userIDValue =>
      let userID := asString (Some userIDValue) in
      match firstUser db userID with
      | Err _ =>
          (AJSON StatusOK
             (ginH [("id", ofSession (session !! "user_id"));
                 ("email", ofSession (session !! "user_email"));
                 ("name", ofSession (session !! "user_name"));
                 ("picture", ofSession (session !! "user_picture"))]), db)
      | Ok user =>
          let '(db, checked) := CheckGenerationLimit tz now db userID in
          let '(canGenerate, remaining) :=
            match checked with
            | Ok answer => answer
            | Err _ => (false, 0)
            end in
          (AJSON StatusOK
             (ginH [("id", JStr (ID user));
                 ("email", JStr (Email user));
                 ("name", JStr (Name user));
                 ("picture", JStr (Picture user));
                 ("can_generate", JBool canGenerate);
                 ("generations_remaining", JNum remaining);
                 ("free_generations_left", JNum (FreeGenerationsLeft user));
                 ("paid_generations", JNum (PaidGenerations user))]), db)
      end
  end.

(** *** POST /api/auth/logout

    [saveErr] is the error of [session.Save], if any; the session written to
    the cookie is the result. *)
Definition logoutHandler (saveErr : option error) (session : gmap string Value)
  : Answer * gmap string Value :=
  match saveErr with
  | Some _ => (AJSON StatusInternalServerError (ginH [("error", JStr "Failed to clear session")]),
               session)
  | None => (AJSON StatusOK (ginH [("message", JStr "Logged out successfully")]), ∅)
  end.

(** *** GET /api/user/limits *)
Definition userLimitsHandler (tz : Z) (now : Time) (db : DB) (session : gmap string Value)
  : Answer * DB :=
  match session !! "user_id" with
  | None => (AJSON StatusUnauthorized (ginH [("error", JStr "Not authenticated")]), db)
  | Some userIDValue =>
      let userID := asString (Some userIDValue) in
      let '(db, checked) := CheckGenerationLimit tz now db userID in
      match checked with
      | Err _ =>
          (AJSON StatusInternalServerError (ginH [("error", JStr "Failed to check limits")]), db)
      | Ok (canGenerate, remaining) =>
          (AJSON StatusOK (ginH [("can_generate", JBool canGenerate);
                              ("remaining", JNum remaining)]), db)
      end
  end.

(** *** GET /api/auth/google and GET /api/auth/callback *)

Record UserInfo := mkUserInfo {
  ui_Id : string;
  ui_Email : string;
  ui_Name : string;
  ui_Picture : string
}.

(** What the sign-in flow meets outside: the fresh state token, the authorize
    URL built for a state, the errors of the token exchange, of the service
    construction and of [session.Save], the identity returned, and the
    front-end address of the environment. *)
Record AuthWorld := mkAuthWorld {
  a_uuid_state : string;
  a_AuthCodeURL : string -> string;
  a_exchange : option error;
  a_newService : option error;
  a_userinfo : result UserInfo;
  a_sessionSave : option error;
  a_FRONTEND_URL : string
}.

Definition authGoogleHandler (aw : AuthWorld) (session : gmap string Value)
  : Answer * gmap string Value :=
  let state := a_uuid_state aw in
  match a_sessionSave aw with
  | Some _ => (AJSON StatusInternalServerError (ginH [("error", JStr "Failed to save session")]),
               session)
  | None => (ARedirect StatusTemporaryRedirect (a_AuthCodeURL aw state),
             <["oauth_state" := VString state]> session)
  end.

(** [storedState == nil || storedState != state]: the stored value passes
    only when it is a string equal to the query's [state]. *)
Definition stateMismatch (storedState : option Value) (state : string) : bool :=
  match storedState with
  | Some (VString s) => negb (String.eqb s state)
  | _ => true
  end.

Definition authCallbackHandler (aw : AuthWorld) (db : DB) (session : gmap string Value)
  (state code : string) : Answer * DB * gmap string Value :=
  if stateMismatch (session !! "oauth_state") state then
    (AJSON StatusBadRequest (ginH [("error", JStr "Invalid state parameter")]), db, session)
  else
    match a_exchange aw with
    | Some e =>
        (AJSON StatusBadRequest (ginH [("error", JStr "Failed to exchange token");
                                    ("details", JStr e)]), db, session)
    | None =>
        match a_newService aw with
        | Some _ =>
            (AJSON StatusInternalServerError
               (ginH [("error", JStr "Failed to create OAuth2 service")]), db, session)
        | None =>
            match a_userinfo aw with
            | Err _ =>
                (AJSON StatusInternalServerError
                   (ginH [("error", JStr "Failed to get user info")]), db, session)
            | Ok userInfo =>
                let '(db, created) :=
                  GetOrCreateUser db (ui_Id userInfo) (ui_Email userInfo) (ui_Name userInfo)
                    (ui_Picture userInfo) in
                match created with
                | Err _ =>
                    (AJSON StatusInternalServerError
                       (ginH [("error", JStr "Failed to create user")]), db, session)
                | Ok user =>
                    let session' :=
                      delete "oauth_state"
                        (<["user_picture" := VString (Picture user)]>
                           (<["user_name" := VString (Name user)]>
                              (<["user_email" := VString (Email user)]>
                                 (<["user_id" := VString (ID user)]> session)))) in
                    match a_sessionSave aw with
                    | Some _ =>
                        (AJSON StatusInternalServerError
                           (ginH [("error", JStr "Failed to save session")]), db, session)
                    | None =>
                        let frontendURL :=
                          if String.eqb (a_FRONTEND_URL aw) "" then "http://localhost:3000"
                          else a_FRONTEND_URL aw in
                        (ARedirect StatusTemporaryRedirect frontendURL, db, session')
                    end
                end
            end
        end
    end.

(** *** POST /api/payment/create *)

Record LavaTopCreateOrderResponse := mkLavaTopCreateOrderResponse {
  lava_Status : string;
  lava_URL : string;
  lava_InvoiceID : string;
  lava_OrderID : string;
  lava_Message : string
}.

(** What a purchase meets outside: the gateway's environment variables, the
    fresh transaction id, [http.NewRequest] on the invoice URL, the exchange
    with the gateway and the decoding of its answer. *)
Record PayWorld := mkPayWorld {
  p_LAVA_SHOP_ID : string;
  p_LAVA_SECRET_KEY : string;
  p_LAVA_API_URL : string;
  p_uuid_transaction : string;
  p_newRequest : string -> option error;
  p_lavaHTTP : HTTPOutcome;
  p_unmarshalLava : string -> result LavaTopCreateOrderResponse
}.

(** The invoice request sent to the gateway. *)
Inductive PayEvent : Type :=
| EvLavaInvoice (url : string) (sum : Z) (orderId shopId currency : string).

Definition createLavaTopOrder (pw : PayWorld) (transactionID : string) (amount : Z)
  (currency : string) (pkg : Package) : result (string * string) * list PayEvent :=
  let shopID := p_LAVA_SHOP_ID pw in
  let secretKey := p_LAVA_SECRET_KEY pw in
  let apiURL := if String.eqb (p_LAVA_API_URL pw) "" then "https://api.lava.top"
                else p_LAVA_API_URL pw in
  if String.eqb shopID "" || String.eqb secretKey "" then
    (Err "LAVA_SHOP_ID and LAVA_SECRET_KEY must be set", [])
  else
    let lavaCurrency :=
      if String.eqb currency "USD" then "USD"
      else if String.eqb currency "RUB" then "RUB"
      else currency in
    let url := apiURL +:+ "/v1/invoice/create" in
    match p_newRequest pw url with
    | Some e => (Err ("failed to create request: " +:+ e), [])
    | None =>
        let sent := [EvLavaInvoice url amount transactionID shopID lavaCurrency] in
        match p_lavaHTTP pw with
        | HttpSendErr e => (Err ("failed to send request: " +:+ e), sent)
        | HttpReadErr _ e => (Err ("failed to read response: " +:+ e), sent)
        | HttpResp status body =>
            if negb (status =? 200) then
              (Err ("lava top API error: " +:+ body +:+ " (status: " +:+ fmt_d status +:+ ")"),
               sent)
            else
              match p_unmarshalLava pw body with
              | Err e => (Err ("failed to parse response: " +:+ e), sent)
              | Ok lavaResp =>
                  if negb (String.eqb (lava_Status lavaResp) "success") then
                    (Err ("lava top error: " +:+ lava_Message lavaResp), sent)
                  else (Ok (lava_InvoiceID lavaResp, lava_URL lavaResp), sent)
              end
        end
    end.

(** [db.Create(&transaction)]: refused when the primary key or the order
    reference (unique index, the empty text included) is already there. *)
Definition createTransaction (db : DB) (t : Transaction) : result DB :=
  if existsb (fun x => String.eqb (tx_ID x) (tx_ID t)
                       || String.eqb (LavaOrderID x) (LavaOrderID t))
             (transactions db)
  then Err ErrUniqueConstraint
  else Ok (mkDB (users db) (generations db) (transactions db ++ [t])).

(** [db.Save(&transaction)] after the order reference was set: nothing is
    written when another row holds that reference; the error is not looked
    at. *)
Definition saveTransactionOrder (db : DB) (t : Transaction) : DB :=
  if existsb (fun x => negb (String.eqb (tx_ID x) (tx_ID t))
                       && String.eqb (LavaOrderID x) (LavaOrderID t))
             (transactions db)
  then db
  else saveTransaction db t.

Definition withLavaOrderID (v : string) (t : Transaction) : Transaction :=
  mkTransaction (tx_ID t) (tx_UserID t) (PackageType t) (Amount t) (Currency t) (Status t) v.

Record PaymentRequest := mkPaymentRequest {
  pr_PackageType : string;
  pr_Currency : string
}.

(** [req] is [None] when the body does not bind (both fields are required). *)
Definition paymentCreateHandler (pw : PayWorld) (db : DB) (session : gmap string Value)
  (req : option PaymentRequest) : Answer * DB * list PayEvent :=
  match session !! "user_id" with
  | None => (AJSON StatusUnauthorized (ginH [("error", JStr "Not authenticated")]), db, [])
  | Some userIDValue =>
      let userID := asString (Some userIDValue) in
      match req with
      | None => (AJSON StatusBadRequest (ginH [("error", JStr "Invalid request")]), db, [])
      | Some req =>
          match find (fun pkg => String.eqb (pkg_Type pkg) (pr_PackageType req)) Packages with
          | None =>
              (AJSON StatusBadRequest (ginH [("error", JStr "Invalid package type")]), db, [])
          | Some selectedPackage =>
              let amount :=
                if String.eqb (pr_Currency req) "RUB" then PriceRUB selectedPackage
                else PriceUSD selectedPackage in
              let transactionID := p_uuid_transaction pw in
              let transaction :=
                mkTransaction transactionID userID (pr_PackageType req) amount
                  (pr_Currency req) "pending" "" in
              match createTransaction db transaction with
              | Err _ =>
                  (AJSON StatusInternalServerError
                     (ginH [("error", JStr "Failed to create transaction")]), db, [])
              | Ok db =>
                  let '(order, sent) :=
                    createLavaTopOrder pw transactionID amount (pr_Currency req)
                      selectedPackage in
                  match order with
                  | Err e =>
                      (AJSON StatusInternalServerError
                         (ginH [("error", JStr "Failed to create payment order");
                                ("details", JStr e)]), db, sent)
                  | Ok (orderID, paymentURL) =>
                      let transaction := withLavaOrderID orderID transaction in
                      let db := saveTransactionOrder db transaction in
                      (AJSON StatusOK
                         (ginH [("transaction_id", JStr transactionID);
                                ("payment_url", JStr paymentURL);
                                ("order_id", JStr orderID)]), db, sent)
                  end
              end
          end
      end
  end.

(** ** The browser's side: [checkGenerationLimit] of the authentication context *)

(** What [fetch] followed by [response.json()] gives: a rejected promise, or
    a response with its status and, when the body parses, its JSON object. *)
Inductive FetchOutcome : Type :=
| FetchRejected
| FetchResolved (status : Z) (json : option (gmap string JValue)).

(** [response.ok] *)
Definition response_ok (status : Z) : bool := (200 <=? status) && (status <=? 299).

(** JavaScript truthiness of a property read from an object; a missing
    property is [undefined]. *)
Definition truthy (v : option JValue) : bool :=
  match v with
  | Some (JBool b) => b
  | Some (JNum n) => negb (n =? 0)
  | Some (JStr s) => negb (String.eqb s "")
  | Some JOther => true
  | Some JNull => false
  | None => false
  end.

(** [v || d] *)
Definition js_or (v : option JValue) (d : JValue) : JValue :=
  match v with
  | Some x => if truthy v then x else d
  | None => d
  end.

(** The pair [(remaining, canGenerate)] the function resolves to. *)
Definition checkGenerationLimit_client (f : FetchOutcome) : JValue * JValue :=
  match f with
  | FetchResolved status (Some data) =>
      if response_ok status
      then (js_or (data !! "remaining") (JNum 0), js_or (data !! "canGenerate") (JBool false))
      else (JNum 0, JBool false)
  | _ => (JNum 0, JBool false)
  end.

(** A reply of the server as the browser receives it. *)
Definition received (a : Answer) : FetchOutcome :=
  match a with
  | AJSON status body => FetchResolved status (Some body)
  | ARedirect status _ => FetchResolved status None
  end.

(** ** Specification-side definitions *)

(** The settlement rule in the specification's words: after the day-boundary
    reset, a free credit is taken when it is preferred and there is one, else
    a paid credit when there is one, else the call fails. *)
Definition settleOneCredit_spec (tz : Z) (now stamp : Time) (u : User) (preferFree : bool)
  : option User :=
  let u :=
    if Before (LastFreeGeneration u) (startOfDay tz now)
    then withLast zeroTime (withFree 1 u) else u in
  if preferFree && (0 <? FreeGenerationsLeft u)
  then Some (withLast stamp (withFree (FreeGenerationsLeft u - 1) u))
  else if 0 <? PaidGenerations u
  then Some (withPaid (PaidGenerations u - 1) u)
  else None.

(** The free allotment an account holds at [now], once the day-boundary rule
    is applied. *)
Definition freeAt (tz : Z) (now : Time) (u : User) : Z :=
  if Before (LastFreeGeneration u) (startOfDay tz now) then 1 else FreeGenerationsLeft u.

(** [u'] is [u] with exactly one credit taken at [now]: the free one, or a
    paid one. *)
Definition debitedOne (tz : Z) (now : Time) (u u' : User) : Prop :=
  (FreeGenerationsLeft u' = freeAt tz now u - 1 /\ PaidGenerations u' = PaidGenerations u)
  \/ (PaidGenerations u' = PaidGenerations u - 1
      /\ FreeGenerationsLeft u' = FreeGenerationsLeft u).

(** The rows of the sequential ledger: a free credit in hand has no stamp. *)
Definition unstampedWhenFree (u : User) : Prop :=
  0 < FreeGenerationsLeft u -> LastFreeGeneration u = zeroTime.

(** A poll answer that leaves the task running: the exchange or the decoding
    failed, or the task is in a state other than [success] and [fail]. *)
Definition pollPending (w : World) (i : Z) : bool :=
  match w_pollHTTP w i with
  | HttpSendErr _ => true
  | HttpReadErr _ _ => true
  | HttpResp _ body =>
      match w_unmarshalTask w body with
      | Err _ => true
      | Ok taskResp =>
          (tr_Code taskResp =? 200)
          && negb (String.eqb (tr_State taskResp) "success")
          && negb (String.eqb (tr_State taskResp) "fail")
      end
  end.

(** A poll answer that reports success with [url] as first result. *)
Definition pollSucceeded (w : World) (i : Z) (url : string) : bool :=
  match w_pollHTTP w i with
  | HttpResp _ body =>
      match w_unmarshalTask w body with
      | Ok taskResp =>
          (tr_Code taskResp =? 200)
          && String.eqb (tr_State taskResp) "success"
          && negb (String.eqb (tr_ResultJSON taskResp) "")
          && match w_unmarshalResult w (tr_ResultJSON taskResp) with
             | Ok res =>
                 match ResultUrls res with
                 | u :: _ => String.eqb u url
                 | [] => false
                 end
             | Err _ => false
             end
      | Err _ => false
      end
  | _ => false
  end.

Definition isPoll (e : Event) : bool :=
  match e with
  | EvPoll _ _ => true
  | _ => false
  end.

Definition isSleep (e : Event) : bool :=
  match e with
  | EvSleep _ => true
  | _ => false
  end.

Definition polls (tr : list Event) : nat := List.length (List.filter isPoll tr).

(** The trace of [n] polls, numbered from [i], that each found the task
    running and were each followed by a sleep of [interval]. *)
Fixpoint waitingTrace (url : string) (interval : Duration) (n : nat) (i : Z) : list Event :=
  match n with
  | O => []
  | S k => EvPoll url i :: EvSleep interval :: waitingTrace url interval k (i + 1)
  end.

Definition recordInfoURL (taskID : string) : string :=
  "https://api.kie.ai/api/v1/jobs/recordInfo?taskId=" +:+ taskID.

(** Every sleep of the trace lasts [interval]. *)
Definition sleepsAre (interval : Duration) (tr : list Event) : Prop :=
  Forall (fun e => isSleep e = true -> e = EvSleep interval) tr.

(** The row and the store [CheckGenerationLimit] leaves behind for the
    account [u], and the flag the handler then derives from that row. *)
Definition checkedUser (tz : Z) (now : Time) (u : User) : User :=
  if Before (LastFreeGeneration u) (startOfDay tz now)
  then withLast zeroTime (withFree 1 u) else u.

Definition checkedDB (tz : Z) (now : Time) (db : DB) (u : User) : DB :=
  if Before (LastFreeGeneration u) (startOfDay tz now)
  then saveUser db (checkedUser tz now u) else db.

Definition chooseFree (tz : Z) (now : Time) (u : User) : bool :=
  (0 <? FreeGenerationsLeft u)
  && (Before (LastFreeGeneration u) (startOfDay tz now) || IsZero (LastFreeGeneration u)).

Definition noGenerationsLeft (remaining : Z) : Response :=
  mkResponse StatusPaymentRequired
    (BNoGenerations "No generations left" remaining
       "You have reached your generation limit. Please purchase a package to continue.").

(** The stores the server can be in: it starts empty, and each step is one
    of the operations that write to the store.  A sign-in files the row under
    whatever id the identity provider returned; the two halves of the
    generate-cover handler are separate steps, so that requests may overlap;
    a purchase is the create-payment handler, and an intent may also be
    added as such. *)
Inductive reachable : DB -> Prop :=
| reach_empty : reachable emptyDB
| reach_signin (db : DB) (userID email name picture : string) :
    reachable db ->
    reachable (fst (GetOrCreateUser db userID email name picture))
| reach_limits (db : DB) (tz : Z) (now : Time) (userID : string) :
    reachable db -> reachable (fst (CheckGenerationLimit tz now db userID))
| reach_limitStep (db : DB) (w : World) (user_id : option Value)
    (req : option GenerateCoverRequest) :
    reachable db -> reachable (fst (limitStep w db user_id req))
| reach_settle (db : DB) (w : World) (t : Ticket) (outcome : result string) :
    reachable db -> reachable (snd (fst (settle w db t outcome)))
| reach_intent (db : DB) (t : Transaction) :
    reachable db -> reachable (mkDB (users db) (generations db) (transactions db ++ [t]))
| reach_purchase (db : DB) (pw : PayWorld) (session : gmap string Value)
    (req : option PaymentRequest) :
    reachable db -> reachable (snd (fst (paymentCreateHandler pw db session req)))
| reach_webhook (db : DB) (webhookData : option (gmap string Value)) :
    reachable db -> reachable (snd (paymentWebhook db webhookData)).

(** What holds of every row of a reachable store. *)
Definition rowInvariant (k : string) (u : User) : Prop :=
  ID u = k /\ 0 <= FreeGenerationsLeft u <= 1 /\ unstampedWhenFree u.

Definition storeInvariant (db : DB) : Prop :=
  forall k u, users db !! k = Some u -> rowInvariant k u.

(** Every counter of the store is at least 0. *)
Definition nonNegative (db : DB) : Prop :=
  forall k u, users db !! k = Some u ->
    0 <= FreeGenerationsLeft u /\ 0 <= PaidGenerations u.

(** A poll answer that reports the task failed, with its message and code. *)
Definition pollFailed (w : World) (i : Z) (failMsg failCode : string) : bool :=
  match w_pollHTTP w i with
  | HttpResp _ body =>
      match w_unmarshalTask w body with
      | Ok taskResp =>
          (tr_Code taskResp =? 200)
          && negb (String.eqb (tr_State taskResp) "success")
          && String.eqb (tr_State taskResp) "fail"
          && String.eqb (tr_FailMsg taskResp) failMsg
          && String.eqb (tr_FailCode taskResp) failCode
      | Err _ => false
      end
  | _ => false
  end.

(** The price the create-payment handler charges for [pkg] in [currency], and
    the intent it writes before it calls the gateway. *)
Definition priceIn (currency : string) (pkg : Package) : Z :=
  if String.eqb currency "RUB" then PriceRUB pkg else PriceUSD pkg.

Definition pendingIntent (pw : PayWorld) (userID : string) (req : PaymentRequest)
  (pkg : Package) : Transaction :=
  mkTransaction (p_uuid_transaction pw) userID (pr_PackageType req)
    (priceIn (pr_Currency req) pkg) (pr_Currency req) "pending" "".

(** No row of the store has the id or the order reference of [t]. *)
Definition freshFor (db : DB) (t : Transaction) : Prop :=
  Forall (fun x => tx_ID x <> tx_ID t /\ LavaOrderID x <> LavaOrderID t) (transactions db).

Definition addIntent (db : DB) (t : Transaction) : DB :=
  mkDB (users db) (generations db) (transactions db ++ [t]).

(** Whether the character [c] occurs in [s]. *)
Fixpoint occurs (c : ascii) (s : string) : bool :=
  match s with
  | EmptyString => false
  | String d rest => Ascii.eqb d c || occurs c rest
  end.

(** ** Sample data for the examples *)

(** Noon of some day, and the midnight that starts it (location UTC). *)
Definition sampleMidnight : Time := 739584 * Day.
Definition sampleNoon : Time := sampleMidnight + 12 * 60 * Minute.

Definition sampleUnmarshalCreateTask (body : string) : result NanoBananaCreateTaskResponse :=
  if String.eqb body "created" then Ok (mkCreateTaskResponse 200 "success" "task-1")
  else Err "unexpected end of JSON input".

Definition sampleUnmarshalTask (body : string) : result NanoBananaTaskResponse :=
  if String.eqb body "waiting" then Ok (mkTaskResponse 200 "success" "waiting" "" "" "" 0)
  else if String.eqb body "done" then Ok (mkTaskResponse 200 "success" "success" "urls" "" "" 1500)
  else Err "unexpected end of JSON input".

Definition sampleUnmarshalResult (text : string) : result NanoBananaResult :=
  if String.eqb text "urls" then Ok (mkNanoBananaResult ["https://provider.example/result.png"])
  else Err "unexpected end of JSON input".

Definition sampleUnmarshalOpenAI (body : string) : result OpenAIResponse :=
  if String.eqb body "image" then Ok (mkOpenAIResponse ["https://openai.example/result.png"] None)
  else Err "unexpected end of JSON input".

(** A world whose clock stands at [now], with the given answers of the
    provider and of the download; [tag] tells its uuids apart. *)
Definition sampleWorld (now : Time) (tag : string) (create : HTTPOutcome)
  (poll : Z -> HTTPOutcome) (download : HTTPOutcome) : World :=
  mkWorld 0 "nb-key" "oa-key" "https://cover.example" "storage"
    now now now 1700000000 now now
    ("img-" +:+ tag) ("file-" +:+ tag) ("gen-" +:+ tag) ("resp-" +:+ tag)
    (fun _ => Ok []) (fun _ => None)
    sampleUnmarshalCreateTask sampleUnmarshalTask sampleUnmarshalResult sampleUnmarshalOpenAI
    None true
    create poll (HttpResp 200 "image") download
    None None.

Definition pollWaiting (i : Z) : HTTPOutcome := HttpResp 200 "waiting".
Definition pollDoneAt (k : Z) (i : Z) : HTTPOutcome :=
  if i =? k then HttpResp 200 "done" else HttpResp 200 "waiting".

Definition sampleRequest : GenerateCoverRequest :=
  mkGenerateCoverRequest "data:image/png;base64,QUJD" "" "".

Definition sampleUser (free : Z) (last : Time) (paid : Z) : User :=
  mkUser "u1" "u1@example.org" "U One" "" free last paid.

Definition sampleIntent : Transaction :=
  mkTransaction "tx-1" "u1" "pack2" 59900 "RUB" "pending" "order-1".

Definition sampleNotification (status : string) : gmap string Value :=
  <["order_id" := VString "order-1"]> (<["status" := VString status]> ∅).

Definition sampleUnmarshalTaskFailing (body : string) : result NanoBananaTaskResponse :=
  if String.eqb body "failed" then Ok (mkTaskResponse 200 "success" "fail" "" "E42" "" 0)
  else sampleUnmarshalTask body.

(** A world whose task fails at the second poll, and whose decoded image has
    [size] bytes. *)
Definition sampleWorldWith (size : nat) (create : HTTPOutcome) : World :=
  mkWorld 0 "nb-key" "oa-key" "https://cover.example" "storage"
    sampleNoon sampleNoon sampleNoon 1700000000 sampleNoon sampleNoon
    "img-a" "file-a" "gen-a" "resp-a"
    (fun _ => Ok (repeat Byte.x00 size)) (fun _ => None)
    sampleUnmarshalCreateTask sampleUnmarshalTaskFailing sampleUnmarshalResult
    sampleUnmarshalOpenAI
    None true
    create (fun i => if i =? 1 then HttpResp 200 "failed" else HttpResp 200 "waiting")
    (HttpResp 200 "image") (HttpResp 200 "png")
    None None.

(** A world in which the removal of the staged image does not reach the
    cache. *)
Definition sampleWorldNoRemoval : World :=
  mkWorld 0 "nb-key" "oa-key" "https://cover.example" "storage"
    sampleNoon sampleNoon sampleNoon 1700000000 sampleNoon sampleNoon
    "img-a" "file-a" "gen-a" "resp-a"
    (fun _ => Ok [Byte.x41; Byte.x42; Byte.x43]) (fun _ => None)
    sampleUnmarshalCreateTask sampleUnmarshalTask sampleUnmarshalResult
    sampleUnmarshalOpenAI
    None false
    (HttpResp 200 "created") (pollDoneAt 0)
    (HttpResp 200 "image") (HttpResp 200 "png")
    None None.

Definition sampleUnmarshalLava (body : string) : result LavaTopCreateOrderResponse :=
  if String.eqb body "invoice"
  then Ok (mkLavaTopCreateOrderResponse "success" "https://pay.example/inv-1" "inv-1"
             "tx-9" "")
  else Err "unexpected end of JSON input".

(** A gateway that is configured and gives the answer [lava]. *)
Definition samplePayWorld (lava : HTTPOutcome) : PayWorld :=
  mkPayWorld "shop-1" "secret-1" "" "tx-9" (fun _ => None) lava sampleUnmarshalLava.

Definition sampleSession : gmap string Value := <["user_id" := VString "u1"]> ∅.

Definition sampleAuthWorld : AuthWorld :=
  mkAuthWorld "state-1" (fun s => "https://accounts.example/auth?state=" +:+ s)
    None None (Ok (mkUserInfo "u1" "u1@example.org" "U One" "")) None "".

(** * Properties *)

(** ** The helpers on concrete inputs *)

Example Split_data_uri :
  Split "data:image/jpeg;base64,QUJD" ";base64," = ["data:image/jpeg"; "QUJD"].
Proof. reflexivity. Qed.

Example parseImage_data_uri : parseImage "data:image/jpeg;base64,QUJD" = ("QUJD", "jpeg").
Proof. reflexivity. Qed.

Example parseImage_bare : parseImage "QUJD" = ("QUJD", "png").
Proof. reflexivity. Qed.

Example taskTimeout_reference :
  taskTimeout 120 (5 * Second)
  = "task timeout after 120 attempts (approximately 10.0 minutes)".
Proof. reflexivity. Qed.

Example wrap64_overflow : wrap64 (2 ^ 63 - 1 + 1) = - 2 ^ 63.
Proof. reflexivity. Qed.

Example startOfDay_sample : startOfDay 0 sampleNoon = sampleMidnight.
Proof. reflexivity. Qed.

(** ** Clock and store *)

Lemma Day_pos : 0 < Day.
Proof. reflexivity. Qed.

Lemma startOfDay_le (tz : Z) (now : Time) : startOfDay tz now <= now.
Proof.
  unfold startOfDay.
  pose proof (Z.mod_pos_bound (now + tz) Day Day_pos). lia.
Qed.

Lemma startOfDay_within (tz : Z) (now : Time) : now < startOfDay tz now + Day.
Proof.
  unfold startOfDay.
  pose proof (Z.mod_pos_bound (now + tz) Day Day_pos). lia.
Qed.

Lemma not_Before_startOfDay (tz : Z) (now : Time) : Before now (startOfDay tz now) = false.
Proof.
  unfold Before. apply Z.ltb_ge. apply startOfDay_le.
Qed.

Lemma firstUser_Some (db : DB) (id : string) (u : User) :
  users db !! id = Some u -> firstUser db id = Ok u.
Proof. intros H. unfold firstUser. now rewrite H. Qed.

Lemma firstUser_None (db : DB) (id : string) :
  users db !! id = None -> firstUser db id = Err ErrRecordNotFound.
Proof. intros H. unfold firstUser. now rewrite H. Qed.

Lemma lookup_saveUser (db : DB) (u : User) : users (saveUser db u) !! ID u = Some u.
Proof. unfold saveUser; simpl. apply lookup_insert_eq. Qed.

Lemma lookup_saveUser_at (db : DB) (u : User) (id : string) :
  ID u = id -> users (saveUser db u) !! id = Some u.
Proof. intros <-. apply lookup_saveUser. Qed.

Lemma lookup_saveUser_ne (db : DB) (u : User) (id : string) :
  ID u <> id -> users (saveUser db u) !! id = users db !! id.
Proof. intros H. unfold saveUser; simpl. now apply lookup_insert_ne. Qed.

(** ** The ledger *)

Lemma UseGeneration_free_eq (tz : Z) (now stamp : Time) (db : DB) (u : User) :
  users db !! ID u = Some u ->
  UseGeneration tz now stamp db (ID u) true =
    if 0 <? freeAt tz now u
    then (saveUser db (withLast stamp (withFree (freeAt tz now u - 1) u)), None)
    else (db, Some ErrRecordNotFound).
Proof.
  intros Hu. unfold UseGeneration, freeAt.
  rewrite (firstUser_Some _ _ _ Hu).
  destruct (Before (LastFreeGeneration u) (startOfDay tz now)); simpl; reflexivity.
Qed.

Lemma UseGeneration_paid_eq (tz : Z) (now stamp : Time) (db : DB) (u : User) :
  users db !! ID u = Some u ->
  UseGeneration tz now stamp db (ID u) false =
    if 0 <? PaidGenerations u
    then (saveUser db (withPaid (PaidGenerations u - 1) u), None)
    else (db, Some ErrRecordNotFound).
Proof.
  intros Hu. unfold UseGeneration.
  now rewrite (firstUser_Some _ _ _ Hu).
Qed.

(** C4, counterexample.  An account with no free credit left today and five
    paid credits: the rule of the specification takes a paid credit, while
    [UseGeneration] called with [isFree = true] fails and takes nothing. *)
Lemma UseGeneration_free_no_fallback :
  let u := sampleUser 0 sampleNoon 5 in
  let db := saveUser emptyDB u in
  freeAt 0 sampleNoon u = 0
  /\ PaidGenerations u = 5
  /\ settleOneCredit_spec 0 sampleNoon sampleNoon u true = Some (withPaid 4 u)
  /\ UseGeneration 0 sampleNoon sampleNoon db "u1" true = (db, Some ErrRecordNotFound).
Proof. vm_compute. repeat split; reflexivity. Qed.

(** C4, amended.  [UseGeneration] debits the balance its flag names and never
    the other one.  With [isFree = true]: when a free credit is left after the
    day-boundary reset it is taken, the stamp is set and the paid balance is
    kept; otherwise the call fails with the record-not-found error and leaves
    the store as it is, whatever the paid balance.  With [isFree = false]: a
    paid credit is taken when there is one, else the call fails likewise.  In
    particular an account with one free and five paid credits ends with no
    free and five paid credits. *)
Theorem UseGeneration_debits_named_balance (tz : Z) (now stamp : Time) (db : DB) (u : User) :
  users db !! ID u = Some u ->
  (0 < freeAt tz now u ->
     exists u', UseGeneration tz now stamp db (ID u) true = (saveUser db u', None)
       /\ ID u' = ID u
       /\ FreeGenerationsLeft u' = freeAt tz now u - 1
       /\ PaidGenerations u' = PaidGenerations u
       /\ LastFreeGeneration u' = stamp)
  /\ (freeAt tz now u <= 0 ->
        UseGeneration tz now stamp db (ID u) true = (db, Some ErrRecordNotFound))
  /\ (0 < PaidGenerations u ->
        exists u', UseGeneration tz now stamp db (ID u) false = (saveUser db u', None)
          /\ ID u' = ID u
          /\ PaidGenerations u' = PaidGenerations u - 1
          /\ FreeGenerationsLeft u' = FreeGenerationsLeft u
          /\ LastFreeGeneration u' = LastFreeGeneration u)
  /\ (PaidGenerations u <= 0 ->
        UseGeneration tz now stamp db (ID u) false = (db, Some ErrRecordNotFound))
  /\ (FreeGenerationsLeft u = 1 -> PaidGenerations u = 5 ->
        exists u', UseGeneration tz now stamp db (ID u) true = (saveUser db u', None)
          /\ FreeGenerationsLeft u' = 0
          /\ PaidGenerations u' = 5).
Proof.
  intros Hu.
  pose proof (UseGeneration_free_eq tz now stamp db u Hu) as Hfree.
  pose proof (UseGeneration_paid_eq tz now stamp db u Hu) as Hpaid.
  repeat split.
  - intros Hpos. apply Z.ltb_lt in Hpos. rewrite Hpos in Hfree.
    eexists. split; [exact Hfree|]. repeat split.
  - intros Hnone. apply Z.ltb_ge in Hnone. now rewrite Hnone in Hfree.
  - intros Hpos. apply Z.ltb_lt in Hpos. rewrite Hpos in Hpaid.
    eexists. split; [exact Hpaid|]. repeat split.
  - intros Hnone. apply Z.ltb_ge in Hnone. now rewrite Hnone in Hpaid.
  - intros Hone Hfive.
    assert (Hf : freeAt tz now u = 1).
    { unfold freeAt. now destruct (Before _ _). }
    rewrite Hf in Hfree. simpl in Hfree.
    eexists. split; [exact Hfree|]. simpl. split; [reflexivity|exact Hfive].
Qed.

Lemma UseGeneration_debits_named_balance_witness :
  let u := sampleUser 1 zeroTime 5 in
  let db := saveUser emptyDB u in
  users db !! ID u = Some u
  /\ exists u', UseGeneration 0 sampleNoon sampleNoon db (ID u) true = (saveUser db u', None)
       /\ FreeGenerationsLeft u' = 0
       /\ PaidGenerations u' = 5.
Proof.
  split; [reflexivity|].
  apply (UseGeneration_debits_named_balance 0 sampleNoon sampleNoon
           (saveUser emptyDB (sampleUser 1 zeroTime 5)) (sampleUser 1 zeroTime 5));
    reflexivity.
Defined.

Lemma CheckGenerationLimit_eq (tz : Z) (now : Time) (db : DB) (u : User) :
  users db !! ID u = Some u ->
  CheckGenerationLimit tz now db (ID u) =
    if Before (LastFreeGeneration u) (startOfDay tz now)
    then (saveUser db (withLast zeroTime (withFree 1 u)),
          Ok (true, wrap64 (1 + PaidGenerations u)))
    else (db, Ok ((0 <? FreeGenerationsLeft u) || (0 <? PaidGenerations u),
                  wrap64 (FreeGenerationsLeft u + PaidGenerations u))).
Proof.
  intros Hu. unfold CheckGenerationLimit.
  rewrite (firstUser_Some _ _ _ Hu).
  destruct (Before (LastFreeGeneration u) (startOfDay tz now)); reflexivity.
Qed.

(** C5, counterexample.  The stamp of the account is a day old and its free
    counter is 0; [UseGeneration] called with [isFree = false] takes the paid
    credit and leaves the free counter at 0 and the stamp as it was: this call
    applies no reset. *)
Lemma UseGeneration_paid_skips_day_reset :
  let u := sampleUser 0 (sampleNoon - Day) 1 in
  let db := saveUser emptyDB u in
  Before (LastFreeGeneration u) (startOfDay 0 sampleNoon) = true
  /\ UseGeneration 0 sampleNoon sampleNoon db "u1" false
     = (saveUser db (sampleUser 0 (sampleNoon - Day) 0), None)
  /\ FreeGenerationsLeft <$> users (fst (UseGeneration 0 sampleNoon sampleNoon db "u1" false)) !! "u1"
     = Some 0.
Proof. vm_compute. repeat split; reflexivity. Qed.

(** C5, amended.  For an account whose stamp is strictly before the start of
    the current local day: [CheckGenerationLimit] first sets the free counter
    to 1 and clears the stamp, saves the row, and answers from the reset
    values (eligible, one free credit plus the paid balance);
    [UseGeneration] called with [isFree = true] first sets the free counter to
    1 and then takes that credit, so the call succeeds and leaves the counter
    at 0 with the stamp set to the instant of the call, which is not before
    the start of its day.  [UseGeneration] called with [isFree = false]
    applies no reset: it leaves the free counter and the stamp as they
    were. *)
Theorem day_reset_before_logic (tz : Z) (now stamp : Time) (db : DB) (u : User) :
  users db !! ID u = Some u ->
  Before (LastFreeGeneration u) (startOfDay tz now) = true ->
  CheckGenerationLimit tz now db (ID u)
    = (saveUser db (withLast zeroTime (withFree 1 u)),
       Ok (true, wrap64 (1 + PaidGenerations u)))
  /\ UseGeneration tz now stamp db (ID u) true
     = (saveUser db (withLast stamp (withFree 0 u)), None)
  /\ Before stamp (startOfDay tz stamp) = false
  /\ (forall u', users (fst (UseGeneration tz now stamp db (ID u) false)) !! ID u = Some u' ->
        FreeGenerationsLeft u' = FreeGenerationsLeft u
        /\ LastFreeGeneration u' = LastFreeGeneration u).
Proof.
  intros Hu Hold. repeat split.
  - rewrite (CheckGenerationLimit_eq _ _ _ _ Hu). now rewrite Hold.
  - rewrite (UseGeneration_free_eq _ _ _ _ _ Hu). unfold freeAt. now rewrite Hold.
  - apply not_Before_startOfDay.
  - rewrite (UseGeneration_paid_eq _ _ _ _ _ Hu) in H.
    destruct (0 <? PaidGenerations u); cbn [fst] in H.
    + rewrite lookup_saveUser_at in H by reflexivity. now inversion H.
    + rewrite Hu in H. now inversion H.
  - rewrite (UseGeneration_paid_eq _ _ _ _ _ Hu) in H.
    destruct (0 <? PaidGenerations u); cbn [fst] in H.
    + rewrite lookup_saveUser_at in H by reflexivity. now inversion H.
    + rewrite Hu in H. now inversion H.
Qed.

Lemma day_reset_before_logic_witness :
  let u := sampleUser 0 (sampleNoon - Day) 3 in
  let db := saveUser emptyDB u in
  users db !! ID u = Some u
  /\ Before (LastFreeGeneration u) (startOfDay 0 sampleNoon) = true
  /\ CheckGenerationLimit 0 sampleNoon db (ID u)
     = (saveUser db (withLast zeroTime (withFree 1 u)), Ok (true, wrap64 (1 + 3))).
Proof.
  split; [reflexivity|]. split; [reflexivity|].
  apply (day_reset_before_logic 0 sampleNoon sampleNoon
           (saveUser emptyDB (sampleUser 0 (sampleNoon - Day) 3))
           (sampleUser 0 (sampleNoon - Day) 3)); reflexivity.
Defined.

(** ** The poll loop *)

Lemma polls_app (a b : list Event) : polls (a ++ b) = (polls a + polls b)%nat.
Proof. unfold polls. rewrite List.filter_app. apply length_app. Qed.

Lemma sleepsAre_app (interval : Duration) (a b : list Event) :
  sleepsAre interval a -> sleepsAre interval b -> sleepsAre interval (a ++ b).
Proof. unfold sleepsAre. intros Ha Hb. apply Forall_app. now split. Qed.

Lemma polls_cons_other (e : Event) (l : list Event) :
  isPoll e = false -> polls (e :: l) = polls l.
Proof. intros H. unfold polls. simpl. now rewrite H. Qed.

Lemma polls_nil : polls [] = 0%nat.
Proof. reflexivity. Qed.

Lemma sleepsAre_cons_other (interval : Duration) (e : Event) (l : list Event) :
  isSleep e = false -> sleepsAre interval l -> sleepsAre interval (e :: l).
Proof.
  intros H Hl. constructor; [|exact Hl]. intros Hs. rewrite H in Hs. discriminate.
Qed.

Lemma sleepsAre_nil (interval : Duration) : sleepsAre interval [].
Proof. constructor. Qed.

(** Closes a goal on the polls and the sleeps of a trace built from pieces
    whose bounds are among the hypotheses. *)
Ltac trace_bounds :=
  repeat match goal with
         | |- _ /\ _ => split
         | |- context [polls (_ ++ _)] => rewrite polls_app
         | |- context [polls (_ :: _)] => rewrite polls_cons_other by reflexivity
         | |- context [polls []] => rewrite polls_nil
         | |- sleepsAre _ (_ ++ _) => apply sleepsAre_app
         | |- sleepsAre _ (_ :: _) => apply sleepsAre_cons_other; [reflexivity|]
         | |- sleepsAre _ [] => apply sleepsAre_nil
         | |- sleepsAre _ _ => assumption
         end;
  try lia.

Lemma pollLoop_polls (w : World) (url : string) (maxAttempts : Z) (interval : Duration)
  (remaining : nat) :
  forall i, (polls (snd (pollLoop w url maxAttempts interval remaining i)) <= remaining)%nat.
Proof.
  induction remaining as [|k IH]; intros i; simpl.
  - apply Nat.le_refl.
  - destruct (w_newRequest w url); [unfold polls; simpl; lia|].
    specialize (IH (i + 1)).
    destruct (pollLoop w url maxAttempts interval k (i + 1)) as [r tr] eqn:Hrec.
    simpl in IH.
    assert (Hretry : (polls (EvPoll url i :: EvSleep interval :: tr) <= S k)%nat).
    { unfold polls in *. simpl. lia. }
    assert (Hstop : (polls [EvPoll url i] <= S k)%nat).
    { unfold polls. simpl. lia. }
    destruct (w_pollHTTP w i) as [e|st e|st body]; try exact Hretry.
    destruct (w_unmarshalTask w body) as [taskResp|e]; try exact Hretry.
    destruct (negb (tr_Code taskResp =? 200)); [exact Hstop|].
    destruct (String.eqb (tr_State taskResp) "success").
    + destruct (String.eqb (tr_ResultJSON taskResp) ""); [exact Hstop|].
      destruct (w_unmarshalResult w (tr_ResultJSON taskResp)) as [res|e]; [|exact Hstop].
      destruct (ResultUrls res); exact Hstop.
    + destruct (String.eqb (tr_State taskResp) "fail"); [exact Hstop|exact Hretry].
Qed.

Lemma pollLoop_sleeps (w : World) (url : string) (maxAttempts : Z) (interval : Duration)
  (remaining : nat) :
  forall i, sleepsAre interval (snd (pollLoop w url maxAttempts interval remaining i)).
Proof.
  unfold sleepsAre.
  induction remaining as [|k IH]; intros i; simpl.
  - constructor.
  - destruct (w_newRequest w url); [constructor|].
    specialize (IH (i + 1)).
    destruct (pollLoop w url maxAttempts interval k (i + 1)) as [r tr] eqn:Hrec.
    simpl in IH.
    assert (Hretry : Forall (fun e => isSleep e = true -> e = EvSleep interval)
                       (EvPoll url i :: EvSleep interval :: tr)).
    { constructor; [discriminate|]. constructor; [reflexivity|exact IH]. }
    assert (Hstop : Forall (fun e => isSleep e = true -> e = EvSleep interval) [EvPoll url i]).
    { constructor; [discriminate|constructor]. }
    destruct (w_pollHTTP w i) as [e|st e|st body]; try exact Hretry.
    destruct (w_unmarshalTask w body) as [taskResp|e]; try exact Hretry.
    destruct (negb (tr_Code taskResp =? 200)); [exact Hstop|].
    destruct (String.eqb (tr_State taskResp) "success").
    + destruct (String.eqb (tr_ResultJSON taskResp) ""); [exact Hstop|].
      destruct (w_unmarshalResult w (tr_ResultJSON taskResp)) as [res|e]; [|exact Hstop].
      destruct (ResultUrls res); exact Hstop.
    + destruct (String.eqb (tr_State taskResp) "fail"); [exact Hstop|exact Hretry].
Qed.

(** One more round when the answer leaves the task running. *)
Lemma pollLoop_pending_step (w : World) (url : string) (maxAttempts : Z)
  (interval : Duration) (k : nat) (i : Z) :
  w_newRequest w url = None ->
  pollPending w i = true ->
  pollLoop w url maxAttempts interval (S k) i =
    (fst (pollLoop w url maxAttempts interval k (i + 1)),
     EvPoll url i :: EvSleep interval :: snd (pollLoop w url maxAttempts interval k (i + 1))).
Proof.
  intros Hreq Hpend. simpl. rewrite Hreq.
  destruct (pollLoop w url maxAttempts interval k (i + 1)) as [r tr]. simpl.
  unfold pollPending in Hpend.
  destruct (w_pollHTTP w i) as [e|st e|st body]; try reflexivity.
  destruct (w_unmarshalTask w body) as [taskResp|e]; try reflexivity.
  apply andb_prop in Hpend as [Hpend Hfail].
  apply andb_prop in Hpend as [Hcode Hsucc].
  rewrite Hcode. simpl.
  apply negb_true_iff in Hsucc. apply negb_true_iff in Hfail.
  now rewrite Hsucc, Hfail.
Qed.

Lemma pollLoop_success_step (w : World) (url : string) (maxAttempts : Z)
  (interval : Duration) (k : nat) (i : Z) (resultURL : string) :
  w_newRequest w url = None ->
  pollSucceeded w i resultURL = true ->
  pollLoop w url maxAttempts interval (S k) i = (Ok resultURL, [EvPoll url i]).
Proof.
  intros Hreq Hok. simpl. rewrite Hreq.
  destruct (pollLoop w url maxAttempts interval k (i + 1)) as [r tr].
  unfold pollSucceeded in Hok.
  destruct (w_pollHTTP w i) as [e|st e|st body]; try discriminate.
  destruct (w_unmarshalTask w body) as [taskResp|e]; try discriminate.
  apply andb_prop in Hok as [Hok Hurl].
  apply andb_prop in Hok as [Hok Hjson].
  apply andb_prop in Hok as [Hcode Hstate].
  rewrite Hcode, Hstate. simpl.
  apply negb_true_iff in Hjson. rewrite Hjson.
  destruct (w_unmarshalResult w (tr_ResultJSON taskResp)) as [res|e]; try discriminate.
  destruct (ResultUrls res) as [|u rest]; try discriminate.
  apply String.eqb_eq in Hurl. now subst.
Qed.

(** [n] rounds that find the task running, then the rest of the loop. *)
Lemma pollLoop_pending_rounds (w : World) (url : string) (maxAttempts : Z)
  (interval : Duration) (n : nat) :
  w_newRequest w url = None ->
  forall (k : nat) (i : Z),
    (forall j, i <= j < i + Z.of_nat n -> pollPending w j = true) ->
    pollLoop w url maxAttempts interval (n + k) i =
      (fst (pollLoop w url maxAttempts interval k (i + Z.of_nat n)),
       waitingTrace url interval n i
       ++ snd (pollLoop w url maxAttempts interval k (i + Z.of_nat n))).
Proof.
  intros Hreq. induction n as [|n IH]; intros k i Hpend.
  - rewrite Z.add_0_r. simpl. now destruct (pollLoop _ _ _ _ _ _).
  - change (S n + k)%nat with (S (n + k)).
    rewrite pollLoop_pending_step; [|exact Hreq|apply Hpend; lia].
    rewrite IH; [|intros j Hj; apply Hpend; lia].
    replace (i + 1 + Z.of_nat n) with (i + Z.of_nat (S n)) by lia.
    reflexivity.
Qed.

Lemma createNanoBananaTask_trace (w : World) (imageURL apiKey customPrompt : string) :
  exists prompt, snd (createNanoBananaTask w imageURL apiKey customPrompt)
                 = [EvCreateTask imageURL prompt].
Proof.
  unfold createNanoBananaTask. eexists.
  destruct (w_createTaskHTTP w); reflexivity.
Qed.

Lemma downloadAndSaveImage_trace (w : World) (imageURL userID storageDir : string) :
  exists rest, snd (downloadAndSaveImage w imageURL userID storageDir) = EvDownload imageURL :: rest
               /\ (rest = [] \/ exists path, rest = [EvWriteFile path]).
Proof.
  unfold downloadAndSaveImage.
  destruct (w_downloadHTTP w) as [e|st e|st body]; simpl.
  - eexists; split; [reflexivity|now left].
  - destruct (negb (st =? 200)); simpl; eexists; (split; [reflexivity|now left]).
  - destruct (negb (st =? 200)); simpl; [eexists; split; [reflexivity|now left]|].
    destruct (w_mkdirAll w); [eexists; split; [reflexivity|now left]|].
    destruct (w_writeFile w); eexists; (split; [reflexivity|right; eexists; reflexivity]).
Qed.

Lemma downloadAndSaveImage_quiet (w : World) (imageURL userID storageDir : string)
  (interval : Duration) :
  polls (snd (downloadAndSaveImage w imageURL userID storageDir)) = 0%nat
  /\ sleepsAre interval (snd (downloadAndSaveImage w imageURL userID storageDir)).
Proof.
  destruct (downloadAndSaveImage_trace w imageURL userID storageDir) as [rest [-> Hrest]].
  unfold sleepsAre.
  destruct Hrest as [-> | [path ->]]; split; try reflexivity;
    repeat (constructor; try discriminate).
Qed.

Lemma polls_waitingTrace (url : string) (interval : Duration) (n : nat) (i : Z) :
  polls (waitingTrace url interval n i) = n.
Proof.
  unfold polls. revert i.
  induction n as [|n IH]; intros i; simpl; [reflexivity|]. now rewrite IH.
Qed.

(** The loop run with [n + 1] attempts allowed, when the first [n] answers
    leave the task running and the next one reports success. *)
Lemma pollNanoBananaTask_last_attempt (w : World) (taskID apiKey : string)
  (interval : Duration) (n : nat) (resultURL : string) :
  w_newRequest w (recordInfoURL taskID) = None ->
  (forall i, 0 <= i < Z.of_nat n -> pollPending w i = true) ->
  pollSucceeded w (Z.of_nat n) resultURL = true ->
  pollNanoBananaTask w taskID apiKey (Z.of_nat (n + 1)) interval
  = (Ok resultURL,
     waitingTrace (recordInfoURL taskID) interval n 0
     ++ [EvPoll (recordInfoURL taskID) (Z.of_nat n)]).
Proof.
  intros Hreq Hpend Hok.
  unfold pollNanoBananaTask. fold (recordInfoURL taskID).
  rewrite Nat2Z.id.
  rewrite pollLoop_pending_rounds; [|exact Hreq|intros j Hj; apply Hpend; lia].
  rewrite Z.add_0_l.
  now rewrite (pollLoop_success_step _ _ _ _ _ _ resultURL Hreq Hok).
Qed.

(** The loop when every answer it is allowed leaves the task running. *)
Lemma pollNanoBananaTask_exhausted (w : World) (taskID apiKey : string)
  (interval : Duration) (n : nat) :
  w_newRequest w (recordInfoURL taskID) = None ->
  (forall i, 0 <= i < Z.of_nat n -> pollPending w i = true) ->
  pollNanoBananaTask w taskID apiKey (Z.of_nat n) interval
  = (Err (taskTimeout (Z.of_nat n) interval),
     waitingTrace (recordInfoURL taskID) interval n 0).
Proof.
  intros Hreq Hpend.
  unfold pollNanoBananaTask. fold (recordInfoURL taskID).
  rewrite Nat2Z.id. rewrite <- (Nat.add_0_r n) at 2.
  rewrite pollLoop_pending_rounds; [|exact Hreq|intros j Hj; apply Hpend; lia].
  cbn [pollLoop fst snd]. now rewrite app_nil_r.
Qed.

(** C7.  The poll loop issues at most [maxAttempts] requests and sleeps
    [interval] after each one that finds the task running; the orchestrator
    runs it with 120 attempts and 5 seconds, so a generation polls at most 120
    times and sleeps 5 seconds each time.  Once the orchestrator has staged
    the image and created the task: when the first 119 answers leave the
    task running and answer 120 reports success, the orchestrator returns a
    cover (the saved copy, or the provider's URL) after exactly 120 polls
    and 119 sleeps; when all 120 answers leave the task running, it returns
    the time-out error after exactly 120 polls and asks no further. *)
Theorem poll_stops_at_ceiling (w : World) (redis : gmap string (list Byte.byte * Time))
  (imageData imageFormat apiKey userID storageDir customPrompt : string) :
  let run := generateCoverWithNanoBanana w redis imageData imageFormat apiKey userID
               storageDir customPrompt in
  let key := "image:" +:+ (w_uuid_image w +:+ "." +:+ imageFormat) in
  let imageURL := getenvBASE_URL w +:+ "/api/image/"
                  +:+ (w_uuid_image w +:+ "." +:+ imageFormat) in
  ((polls (snd run) <= 120)%nat /\ sleepsAre (5 * Second) (snd run))
  /\ (forall taskID maxAttempts interval,
        (polls (snd (pollNanoBananaTask w taskID apiKey maxAttempts interval))
         <= Z.to_nat maxAttempts)%nat
        /\ sleepsAre interval (snd (pollNanoBananaTask w taskID apiKey maxAttempts interval)))
  /\ (forall decodedData taskID tr1,
        w_base64 w imageData = Ok decodedData ->
        (10 * 1024 * 1024 <? Z.of_nat (length decodedData)) = false ->
        w_redisSet w = None ->
        createNanoBananaTask w imageURL apiKey customPrompt = (Ok taskID, tr1) ->
        w_newRequest w (recordInfoURL taskID) = None ->
        (forall resultURL,
            (forall i, 0 <= i < 119 -> pollPending w i = true) ->
            pollSucceeded w 119 resultURL = true ->
            exists cover after,
              run = (Ok cover,
                     redisDel w (<[key := (decodedData, w_now_redis w + 30 * Minute)]> redis)
                       key,
                     EvRedisSet key (30 * Minute)
                     :: tr1
                     ++ waitingTrace (recordInfoURL taskID) (5 * Second) 119 0
                     ++ [EvPoll (recordInfoURL taskID) 119]
                     ++ EvRedisDel key :: after)
              /\ polls (snd run) = 120%nat
              /\ polls after = 0%nat
              /\ (cover = resultURL
                  \/ exists savedPath,
                       cover = getenvBASE_URL w +:+ "/storage/" +:+ savedPath))
        /\ ((forall i, 0 <= i < 120 -> pollPending w i = true) ->
            run = (Err ("failed to get Nano Banana result: "
                        +:+ "task timeout after 120 attempts (approximately 10.0 minutes)"),
                   redisDel w (<[key := (decodedData, w_now_redis w + 30 * Minute)]> redis)
                     key,
                   EvRedisSet key (30 * Minute)
                   :: tr1
                   ++ waitingTrace (recordInfoURL taskID) (5 * Second) 120 0
                   ++ [EvRedisDel key])
            /\ polls (snd run) = 120%nat)).
Proof.
  intros run key imageURL. split; [|split].
  - subst run. unfold generateCoverWithNanoBanana.
    destruct (w_base64 w imageData) as [decodedData|e]; [|simpl snd; trace_bounds].
    destruct (10 * 1024 * 1024 <? Z.of_nat (length decodedData)); [simpl snd; trace_bounds|].
    destruct (redisSet w redis _ decodedData (30 * Minute)) as [redis1|e];
      [|simpl snd; trace_bounds].
    destruct (createNanoBananaTask_trace w
                (getenvBASE_URL w +:+ "/api/image/" +:+ (w_uuid_image w +:+ "." +:+ imageFormat))
                apiKey customPrompt) as [prompt Htr1].
    destruct (createNanoBananaTask w _ apiKey customPrompt) as [task tr1].
    simpl in Htr1. subst tr1.
    destruct task as [taskID'|e]; [|simpl snd; trace_bounds].
    pose proof (pollLoop_polls w (recordInfoURL taskID') 120 (5 * Second) 120 0) as Hp.
    pose proof (pollLoop_sleeps w (recordInfoURL taskID') 120 (5 * Second) 120 0) as Hs.
    unfold pollNanoBananaTask. fold (recordInfoURL taskID').
    change (Z.to_nat 120) with 120%nat.
    lazymatch goal with
    | |- context [pollLoop w (recordInfoURL taskID') 120 (5 * Second) 120 0] => idtac
    end.
    destruct (pollLoop w (recordInfoURL taskID') 120 (5 * Second) 120 0) as [polled tr2].
    simpl in Hp, Hs.
    destruct polled as [resultURL|e]; [|simpl snd; trace_bounds].
    destruct (downloadAndSaveImage_quiet w resultURL userID storageDir (5 * Second))
      as [Hq Hqs].
    destruct (downloadAndSaveImage w resultURL userID storageDir) as [saved tr3].
    simpl in Hq, Hqs.
    destruct saved as [savedPath|e]; simpl snd; trace_bounds.
  - intros taskID maxAttempts interval. unfold pollNanoBananaTask. split.
    + apply pollLoop_polls.
    + apply pollLoop_sleeps.
  - intros decodedData taskID tr1 Hdec Hsize Hset Hcreate Hreq.
    assert (Htr1 : polls tr1 = 0%nat).
    { destruct (createNanoBananaTask_trace w imageURL apiKey customPrompt) as [prompt Htr].
      rewrite Hcreate in Htr. cbn [snd] in Htr. now subst tr1. }
    assert (Hrun : run
                   = let '(polled, tr2) := pollNanoBananaTask w taskID apiKey 120 (5 * Second) in
                     match polled with
                     | Err e =>
                         (Err ("failed to get Nano Banana result: " +:+ e),
                          redisDel w
                            (<[key := (decodedData, w_now_redis w + 30 * Minute)]> redis) key,
                          EvRedisSet key (30 * Minute) :: tr1 ++ tr2 ++ [EvRedisDel key])
                     | Ok resultURL =>
                         let '(saved, tr3) :=
                           downloadAndSaveImage w resultURL userID storageDir in
                         let tr := EvRedisSet key (30 * Minute)
                                   :: tr1 ++ tr2 ++ [EvRedisDel key] ++ tr3 in
                         match saved with
                         | Err e =>
                             (Ok resultURL,
                              redisDel w
                                (<[key := (decodedData, w_now_redis w + 30 * Minute)]> redis)
                                key,
                              tr ++ [EvWarn ("Warning: Failed to save image locally: " +:+ e)])
                         | Ok savedPath =>
                             (Ok (getenvBASE_URL w +:+ "/storage/" +:+ savedPath),
                              redisDel w
                                (<[key := (decodedData, w_now_redis w + 30 * Minute)]> redis)
                                key, tr)
                         end
                     end).
    { subst run key imageURL. unfold generateCoverWithNanoBanana, redisSet.
      rewrite Hdec, Hsize, Hset. cbv zeta. rewrite Hcreate. reflexivity. }
    split.
    + intros resultURL Hpend Hok.
      pose proof (pollNanoBananaTask_last_attempt w taskID apiKey (5 * Second) 119 resultURL
                    Hreq Hpend Hok) as Hpoll.
      change (Z.of_nat (119 + 1)) with 120 in Hpoll.
      change (Z.of_nat 119) with 119 in Hpoll.
      rewrite Hpoll in Hrun.
      destruct (downloadAndSaveImage_quiet w resultURL userID storageDir (5 * Second))
        as [Hq _].
      destruct (downloadAndSaveImage w resultURL userID storageDir) as [saved tr3].
      cbn [snd] in Hq.
      destruct saved as [savedPath|e].
      * exists (getenvBASE_URL w +:+ "/storage/" +:+ savedPath), tr3.
        rewrite Hrun. cbn [snd]. split; [|split; [|split]].
        -- reflexivity.
        -- repeat first [rewrite polls_app | rewrite polls_cons_other by reflexivity
                         | rewrite polls_waitingTrace].
           rewrite ?Htr1, ?Hq. reflexivity.
        -- exact Hq.
        -- right. now exists savedPath.
      * exists resultURL,
          (tr3 ++ [EvWarn ("Warning: Failed to save image locally: " +:+ e)]).
        rewrite Hrun. cbn [snd]. split; [|split; [|split]].
        -- f_equal. cbn [app]. rewrite <- !app_assoc. reflexivity.
        -- repeat first [rewrite polls_app | rewrite polls_cons_other by reflexivity
                         | rewrite polls_waitingTrace].
           rewrite ?Htr1, ?Hq. reflexivity.
        -- rewrite polls_app, Hq. reflexivity.
        -- now left.
    + intros Hpend.
      pose proof (pollNanoBananaTask_exhausted w taskID apiKey (5 * Second) 120 Hreq Hpend)
        as Hpoll.
      change (Z.of_nat 120) with 120 in Hpoll.
      rewrite Hpoll in Hrun. rewrite Hrun. cbn [snd]. split.
      * reflexivity.
      * repeat first [rewrite polls_app | rewrite polls_cons_other by reflexivity
                      | rewrite polls_waitingTrace].
        rewrite ?Htr1. reflexivity.
Qed.

Lemma poll_stops_at_ceiling_witness :
  let w := sampleWorld sampleNoon "a" (HttpResp 200 "created") (pollDoneAt 119)
             (HttpResp 200 "png") in
  let w' := sampleWorld sampleNoon "a" (HttpResp 200 "created") pollWaiting
              (HttpResp 200 "png") in
  let run := generateCoverWithNanoBanana w ∅ "QUJD" "png" "nb-key" "u1" "storage" "" in
  let run' := generateCoverWithNanoBanana w' ∅ "QUJD" "png" "nb-key" "u1" "storage" "" in
  ((exists cover, fst (fst run) = Ok cover) /\ polls (snd run) = 120%nat)
  /\ (fst (fst run')
      = Err ("failed to get Nano Banana result: "
             +:+ "task timeout after 120 attempts (approximately 10.0 minutes)")
      /\ polls (snd run') = 120%nat).
Proof.
  intros w w' run run'. split.
  - pose proof (poll_stops_at_ceiling w ∅ "QUJD" "png" "nb-key" "u1" "storage" "") as H.
    cbv zeta in H. destruct H as [_ [_ H]].
    destruct (H [] "task-1"
                (snd (createNanoBananaTask w
                        (getenvBASE_URL w +:+ "/api/image/"
                         +:+ (w_uuid_image w +:+ "." +:+ "png")) "nb-key" "")))
      as [Hok _]; [reflexivity|reflexivity|reflexivity|reflexivity|reflexivity|].
    destruct (Hok "https://provider.example/result.png") as [cover [after [Heq [Hn _]]]].
    + intros i Hi. unfold pollPending, w, sampleWorld, pollDoneAt. simpl.
      destruct (Z.eqb_spec i 119) as [Heq|Hne]; [lia|reflexivity].
    + reflexivity.
    + split; [|exact Hn]. exists cover. subst run. now rewrite Heq.
  - pose proof (poll_stops_at_ceiling w' ∅ "QUJD" "png" "nb-key" "u1" "storage" "") as H.
    cbv zeta in H. destruct H as [_ [_ H]].
    destruct (H [] "task-1"
                (snd (createNanoBananaTask w'
                        (getenvBASE_URL w' +:+ "/api/image/"
                         +:+ (w_uuid_image w' +:+ "." +:+ "png")) "nb-key" "")))
      as [_ Hout]; [reflexivity|reflexivity|reflexivity|reflexivity|reflexivity|].
    destruct Hout as [Heq Hn].
    + intros i Hi. reflexivity.
    + split; [|exact Hn]. subst run'. now rewrite Heq.
Defined.
(** ** The staged image *)

Lemma redisGet_after_expiry (w : World) (redis : gmap string (list Byte.byte * Time))
  (key : string) (value : list Byte.byte) (ttl : Duration) (now : Time) :
  w_now_redis w + ttl <= now ->
  redisGet (redisDel w (<[key := (value, w_now_redis w + ttl)]> redis) key) key now = None.
Proof.
  intros Hnow. unfold redisGet, redisDel.
  destruct (w_redisDel w).
  - now rewrite lookup_delete_eq.
  - rewrite lookup_insert_eq.
    destruct (Z.ltb_spec now (w_now_redis w + ttl)); [lia|reflexivity].
Qed.

Lemma generateCoverWithNanoBanana_staged (w : World)
  (redis : gmap string (list Byte.byte * Time))
  (imageData imageFormat apiKey userID storageDir customPrompt : string)
  (decodedData : list Byte.byte) :
  w_base64 w imageData = Ok decodedData ->
  (10 * 1024 * 1024 <? Z.of_nat (length decodedData)) = false ->
  w_redisSet w = None ->
  exists r before after,
    generateCoverWithNanoBanana w redis imageData imageFormat apiKey userID storageDir
      customPrompt
    = (r,
       redisDel w
         (<["image:" +:+ (w_uuid_image w +:+ "." +:+ imageFormat)
            := (decodedData, w_now_redis w + 30 * Minute)]> redis)
         ("image:" +:+ (w_uuid_image w +:+ "." +:+ imageFormat)),
       EvRedisSet ("image:" +:+ (w_uuid_image w +:+ "." +:+ imageFormat)) (30 * Minute)
       :: before
       ++ EvRedisDel ("image:" +:+ (w_uuid_image w +:+ "." +:+ imageFormat)) :: after).
Proof.
  intros Hdec Hsize Hset. unfold generateCoverWithNanoBanana, redisSet.
  rewrite Hdec, Hsize, Hset.
  destruct (createNanoBananaTask w _ apiKey customPrompt) as [[taskID|e] tr1].
  - destruct (pollNanoBananaTask w taskID apiKey 120 (5 * Second)) as [[resultURL|e] tr2].
    + destruct (downloadAndSaveImage w resultURL userID storageDir) as [[savedPath|e] tr3].
      * eexists _, (tr1 ++ tr2), tr3. rewrite <- app_assoc. reflexivity.
      * exists (Ok resultURL), (tr1 ++ tr2),
          (tr3 ++ [EvWarn ("Warning: Failed to save image locally: " +:+ e)]).
        f_equal. simpl. f_equal. rewrite <- !app_assoc. reflexivity.
    + eexists _, (tr1 ++ tr2), []. rewrite <- app_assoc. reflexivity.
  - eexists _, tr1, []. reflexivity.
Qed.

(** C8.  Whenever the orchestrator has stored the image in the cache, the
    command that removes it is issued in the same call, after the store and
    whatever the provider job ended in; the entry was stored with a life of
    30 minutes, so from that instant on it cannot be read, by the cache or
    through the image endpoint, also when the removal did not reach the
    server; when it reached the server the entry is gone at once. *)
Theorem staged_image_reclaimed (w : World) (redis : gmap string (list Byte.byte * Time))
  (imageData imageFormat apiKey userID storageDir customPrompt : string)
  (decodedData : list Byte.byte) :
  w_base64 w imageData = Ok decodedData ->
  (10 * 1024 * 1024 <? Z.of_nat (length decodedData)) = false ->
  w_redisSet w = None ->
  exists r redis' before after,
    generateCoverWithNanoBanana w redis imageData imageFormat apiKey userID storageDir
      customPrompt
    = (r, redis',
       EvRedisSet ("image:" +:+ (w_uuid_image w +:+ "." +:+ imageFormat)) (30 * Minute)
       :: before
       ++ EvRedisDel ("image:" +:+ (w_uuid_image w +:+ "." +:+ imageFormat)) :: after)
    /\ 30 * Minute = 1800 * Second
    /\ (w_redisDel w = true ->
        redis' !! ("image:" +:+ (w_uuid_image w +:+ "." +:+ imageFormat)) = None)
    /\ (forall now, w_now_redis w + 30 * Minute <= now ->
          redisGet redis' ("image:" +:+ (w_uuid_image w +:+ "." +:+ imageFormat)) now = None
          /\ imageHandler redis' now None (w_uuid_image w +:+ "." +:+ imageFormat)
             = mkResponse StatusNotFound (BError "Image not found")).
Proof.
  intros Hdec Hsize Hset.
  destruct (generateCoverWithNanoBanana_staged w redis imageData imageFormat apiKey userID
              storageDir customPrompt decodedData Hdec Hsize Hset)
    as [r [before [after Heq]]].
  eexists r, _, before, after. split; [exact Heq|].
  split; [reflexivity|]. split.
  - intros Hdel. unfold redisDel. rewrite Hdel. apply lookup_delete_eq.
  - intros now Hnow.
    pose proof (redisGet_after_expiry w redis
                  ("image:" +:+ (w_uuid_image w +:+ "." +:+ imageFormat))
                  decodedData (30 * Minute) now Hnow) as Hget.
    split; [exact Hget|].
    unfold imageHandler. now rewrite Hget.
Qed.

Lemma staged_image_reclaimed_witness :
  let w := sampleWorld sampleNoon "a" (HttpSendErr "connection refused") pollWaiting
             (HttpResp 200 "png") in
  exists r redis' before after,
    generateCoverWithNanoBanana w ∅ "QUJD" "png" "nb-key" "u1" "storage" ""
    = (r, redis', EvRedisSet "image:img-a.png" (30 * Minute)
                  :: before ++ EvRedisDel "image:img-a.png" :: after)
    /\ redis' !! "image:img-a.png" = None.
Proof.
  intros w.
  destruct (staged_image_reclaimed w ∅ "QUJD" "png" "nb-key" "u1" "storage" "" [])
    as [r [redis' [before [after [Heq [_ [Hgone _]]]]]]]; try reflexivity.
  exists r, redis', before, after. split; [exact Heq|].
  apply Hgone. reflexivity.
Defined.

(** ** Degraded success *)

(** C9.  When the provider delivered a result and saving it locally fails,
    [generateCoverWithNanoBanana] and [generateCoverWithOpenAI] return the
    provider's result URL and no error, and the handler answers 200 with that
    URL. *)
Theorem persistence_failure_falls_back (w : World)
  (redis : gmap string (list Byte.byte * Time))
  (imageData imageFormat apiKey userID storageDir customPrompt : string)
  (resultURL : string) (e : error) (tr3 : list Event) :
  downloadAndSaveImage w resultURL userID storageDir = (Err e, tr3) ->
  (forall decodedData taskID tr1 tr2,
      w_base64 w imageData = Ok decodedData ->
      (10 * 1024 * 1024 <? Z.of_nat (length decodedData)) = false ->
      w_redisSet w = None ->
      createNanoBananaTask w
        (getenvBASE_URL w +:+ "/api/image/" +:+ (w_uuid_image w +:+ "." +:+ imageFormat))
        apiKey customPrompt = (Ok taskID, tr1) ->
      pollNanoBananaTask w taskID apiKey 120 (5 * Second) = (Ok resultURL, tr2) ->
      fst (fst (generateCoverWithNanoBanana w redis imageData imageFormat apiKey userID
                  storageDir customPrompt)) = Ok resultURL)
  /\ (forall body openAIResp rest,
        w_openAIHTTP w = HttpResp 200 body ->
        w_unmarshalOpenAI w body = Ok openAIResp ->
        oa_Error openAIResp = None ->
        oa_Data openAIResp = resultURL :: rest ->
        fst (generateCoverWithOpenAI w imageData apiKey userID storageDir customPrompt)
        = Ok resultURL)
  /\ (forall db t,
        fst (fst (settle w db t (Ok resultURL)))
        = mkResponse StatusOK (BCover (w_uuid_response w) resultURL)).
Proof.
  intros Hsave. split; [|split].
  - intros decodedData taskID tr1 tr2 Hdec Hsize Hset Hcreate Hpoll.
    unfold generateCoverWithNanoBanana, redisSet.
    rewrite Hdec, Hsize, Hset, Hcreate, Hpoll, Hsave. reflexivity.
  - intros body openAIResp rest Hhttp Hjson Herr Hdata.
    unfold generateCoverWithOpenAI.
    rewrite Hhttp, Hjson, Herr, Hdata, Hsave. reflexivity.
  - intros db t. unfold settle.
    now destruct (UseGeneration _ _ _ db (t_userID t) (t_useFree t)) as [db' [err|]].
Qed.

Lemma persistence_failure_falls_back_witness :
  let w := sampleWorld sampleNoon "a" (HttpResp 200 "created") (pollDoneAt 0)
             (HttpResp 503 "unavailable") in
  fst (fst (generateCoverWithNanoBanana w ∅ "QUJD" "png" "nb-key" "u1" "storage" ""))
  = Ok "https://provider.example/result.png"
  /\ fst (generateCoverWithOpenAI w "QUJD" "oa-key" "u1" "storage" "")
     = Ok "https://openai.example/result.png".
Proof.
  intros w. split.
  - destruct (persistence_failure_falls_back w ∅ "QUJD" "png" "nb-key" "u1" "storage" ""
                "https://provider.example/result.png"
                "failed to download image: status 503"
                [EvDownload "https://provider.example/result.png"]) as [Hnano _];
      [reflexivity|].
    apply (Hnano [] "task-1"
             [EvCreateTask "https://cover.example/api/image/img-a.png" defaultNanoBananaPrompt]
             [EvPoll (recordInfoURL "task-1") 0]); reflexivity.
  - destruct (persistence_failure_falls_back w ∅ "QUJD" "png" "oa-key" "u1" "storage" ""
                "https://openai.example/result.png"
                "failed to download image: status 503"
                [EvDownload "https://openai.example/result.png"]) as [_ [Hopen _]];
      [reflexivity|].
    apply (Hopen "image" (mkOpenAIResponse ["https://openai.example/result.png"] None) []);
      reflexivity.
Defined.

(** ** The generate-cover handler *)

Lemma checkedUser_ID (tz : Z) (now : Time) (u : User) : ID (checkedUser tz now u) = ID u.
Proof. unfold checkedUser. now destruct (Before _ _). Qed.

Lemma checkedUser_Paid (tz : Z) (now : Time) (u : User) :
  PaidGenerations (checkedUser tz now u) = PaidGenerations u.
Proof. unfold checkedUser. now destruct (Before _ _). Qed.

Lemma checkedUser_Free (tz : Z) (now : Time) (u : User) :
  FreeGenerationsLeft (checkedUser tz now u) = freeAt tz now u.
Proof. unfold checkedUser, freeAt. now destruct (Before _ _). Qed.

Lemma checkedDB_lookup (tz : Z) (now : Time) (db : DB) (u : User) :
  users db !! ID u = Some u ->
  users (checkedDB tz now db u) !! ID u = Some (checkedUser tz now u).
Proof.
  intros Hu. unfold checkedDB, checkedUser.
  destruct (Before _ _); [|exact Hu].
  now apply lookup_saveUser_at.
Qed.

Lemma checkedDB_generations (tz : Z) (now : Time) (db : DB) (u : User) :
  generations (checkedDB tz now db u) = generations db.
Proof. unfold checkedDB. now destruct (Before _ _). Qed.

Lemma CheckGenerationLimit_found (tz : Z) (now : Time) (db : DB) (u : User) :
  users db !! ID u = Some u ->
  CheckGenerationLimit tz now db (ID u) =
    (checkedDB tz now db u,
     Ok ((0 <? FreeGenerationsLeft (checkedUser tz now u))
         || (0 <? PaidGenerations (checkedUser tz now u)),
         wrap64 (FreeGenerationsLeft (checkedUser tz now u)
                 + PaidGenerations (checkedUser tz now u)))).
Proof.
  intros Hu. rewrite (CheckGenerationLimit_eq _ _ _ _ Hu).
  unfold checkedDB, checkedUser.
  destruct (Before (LastFreeGeneration u) (startOfDay tz now)); reflexivity.
Qed.

Lemma CheckGenerationLimit_generations (tz : Z) (now : Time) (db : DB) (id : string) :
  generations (fst (CheckGenerationLimit tz now db id)) = generations db.
Proof.
  unfold CheckGenerationLimit.
  destruct (firstUser db id) as [u|e]; [|reflexivity].
  destruct (Before (LastFreeGeneration u) (startOfDay tz now)); reflexivity.
Qed.

(** The first part of the handler for an account that exists. *)
Lemma limitStep_found (w : World) (db : DB) (user_id : option Value)
  (req : GenerateCoverRequest) (u : User) :
  users db !! ID u = Some u ->
  sessionUserID user_id = ID u ->
  limitStep w db user_id (Some req) =
    (checkedDB (w_tz w) (w_now_check w) db u,
     if (0 <? FreeGenerationsLeft (checkedUser (w_tz w) (w_now_check w) u))
        || (0 <? PaidGenerations (checkedUser (w_tz w) (w_now_check w) u))
     then inr (mkTicket (ID u)
                 (if String.eqb (req_Provider req) "" then "nanobanana" else req_Provider req)
                 (fst (parseImage (req_Image req))) (snd (parseImage (req_Image req)))
                 (req_Prompt req)
                 (chooseFree (w_tz w) (w_now_decide w) (checkedUser (w_tz w) (w_now_check w) u)))
     else inl (noGenerationsLeft
                 (wrap64 (FreeGenerationsLeft (checkedUser (w_tz w) (w_now_check w) u)
                          + PaidGenerations (checkedUser (w_tz w) (w_now_check w) u))))).
Proof.
  intros Hu Hid. unfold limitStep. rewrite Hid.
  destruct (parseImage (req_Image req)) as [imageData imageFormat].
  rewrite (CheckGenerationLimit_found _ _ _ _ Hu).
  destruct ((0 <? FreeGenerationsLeft (checkedUser (w_tz w) (w_now_check w) u))
            || (0 <? PaidGenerations (checkedUser (w_tz w) (w_now_check w) u))); simpl.
  - rewrite (firstUser_Some _ _ _ (checkedDB_lookup _ _ _ _ Hu)). reflexivity.
  - reflexivity.
Qed.

Lemma limitStep_missing (w : World) (db : DB) (user_id : option Value)
  (req : GenerateCoverRequest) :
  users db !! sessionUserID user_id = None ->
  limitStep w db user_id (Some req) =
    (db, inl (mkResponse StatusInternalServerError (BError "Failed to check generation limit"))).
Proof.
  intros Hu. unfold limitStep.
  destruct (parseImage (req_Image req)) as [imageData imageFormat].
  unfold CheckGenerationLimit. now rewrite (firstUser_None _ _ Hu).
Qed.

(** C6.  An account that, the day-boundary rule applied, holds no free and no
    paid credit: the handler answers 402 with the no-generations body, and
    neither the cache nor a provider is touched (the trace is empty, the cache
    and the store are as before). *)
Theorem no_credits_payment_required (w : World) (db : DB)
  (redis : gmap string (list Byte.byte * Time)) (user_id : option Value)
  (req : GenerateCoverRequest) (u : User) :
  users db !! ID u = Some u ->
  sessionUserID user_id = ID u ->
  Before (LastFreeGeneration u) (startOfDay (w_tz w) (w_now_check w)) = false ->
  FreeGenerationsLeft u = 0 ->
  PaidGenerations u = 0 ->
  generateCoverHandler w db redis user_id (Some req) = (noGenerationsLeft 0, db, redis, [])
  /\ code (noGenerationsLeft 0) = 402.
Proof.
  intros Hu Hid Hday Hfree Hpaid. split; [|reflexivity].
  unfold generateCoverHandler. rewrite (limitStep_found _ _ _ _ _ Hu Hid).
  unfold checkedDB, checkedUser. rewrite Hday, Hfree, Hpaid. reflexivity.
Qed.

Lemma no_credits_payment_required_witness :
  let w := sampleWorld sampleNoon "a" (HttpResp 200 "created") (pollDoneAt 0)
             (HttpResp 200 "png") in
  let u := sampleUser 0 (sampleNoon - Minute) 0 in
  let db := saveUser emptyDB u in
  generateCoverHandler w db ∅ (Some (VString "u1")) (Some sampleRequest)
  = (noGenerationsLeft 0, db, ∅, []).
Proof.
  intros w u db.
  apply (no_credits_payment_required w db ∅ (Some (VString "u1")) sampleRequest u);
    reflexivity.
Defined.

(** C10.  A request whose session holds no string [user_id] runs for the id
    [anonymous]; when the store has no row under that id, the limit check
    fails on the lookup and the handler answers 500 before the cache or a
    provider is touched (empty trace, cache and store as before). *)
Theorem unauthenticated_request_rejected (w : World) (db : DB)
  (redis : gmap string (list Byte.byte * Time)) (user_id : option Value)
  (req : GenerateCoverRequest) :
  (forall id, user_id <> Some (VString id)) ->
  users db !! "anonymous" = None ->
  sessionUserID user_id = "anonymous"
  /\ fst (CheckGenerationLimit (w_tz w) (w_now_check w) db "anonymous") = db
  /\ snd (CheckGenerationLimit (w_tz w) (w_now_check w) db "anonymous") = Err ErrRecordNotFound
  /\ generateCoverHandler w db redis user_id (Some req)
     = (mkResponse 500 (BError "Failed to check generation limit"), db, redis, []).
Proof.
  intros Hsession Hrow.
  assert (Hid : sessionUserID user_id = "anonymous").
  { destruct user_id as [[id|]|]; try reflexivity. now destruct (Hsession id). }
  split; [exact Hid|].
  unfold CheckGenerationLimit. rewrite (firstUser_None _ _ Hrow).
  split; [reflexivity|]. split; [reflexivity|].
  unfold generateCoverHandler. rewrite limitStep_missing; [reflexivity|].
  now rewrite Hid.
Qed.

Lemma unauthenticated_request_rejected_witness :
  let w := sampleWorld sampleNoon "a" (HttpResp 200 "created") (pollDoneAt 0)
             (HttpResp 200 "png") in
  let db := saveUser emptyDB (sampleUser 1 zeroTime 5) in
  generateCoverHandler w db ∅ None (Some sampleRequest)
  = (mkResponse 500 (BError "Failed to check generation limit"), db, ∅, []).
Proof.
  intros w db.
  apply (unauthenticated_request_rejected w db ∅ None sampleRequest).
  - intros id. discriminate.
  - reflexivity.
Defined.

Lemma settle_failure (w : World) (db : DB) (t : Ticket) (e : error) :
  exists resp, settle w db t (Err e) = (resp, db, []) /\ code resp <> StatusOK.
Proof.
  unfold settle. eexists. split; [reflexivity|]. simpl.
  destruct (Contains e "API key not configured" || Contains e "IMGBB_API_KEY not set");
    [discriminate|].
  destruct (Contains e "authentication failed" || Contains e "insufficient account balance");
    discriminate.
Qed.

Lemma limitStep_ticket (w : World) (db db1 : DB) (user_id : option Value)
  (req : GenerateCoverRequest) (u : User) (t : Ticket) :
  users db !! ID u = Some u ->
  sessionUserID user_id = ID u ->
  limitStep w db user_id (Some req) = (db1, inr t) ->
  db1 = checkedDB (w_tz w) (w_now_check w) db u
  /\ t_userID t = ID u
  /\ t_useFree t = chooseFree (w_tz w) (w_now_decide w) (checkedUser (w_tz w) (w_now_check w) u)
  /\ ((0 <? FreeGenerationsLeft (checkedUser (w_tz w) (w_now_check w) u))
      || (0 <? PaidGenerations (checkedUser (w_tz w) (w_now_check w) u))) = true.
Proof.
  intros Hu Hid Hstep. rewrite (limitStep_found _ _ _ _ _ Hu Hid) in Hstep.
  destruct ((0 <? FreeGenerationsLeft (checkedUser (w_tz w) (w_now_check w) u))
            || (0 <? PaidGenerations (checkedUser (w_tz w) (w_now_check w) u)));
    inversion Hstep; subst. repeat split.
Qed.

(** C2, counterexample.  The account holds no free credit, its stamp is a day
    old, and the provider cannot be reached: the request fails, and the free
    counter, 0 when the request arrived, is 1 afterwards. *)
Lemma failed_generation_changes_free_counter :
  let w := sampleWorld sampleNoon "a" (HttpSendErr "connection refused") pollWaiting
             (HttpResp 200 "png") in
  let u := sampleUser 0 (sampleNoon - Day) 2 in
  let db := saveUser emptyDB u in
  let run := generateCoverHandler w db ∅ (Some (VString "u1")) (Some sampleRequest) in
  fst (fst (generateCoverWithNanoBanana w ∅ "QUJD" "png" "nb-key" "u1" "storage" ""))
  = Err "failed to create Nano Banana task: failed to send request: connection refused"
  /\ code (fst (fst (fst run))) = 500
  /\ FreeGenerationsLeft <$> users db !! "u1" = Some 0
  /\ FreeGenerationsLeft <$> users (snd (fst (fst run))) !! "u1" = Some 1
  /\ PaidGenerations <$> users (snd (fst (fst run))) !! "u1" = Some 2.
Proof. vm_compute. repeat split; reflexivity. Qed.

(** C2, amended.  When the generation function returns an error, the handler
    answers with an error status, calls neither [UseGeneration] nor the
    creation of a [Generation] row, and leaves the store as the limit check
    left it: the paid balance is the one the request found, and the free
    counter is the one the request found unless the stamp was before the
    current day, in which case the limit check has set it to 1. *)
Theorem failed_generation_debits_nothing (w : World) (db db1 : DB)
  (redis redis' : gmap string (list Byte.byte * Time)) (user_id : option Value)
  (req : GenerateCoverRequest) (u : User) (t : Ticket) (e : error) (tr : list Event) :
  users db !! ID u = Some u ->
  sessionUserID user_id = ID u ->
  limitStep w db user_id (Some req) = (db1, inr t) ->
  generate w redis t = (inr (Err e), redis', tr) ->
  exists resp u1,
    generateCoverHandler w db redis user_id (Some req) = (resp, db1, redis', tr)
    /\ code resp <> StatusOK
    /\ db1 = fst (CheckGenerationLimit (w_tz w) (w_now_check w) db (ID u))
    /\ generations db1 = generations db
    /\ users db1 !! ID u = Some u1
    /\ PaidGenerations u1 = PaidGenerations u
    /\ FreeGenerationsLeft u1 = freeAt (w_tz w) (w_now_check w) u.
Proof.
  intros Hu Hid Hstep Hgen.
  destruct (limitStep_ticket _ _ _ _ _ _ _ Hu Hid Hstep) as [Hdb1 _].
  destruct (settle_failure w db1 t e) as [resp [Hsettle Hcode]].
  exists resp, (checkedUser (w_tz w) (w_now_check w) u).
  split; [|split; [exact Hcode|]].
  - unfold generateCoverHandler. rewrite Hstep, Hgen, Hsettle.
    now rewrite app_nil_r.
  - subst db1. rewrite (CheckGenerationLimit_found _ _ _ _ Hu).
    split; [reflexivity|].
    split; [apply checkedDB_generations|].
    split; [now apply checkedDB_lookup|].
    split; [apply checkedUser_Paid|apply checkedUser_Free].
Qed.

Lemma failed_generation_debits_nothing_witness :
  let w := sampleWorld sampleNoon "a" (HttpSendErr "connection refused") pollWaiting
             (HttpResp 200 "png") in
  let u := sampleUser 1 zeroTime 2 in
  let db := saveUser emptyDB u in
  exists resp u1,
    generateCoverHandler w db ∅ (Some (VString "u1")) (Some sampleRequest)
    = (resp, checkedDB 0 sampleNoon db u, ∅, [EvRedisSet "image:img-a.png" (30 * Minute);
         EvCreateTask "https://cover.example/api/image/img-a.png" defaultNanoBananaPrompt;
         EvRedisDel "image:img-a.png"])
    /\ users (checkedDB 0 sampleNoon db u) !! "u1" = Some u1
    /\ PaidGenerations u1 = 2
    /\ FreeGenerationsLeft u1 = 1.
Proof.
  intros w u db.
  destruct (failed_generation_debits_nothing w db (checkedDB 0 sampleNoon db u) ∅ ∅
              (Some (VString "u1")) sampleRequest u
              (mkTicket "u1" "nanobanana" "QUJD" "png" "" true)
              "failed to create Nano Banana task: failed to send request: connection refused"
              [EvRedisSet "image:img-a.png" (30 * Minute);
               EvCreateTask "https://cover.example/api/image/img-a.png" defaultNanoBananaPrompt;
               EvRedisDel "image:img-a.png"])
    as [resp [u1 [Hrun [_ [_ [_ [Hu1 [Hpaid Hfree]]]]]]]]; try reflexivity.
  exists resp, u1. repeat split; assumption.
Defined.

Lemma limitStep_generations (w : World) (db : DB) (user_id : option Value)
  (req : option GenerateCoverRequest) :
  generations (fst (limitStep w db user_id req)) = generations db.
Proof.
  unfold limitStep. destruct req as [req|]; [|reflexivity].
  destruct (parseImage (req_Image req)) as [imageData imageFormat].
  pose proof (CheckGenerationLimit_generations (w_tz w) (w_now_check w) db
                (sessionUserID user_id)) as Hgen.
  destruct (CheckGenerationLimit (w_tz w) (w_now_check w) db (sessionUserID user_id))
    as [db1 [[canGenerate remaining]|e]]; simpl in Hgen; [|exact Hgen].
  now destruct (negb canGenerate).
Qed.

Lemma limitStep_refusal (w : World) (db db1 : DB) (user_id : option Value)
  (req : option GenerateCoverRequest) (resp : Response) :
  limitStep w db user_id req = (db1, inl resp) -> code resp <> StatusOK.
Proof.
  unfold limitStep. destruct req as [req|]; [|intros H; inversion H; discriminate].
  destruct (parseImage (req_Image req)) as [imageData imageFormat].
  destruct (CheckGenerationLimit (w_tz w) (w_now_check w) db (sessionUserID user_id))
    as [db2 [[canGenerate remaining]|e]]; [|intros H; inversion H; discriminate].
  destruct (negb canGenerate); intros H; inversion H; discriminate.
Qed.

Lemma generate_refusal (w : World) (redis redis' : gmap string (list Byte.byte * Time))
  (t : Ticket) (resp : Response) (tr : list Event) :
  generate w redis t = (inl resp, redis', tr) -> code resp <> StatusOK.
Proof.
  unfold generate.
  destruct (String.eqb (t_provider t) "nanobanana").
  - destruct (String.eqb (w_nanoBananaKey w) ""); [intros H; inversion H; discriminate|].
    destruct (generateCoverWithNanoBanana _ _ _ _ _ _ _ _) as [[r redis1] tr1].
    discriminate.
  - destruct (String.eqb (t_provider t) "openai"); [|intros H; inversion H; discriminate].
    destruct (String.eqb (w_openAIKey w) ""); [intros H; inversion H; discriminate|].
    destruct (generateCoverWithOpenAI _ _ _ _ _ _) as [r tr1].
    discriminate.
Qed.

Lemma createGeneration_users (db : DB) (g : Generation) :
  users (createGeneration db g) = users db.
Proof. reflexivity. Qed.

Lemma UseGeneration_generations (tz : Z) (now stamp : Time) (db : DB) (id : string)
  (isFree : bool) :
  generations (fst (UseGeneration tz now stamp db id isFree)) = generations db.
Proof.
  unfold UseGeneration.
  destruct (firstUser db id) as [u|e]; [|reflexivity].
  destruct isFree.
  - destruct (Before _ _); destruct (0 <? _); reflexivity.
  - destruct (0 <? _); reflexivity.
Qed.

Lemma UseGeneration_failure_keeps (tz : Z) (now stamp : Time) (db : DB) (id : string)
  (isFree : bool) (e : error) :
  snd (UseGeneration tz now stamp db id isFree) = Some e ->
  fst (UseGeneration tz now stamp db id isFree) = db.
Proof.
  unfold UseGeneration.
  destruct (firstUser db id) as [u|e']; [|reflexivity].
  destruct isFree.
  - destruct (Before _ _); destruct (0 <? _); simpl; try discriminate; reflexivity.
  - destruct (0 <? _); simpl; try discriminate; reflexivity.
Qed.

Lemma UseGeneration_success_debits (tz : Z) (now stamp : Time) (db : DB) (u : User)
  (isFree : bool) :
  users db !! ID u = Some u ->
  snd (UseGeneration tz now stamp db (ID u) isFree) = None ->
  exists u', users (fst (UseGeneration tz now stamp db (ID u) isFree)) !! ID u = Some u'
             /\ debitedOne tz now u u'.
Proof.
  intros Hu. destruct isFree.
  - rewrite (UseGeneration_free_eq _ _ _ _ _ Hu).
    destruct (0 <? freeAt tz now u); [|discriminate]. intros _. cbn [fst].
    eexists. split; [now apply lookup_saveUser_at|].
    left. split; reflexivity.
  - rewrite (UseGeneration_paid_eq _ _ _ _ _ Hu).
    destruct (0 <? PaidGenerations u); [|discriminate]. intros _. cbn [fst].
    eexists. split; [now apply lookup_saveUser_at|].
    right. split; reflexivity.
Qed.

(** In the sequential ledger the credit the handler has chosen is there. *)
Lemma chosen_credit_available (tz : Z) (decide use stamp : Time) (db : DB) (u : User) :
  users db !! ID u = Some u ->
  unstampedWhenFree u ->
  ((0 <? FreeGenerationsLeft u) || (0 <? PaidGenerations u)) = true ->
  snd (UseGeneration tz use stamp db (ID u) (chooseFree tz decide u)) = None.
Proof.
  intros Hu Hinv Hcan. unfold chooseFree.
  destruct (Z.ltb_spec 0 (FreeGenerationsLeft u)) as [Hfree|Hfree].
  - rewrite (Hinv Hfree). unfold IsZero, zeroTime. simpl.
    rewrite orb_true_r.
    rewrite (UseGeneration_free_eq _ _ _ _ _ Hu).
    assert (Hpos : (0 <? freeAt tz use u) = true).
    { apply Z.ltb_lt. unfold freeAt. destruct (Before _ _); lia. }
    now rewrite Hpos.
  - simpl in *. rewrite (UseGeneration_paid_eq _ _ _ _ _ Hu). now rewrite Hcan.
Qed.

Lemma checkedUser_unstamped (tz : Z) (now : Time) (u : User) :
  unstampedWhenFree u -> unstampedWhenFree (checkedUser tz now u).
Proof.
  unfold unstampedWhenFree, checkedUser.
  destruct (Before _ _); [reflexivity|auto].
Qed.

(** C3, counterexample.  A new account holds one free credit.  Two requests
    of this account overlap: both pass the limit check before either is
    settled, both generations succeed.  The first settlement takes the free
    credit; the second finds none, [UseGeneration] fails and is only logged,
    and its [Generation] row is written all the same: two rows, one credit
    debited. *)
Lemma generation_row_without_debit :
  let wA := sampleWorld sampleNoon "a" (HttpResp 200 "created") (pollDoneAt 0)
              (HttpResp 200 "png") in
  let wB := sampleWorld (sampleNoon + Second) "b" (HttpResp 200 "created") (pollDoneAt 0)
              (HttpResp 200 "png") in
  let session := Some (VString "u1") in
  let tk := mkTicket "u1" "nanobanana" "QUJD" "png" "" true in
  let urlA := "https://cover.example/storage/u1/file-a_1700000000.png" in
  let urlB := "https://cover.example/storage/u1/file-b_1700000000.png" in
  let db0 := fst (GetOrCreateUser emptyDB "u1" "u1@example.org" "U One" "") in
  let db1 := fst (limitStep wA db0 session (Some sampleRequest)) in
  let db2 := fst (limitStep wB db1 session (Some sampleRequest)) in
  let db3 := snd (fst (settle wA db2 tk (Ok urlA))) in
  let db4 := snd (fst (settle wB db3 tk (Ok urlB))) in
  users db0 !! "u1" = Some (mkUser "u1" "u1@example.org" "U One" "" 1 zeroTime 0)
  /\ snd (limitStep wA db0 session (Some sampleRequest)) = inr tk
  /\ snd (limitStep wB db1 session (Some sampleRequest)) = inr tk
  /\ fst (fst (generate wA ∅ tk)) = inr (Ok urlA)
  /\ fst (fst (generate wB ∅ tk)) = inr (Ok urlB)
  /\ snd (UseGeneration 0 sampleNoon sampleNoon db2 "u1" true) = None
  /\ snd (UseGeneration 0 (sampleNoon + Second) (sampleNoon + Second) db3 "u1" true)
     = Some ErrRecordNotFound
  /\ snd (settle wB db3 tk (Ok urlB))
     = [EvWarn "Warning: Failed to update generation count: record not found"]
  /\ code (fst (fst (settle wB db3 tk (Ok urlB)))) = 200
  /\ generations db4
     = [mkGeneration "gen-a" "u1" urlA "nanobanana" true;
        mkGeneration "gen-b" "u1" urlB "nanobanana" true]
  /\ FreeGenerationsLeft <$> users db4 !! "u1" = Some 0
  /\ PaidGenerations <$> users db4 !! "u1" = Some 0.
Proof. vm_compute. repeat split; reflexivity. Qed.

(** C3, amended.  A [Generation] row is written exactly when the generation
    function succeeded; the handler then calls [UseGeneration] once, before
    writing the row, and writes the row whatever that call returns.  When the
    call succeeds exactly one credit is taken; when it fails the handler logs
    a warning, takes no credit and still writes the row.  When the generation
    function fails, or the request is turned down before it, no row is
    written and no credit is taken.  For a row of the sequential ledger (a
    free credit in hand carries no stamp) the call succeeds, so the row and
    the debit go together. *)
Theorem generation_row_follows_success :
  (forall (w : World) (db : DB) (redis : gmap string (list Byte.byte * Time))
          (user_id : option Value) (req : option GenerateCoverRequest),
      let run := generateCoverHandler w db redis user_id req in
      (code (fst (fst (fst run))) = StatusOK
       /\ exists g, generations (snd (fst (fst run))) = generations db ++ [g])
      \/ (code (fst (fst (fst run))) <> StatusOK
          /\ snd (fst (fst run)) = fst (limitStep w db user_id req)
          /\ generations (snd (fst (fst run))) = generations db))
  /\ (forall (w : World) (db db1 : DB) (redis redis' : gmap string (list Byte.byte * Time))
             (user_id : option Value) (req : GenerateCoverRequest) (u : User) (t : Ticket)
             (coverURL : string) (tr : list Event),
        users db !! ID u = Some u ->
        sessionUserID user_id = ID u ->
        limitStep w db user_id (Some req) = (db1, inr t) ->
        generate w redis t = (inr (Ok coverURL), redis', tr) ->
        let u1 := checkedUser (w_tz w) (w_now_check w) u in
        let used :=
          UseGeneration (w_tz w) (w_now_use w) (w_now_stamp w) db1 (ID u) (t_useFree t) in
        let g :=
          mkGeneration (w_uuid_generation w) (ID u) coverURL (t_provider t) (t_useFree t) in
        exists warned,
          generateCoverHandler w db redis user_id (Some req)
          = (mkResponse StatusOK (BCover (w_uuid_response w) coverURL),
             createGeneration (fst used) g, redis', tr ++ warned)
          /\ generations (createGeneration (fst used) g) = generations db ++ [g]
          /\ users db1 !! ID u = Some u1
          /\ (snd used = None ->
              warned = []
              /\ exists u', users (createGeneration (fst used) g) !! ID u = Some u'
                            /\ debitedOne (w_tz w) (w_now_use w) u1 u')
          /\ (forall e, snd used = Some e ->
                warned = [EvWarn ("Warning: Failed to update generation count: " +:+ e)]
                /\ users (createGeneration (fst used) g) = users db1)
          /\ (unstampedWhenFree u -> snd used = None)).
Proof.
  split.
  - intros w db redis user_id req run. subst run. unfold generateCoverHandler.
    pose proof (limitStep_generations w db user_id req) as Hgen.
    destruct (limitStep w db user_id req) as [db1 [resp|t]] eqn:Hstep; cbn [fst] in Hgen.
    + right. cbn [fst snd]. split; [exact (limitStep_refusal _ _ _ _ _ _ Hstep)|].
      split; [reflexivity|exact Hgen].
    + destruct (generate w redis t) as [[[resp|outcome] redis1] tr] eqn:Hrun.
      * right. cbn [fst snd]. split; [exact (generate_refusal _ _ _ _ _ _ Hrun)|].
        split; [reflexivity|exact Hgen].
      * destruct outcome as [coverURL|e].
        -- left. unfold settle.
           pose proof (UseGeneration_generations (w_tz w) (w_now_use w) (w_now_stamp w) db1
                         (t_userID t) (t_useFree t)) as Hused.
           destruct (UseGeneration (w_tz w) (w_now_use w) (w_now_stamp w) db1
                       (t_userID t) (t_useFree t)) as [db2 used].
           cbn [fst snd] in *. split; [reflexivity|].
           eexists. unfold createGeneration. cbn [generations].
           rewrite Hused, Hgen. reflexivity.
        -- right. destruct (settle_failure w db1 t e) as [resp [Hsettle Hcode]].
           rewrite Hsettle. cbn [fst snd]. split; [exact Hcode|].
           split; [reflexivity|exact Hgen].
  - intros w db db1 redis redis' user_id req u t coverURL tr Hu Hid Hstep Hrun u1 used g.
    destruct (limitStep_ticket _ _ _ _ _ _ _ Hu Hid Hstep) as [Hdb1 [Htid [Hfree Hcan]]].
    assert (Hu1 : users db1 !! ID u1 = Some u1).
    { subst db1 u1. rewrite checkedUser_ID. now apply checkedDB_lookup. }
    assert (Hid1 : ID u1 = ID u) by apply checkedUser_ID.
    exists (match snd used with
            | Some e => [EvWarn ("Warning: Failed to update generation count: " +:+ e)]
            | None => []
            end).
    split; [|split; [|split; [|split; [|split]]]].
    + unfold generateCoverHandler. rewrite Hstep, Hrun. unfold settle.
      rewrite Htid. fold used. subst g.
      destruct used as [db2 r]. reflexivity.
    + unfold createGeneration. cbn [generations]. subst used.
      rewrite UseGeneration_generations. subst db1.
      now rewrite checkedDB_generations.
    + now rewrite <- Hid1.
    + intros Hnone. rewrite Hnone. split; [reflexivity|].
      rewrite createGeneration_users. subst used. rewrite <- Hid1 in *.
      now apply UseGeneration_success_debits.
    + intros e Hsome. rewrite Hsome. split; [reflexivity|].
      rewrite createGeneration_users. f_equal. subst used.
      now apply (UseGeneration_failure_keeps _ _ _ _ _ _ e).
    + intros Hinv. subst used. rewrite Hfree. fold u1. rewrite <- Hid1.
      apply chosen_credit_available; [exact Hu1| |exact Hcan].
      now apply checkedUser_unstamped.
Qed.

Lemma generation_row_follows_success_witness :
  let w := sampleWorld sampleNoon "a" (HttpResp 200 "created") (pollDoneAt 0)
             (HttpResp 200 "png") in
  let u := sampleUser 1 zeroTime 5 in
  let db := saveUser emptyDB u in
  let url := "https://cover.example/storage/u1/file-a_1700000000.png" in
  let run := generateCoverHandler w db ∅ (Some (VString "u1")) (Some sampleRequest) in
  generations (snd (fst (fst run))) = [mkGeneration "gen-a" "u1" url "nanobanana" true]
  /\ exists u', users (snd (fst (fst run))) !! "u1" = Some u'
                /\ debitedOne 0 sampleNoon (checkedUser 0 sampleNoon u) u'.
Proof.
  intros w u db url run.
  destruct generation_row_follows_success as [_ Hrow].
  destruct (Hrow w db (checkedDB 0 sampleNoon db u) ∅ ∅ (Some (VString "u1")) sampleRequest u
              (mkTicket "u1" "nanobanana" "QUJD" "png" "" true) url
              (snd (generate w ∅ (mkTicket "u1" "nanobanana" "QUJD" "png" "" true))))
    as [warned [Hrun [Hgen [_ [Hdebit [_ Hseq]]]]]]; try reflexivity.
  subst run. rewrite Hrun. cbn [fst snd]. split; [exact Hgen|].
  apply Hdebit. apply Hseq. intros _. reflexivity.
Defined.

(** ** The payment webhook *)

Lemma upsertTransaction_ids (t : Transaction) (l : list Transaction) :
  In (tx_ID t) (map tx_ID l) -> map tx_ID (upsertTransaction t l) = map tx_ID l.
Proof.
  induction l as [|t' rest IH]; simpl; [tauto|].
  intros Hin. destruct (String.eqb_spec (tx_ID t') (tx_ID t)) as [Heq|Hne]; simpl.
  - now rewrite Heq.
  - f_equal. apply IH. destruct Hin as [Hin|Hin]; [contradiction|exact Hin].
Qed.

Lemma find_order_upsert (s orderID : string) (t : Transaction) (l : list Transaction) :
  NoDup (map tx_ID l) ->
  find (fun x => String.eqb (LavaOrderID x) orderID) l = Some t ->
  find (fun x => String.eqb (LavaOrderID x) orderID) (upsertTransaction (withStatus s t) l)
  = Some (withStatus s t).
Proof.
  induction l as [|t' rest IH]; simpl; [discriminate|].
  intros Hnodup Hfind. inversion Hnodup as [|? ? Hnotin Hrest]; subst.
  destruct (String.eqb (LavaOrderID t') orderID) eqn:Horder.
  - inversion Hfind; subst t'. rewrite String.eqb_refl. simpl. now rewrite Horder.
  - destruct (String.eqb_spec (tx_ID t') (tx_ID t)) as [Heq|Hne].
    + exfalso. apply Hnotin. rewrite Heq.
      apply list_elem_of_In, in_map. apply (find_some _ _ Hfind).
    + simpl. rewrite Horder. now apply IH.
Qed.

Lemma find_order_In (orderID : string) (t : Transaction) (l : list Transaction) :
  find (fun x => String.eqb (LavaOrderID x) orderID) l = Some t ->
  In (tx_ID t) (map tx_ID l).
Proof. intros Hfind. apply in_map. apply (find_some _ _ Hfind). Qed.

(** One delivery of a success notification for a known order. *)
Lemma paymentWebhook_success (db : DB) (webhookData : gmap string Value)
  (t : Transaction) (pkg : Package) (u : User) :
  asString (webhookData !! "status") = "success"
  \/ asString (webhookData !! "status") = "completed" ->
  NoDup (map tx_ID (transactions db)) ->
  find (fun x => String.eqb (LavaOrderID x) (asString (webhookData !! "order_id")))
       (transactions db) = Some t ->
  find (fun p => String.eqb (pkg_Type p) (PackageType t)) Packages = Some pkg ->
  users db !! ID u = Some u ->
  tx_UserID t = ID u ->
  paymentWebhook db (Some webhookData)
  = (mkResponse StatusOK (BStatus "ok"),
     mkDB (<[ID u := withPaid (wrap64 (PaidGenerations u + Count pkg)) u]> (users db))
          (generations db)
          (upsertTransaction (withStatus "completed" t) (transactions db))).
Proof.
  intros Hstatus Hnodup Hfind Hpkg Hu Huid.
  unfold paymentWebhook, firstTransactionByOrder. rewrite Hfind.
  assert (Hs : (String.eqb (asString (webhookData !! "status")) "success"
                || String.eqb (asString (webhookData !! "status")) "completed") = true).
  { destruct Hstatus as [-> | ->]; reflexivity. }
  rewrite Hs.
  change (PackageType (withStatus "completed" t)) with (PackageType t).
  change (tx_UserID (withStatus "completed" t)) with (tx_UserID t).
  rewrite Hpkg, Huid.
  unfold AddPaidGenerations, saveTransaction, firstUser. cbn [users].
  rewrite Hu. reflexivity.
Qed.

(** C1, counterexample.  A pending intent for [pack2] (30 generations) of an
    account with no paid credit.  The first success notification completes
    the intent and credits 30; the same notification delivered again finds
    the intent completed and credits 30 more. *)
Lemma settlement_applied_twice_credits_twice :
  let db0 := mkDB (users (saveUser emptyDB (sampleUser 0 zeroTime 0))) [] [sampleIntent] in
  let db1 := snd (paymentWebhook db0 (Some (sampleNotification "success"))) in
  let db2 := snd (paymentWebhook db1 (Some (sampleNotification "success"))) in
  firstTransactionByOrder db1 "order-1" = Ok (withStatus "completed" sampleIntent)
  /\ PaidGenerations <$> users db0 !! "u1" = Some 0
  /\ PaidGenerations <$> users db1 !! "u1" = Some 30
  /\ PaidGenerations <$> users db2 !! "u1" = Some 60
  /\ db2 <> db1.
Proof.
  vm_compute. repeat split; try reflexivity.
  intros Heq. inversion Heq.
Qed.

(** C1, amended.  The webhook looks at the notification's status only, never
    at the status the intent already has.  In a store whose intents have
    distinct ids, every delivery of a success notification for a known order
    marks the intent completed and adds the package's count to the paid
    balance of its account: delivered twice, it adds the count twice (in
    64-bit arithmetic, which is the plain sum while it stays in range). *)
Theorem settlement_credits_every_delivery (db : DB) (webhookData : gmap string Value)
  (t : Transaction) (pkg : Package) (u : User) :
  asString (webhookData !! "status") = "success"
  \/ asString (webhookData !! "status") = "completed" ->
  NoDup (map tx_ID (transactions db)) ->
  firstTransactionByOrder db (asString (webhookData !! "order_id")) = Ok t ->
  find (fun p => String.eqb (pkg_Type p) (PackageType t)) Packages = Some pkg ->
  users db !! ID u = Some u ->
  tx_UserID t = ID u ->
  let db1 := snd (paymentWebhook db (Some webhookData)) in
  let db2 := snd (paymentWebhook db1 (Some webhookData)) in
  firstTransactionByOrder db1 (asString (webhookData !! "order_id"))
  = Ok (withStatus "completed" t)
  /\ users db1 !! ID u = Some (withPaid (wrap64 (PaidGenerations u + Count pkg)) u)
  /\ firstTransactionByOrder db2 (asString (webhookData !! "order_id"))
     = Ok (withStatus "completed" t)
  /\ users db2 !! ID u
     = Some (withPaid (wrap64 (wrap64 (PaidGenerations u + Count pkg) + Count pkg)) u)
  /\ (0 <= PaidGenerations u -> 0 <= Count pkg ->
      PaidGenerations u + 2 * Count pkg < 2 ^ 63 ->
      PaidGenerations <$> users db2 !! ID u = Some (PaidGenerations u + 2 * Count pkg)).
Proof.
  intros Hstatus Hnodup Hfirst Hpkg Hu Huid db1 db2.
  assert (Hfind : find (fun x => String.eqb (LavaOrderID x) (asString (webhookData !! "order_id")))
                    (transactions db) = Some t).
  { unfold firstTransactionByOrder in Hfirst.
    destruct (find _ (transactions db)); now inversion Hfirst. }
  pose proof (paymentWebhook_success db webhookData t pkg u Hstatus Hnodup Hfind Hpkg Hu Huid)
    as Hone.
  assert (Hdb1 : db1 = mkDB (<[ID u := withPaid (wrap64 (PaidGenerations u + Count pkg)) u]>
                               (users db))
                            (generations db)
                            (upsertTransaction (withStatus "completed" t) (transactions db))).
  { subst db1. now rewrite Hone. }
  assert (Hfind1 : find (fun x => String.eqb (LavaOrderID x)
                                    (asString (webhookData !! "order_id")))
                     (transactions db1) = Some (withStatus "completed" t)).
  { rewrite Hdb1. cbn [transactions]. now apply find_order_upsert. }
  assert (Hnodup1 : NoDup (map tx_ID (transactions db1))).
  { rewrite Hdb1. cbn [transactions].
    rewrite upsertTransaction_ids; [exact Hnodup|].
    apply (find_order_In _ _ _ Hfind). }
  assert (Hu1 : users db1 !! ID (withPaid (wrap64 (PaidGenerations u + Count pkg)) u)
                = Some (withPaid (wrap64 (PaidGenerations u + Count pkg)) u)).
  { rewrite Hdb1. cbn [users ID withPaid]. apply lookup_insert_eq. }
  pose proof (paymentWebhook_success db1 webhookData (withStatus "completed" t) pkg
                (withPaid (wrap64 (PaidGenerations u + Count pkg)) u)
                Hstatus Hnodup1 Hfind1 Hpkg Hu1 Huid) as Htwo.
  assert (Hfind2 : find (fun x => String.eqb (LavaOrderID x)
                                    (asString (webhookData !! "order_id")))
                     (transactions db2) = Some (withStatus "completed" t)).
  { subst db2. rewrite Htwo. cbn [snd transactions].
    now apply (find_order_upsert "completed" _ (withStatus "completed" t)). }
  assert (Hu2 : users db2 !! ID u
                = Some (withPaid (wrap64 (wrap64 (PaidGenerations u + Count pkg) + Count pkg)) u)).
  { subst db2. rewrite Htwo. cbn [snd users ID withPaid PaidGenerations].
    apply lookup_insert_eq. }
  split; [unfold firstTransactionByOrder; now rewrite Hfind1|].
  split; [exact Hu1|].
  split; [unfold firstTransactionByOrder; now rewrite Hfind2|].
  split; [exact Hu2|].
  intros Hpaid Hcount Hrange. rewrite Hu2. cbn [fmap option_fmap option_map PaidGenerations withPaid].
  f_equal. unfold wrap64.
  rewrite (Z.mod_small (PaidGenerations u + Count pkg + 2 ^ 63)) by lia.
  replace (PaidGenerations u + Count pkg + 2 ^ 63 - 2 ^ 63 + Count pkg + 2 ^ 63)
    with (PaidGenerations u + 2 * Count pkg + 2 ^ 63) by lia.
  rewrite Z.mod_small by lia. lia.
Qed.

Lemma settlement_credits_every_delivery_witness :
  let db := mkDB (users (saveUser emptyDB (sampleUser 0 zeroTime 0))) [] [sampleIntent] in
  let db1 := snd (paymentWebhook db (Some (sampleNotification "completed"))) in
  let db2 := snd (paymentWebhook db1 (Some (sampleNotification "completed"))) in
  PaidGenerations <$> users db2 !! "u1" = Some (0 + 2 * 30).
Proof.
  intros db db1 db2.
  destruct (settlement_credits_every_delivery db (sampleNotification "completed")
              sampleIntent (mkPackage "pack2" "Basic" 30 799 59900 true)
              (sampleUser 0 zeroTime 0)) as [_ [_ [_ [_ Htwice]]]].
  - right. reflexivity.
  - repeat constructor. apply not_elem_of_nil.
  - reflexivity.
  - reflexivity.
  - reflexivity.
  - reflexivity.
  - apply Htwice; [reflexivity|discriminate|reflexivity].
Defined.

(** ** Reachable stores *)

Lemma storeInvariant_saveUser (db : DB) (u : User) :
  storeInvariant db -> rowInvariant (ID u) u -> storeInvariant (saveUser db u).
Proof.
  intros Hdb Hu k u' Hlook. unfold saveUser in Hlook. cbn [users] in Hlook.
  destruct (decide (ID u = k)) as [<-|Hne].
  - rewrite lookup_insert_eq in Hlook. now inversion Hlook; subst.
  - rewrite lookup_insert_ne in Hlook by exact Hne. now apply Hdb.
Qed.

Lemma storeInvariant_users (db db' : DB) :
  users db' = users db -> storeInvariant db -> storeInvariant db'.
Proof. intros Heq Hdb k u. rewrite Heq. apply Hdb. Qed.

(** Closes the invariant of a row that was rebuilt from a row [u] whose own
    invariant is among the hypotheses. *)
Ltac row_goal :=
  unfold rowInvariant, unstampedWhenFree in *; cbn;
  repeat split; first [assumption | lia | congruence | intros; lia].

Lemma storeInvariant_CheckGenerationLimit (tz : Z) (now : Time) (db : DB) (id : string) :
  storeInvariant db -> storeInvariant (fst (CheckGenerationLimit tz now db id)).
Proof.
  intros Hdb. unfold CheckGenerationLimit, firstUser.
  destruct (users db !! id) as [u|] eqn:Hu; [|exact Hdb].
  destruct (Hdb _ _ Hu) as [Hid [Hfree Hstamp]]. subst id.
  destruct (Before (LastFreeGeneration u) (startOfDay tz now)); [|exact Hdb].
  cbn [fst]. apply storeInvariant_saveUser; [exact Hdb|]. row_goal.
Qed.

Lemma storeInvariant_UseGeneration (tz : Z) (now stamp : Time) (db : DB) (id : string)
  (isFree : bool) :
  storeInvariant db -> storeInvariant (fst (UseGeneration tz now stamp db id isFree)).
Proof.
  intros Hdb. unfold UseGeneration, firstUser.
  destruct (users db !! id) as [u|] eqn:Hu; [|exact Hdb].
  destruct (Hdb _ _ Hu) as [Hid [Hfree Hstamp]]. subst id.
  destruct isFree.
  - destruct (Before (LastFreeGeneration u) (startOfDay tz now)).
    + cbn. apply storeInvariant_saveUser; [exact Hdb|]. row_goal.
    + destruct (Z.ltb_spec 0 (FreeGenerationsLeft u)) as [Hpos|Hnone]; [|exact Hdb].
      cbn [fst]. apply storeInvariant_saveUser; [exact Hdb|]. row_goal.
  - destruct (0 <? PaidGenerations u); [|exact Hdb].
    cbn [fst]. apply storeInvariant_saveUser; [exact Hdb|]. row_goal.
Qed.

Lemma storeInvariant_AddPaidGenerations (db : DB) (id : string) (count : Z) :
  storeInvariant db -> storeInvariant (fst (AddPaidGenerations db id count)).
Proof.
  intros Hdb. unfold AddPaidGenerations, firstUser.
  destruct (users db !! id) as [u|] eqn:Hu; [|exact Hdb].
  destruct (Hdb _ _ Hu) as [Hid [Hfree Hstamp]]. subst id.
  cbn [fst]. apply storeInvariant_saveUser; [exact Hdb|]. row_goal.
Qed.

Lemma storeInvariant_GetOrCreateUser (db : DB) (userID email name picture : string) :
  storeInvariant db -> storeInvariant (fst (GetOrCreateUser db userID email name picture)).
Proof.
  intros Hdb. unfold GetOrCreateUser, firstUser.
  destruct (users db !! userID) as [u|] eqn:Hu.
  - destruct (Hdb _ _ Hu) as [Hid [Hfree Hstamp]]. subst userID.
    destruct (emailTaken db (ID u) email); [exact Hdb|].
    cbn [fst]. apply storeInvariant_saveUser; [exact Hdb|]. row_goal.
  - destruct (emailTaken db userID email); [exact Hdb|].
    cbn [fst]. apply storeInvariant_saveUser; [exact Hdb|]. row_goal.
Qed.

Lemma storeInvariant_limitStep (w : World) (db : DB) (user_id : option Value)
  (req : option GenerateCoverRequest) :
  storeInvariant db -> storeInvariant (fst (limitStep w db user_id req)).
Proof.
  intros Hdb. unfold limitStep. destruct req as [req|]; [|exact Hdb].
  destruct (parseImage (req_Image req)) as [imageData imageFormat].
  pose proof (storeInvariant_CheckGenerationLimit (w_tz w) (w_now_check w) db
                (sessionUserID user_id) Hdb) as Hchk.
  destruct (CheckGenerationLimit (w_tz w) (w_now_check w) db (sessionUserID user_id))
    as [db1 [[canGenerate remaining]|e]]; cbn [fst] in Hchk; [|exact Hchk].
  now destruct (negb canGenerate).
Qed.

Lemma storeInvariant_settle (w : World) (db : DB) (t : Ticket) (outcome : result string) :
  storeInvariant db -> storeInvariant (snd (fst (settle w db t outcome))).
Proof.
  intros Hdb. unfold settle. destruct outcome as [coverURL|e]; [|exact Hdb].
  pose proof (storeInvariant_UseGeneration (w_tz w) (w_now_use w) (w_now_stamp w) db
                (t_userID t) (t_useFree t) Hdb) as Hused.
  destruct (UseGeneration (w_tz w) (w_now_use w) (w_now_stamp w) db (t_userID t) (t_useFree t))
    as [db1 used]. cbn [fst snd] in *.
  now apply (storeInvariant_users db1).
Qed.

Lemma storeInvariant_paymentWebhook (db : DB) (webhookData : option (gmap string Value)) :
  storeInvariant db -> storeInvariant (snd (paymentWebhook db webhookData)).
Proof.
  intros Hdb. unfold paymentWebhook. destruct webhookData as [webhookData|]; [|exact Hdb].
  destruct (firstTransactionByOrder db (asString (webhookData !! "order_id")))
    as [transaction|e]; [|exact Hdb].
  destruct (String.eqb (asString (webhookData !! "status")) "success"
            || String.eqb (asString (webhookData !! "status")) "completed").
  - cbn [snd].
    destruct (find _ Packages) as [pkg|].
    + apply storeInvariant_AddPaidGenerations.
      now apply (storeInvariant_users db).
    + now apply (storeInvariant_users db).
  - cbn [snd]. now apply (storeInvariant_users db).
Qed.

(** The create-payment handler writes to the transactions only. *)
Lemma paymentCreateHandler_users (pw : PayWorld) (db : DB) (session : gmap string Value)
  (req : option PaymentRequest) :
  users (snd (fst (paymentCreateHandler pw db session req))) = users db.
Proof.
  unfold paymentCreateHandler.
  destruct (session !! "user_id") as [v|]; [|reflexivity].
  destruct req as [req|]; [|reflexivity].
  destruct (find _ Packages) as [pkg|]; [|reflexivity].
  unfold createTransaction.
  destruct (existsb _ (transactions db)); [reflexivity|].
  destruct (createLavaTopOrder pw _ _ _ pkg) as [[[orderID paymentURL]|e] sent];
    [|reflexivity].
  cbn [fst snd]. unfold saveTransactionOrder.
  now destruct (existsb _ _).
Qed.

(** Every row of a reachable store is filed under its own id and holds at
    most the daily free credit, unstamped. *)
Lemma reachable_storeInvariant (db : DB) : reachable db -> storeInvariant db.
Proof.
  induction 1 as [|db userID email name picture _ IH|db tz now userID _ IH
                  |db w user_id req _ IH|db w t outcome _ IH|db t _ IH
                  |db pw session req _ IH|db webhookData _ IH].
  - intros k u Hlook. cbn in Hlook. now rewrite lookup_empty in Hlook.
  - now apply storeInvariant_GetOrCreateUser.
  - now apply storeInvariant_CheckGenerationLimit.
  - now apply storeInvariant_limitStep.
  - now apply storeInvariant_settle.
  - now apply (storeInvariant_users db).
  - apply (storeInvariant_users db); [apply paymentCreateHandler_users|exact IH].
  - now apply storeInvariant_paymentWebhook.
Qed.

(** The stores the endpoints leave are reachable: the sign-in callback, the
    account and limits endpoints and the whole generate-cover handler add
    nothing to the steps above. *)
Lemma reachable_endpoints (db : DB) :
  reachable db ->
  (forall aw session state code,
      reachable (snd (fst (authCallbackHandler aw db session state code))))
  /\ (forall tz now session, reachable (snd (authMeHandler tz now db session)))
  /\ (forall tz now session, reachable (snd (userLimitsHandler tz now db session)))
  /\ (forall w redis user_id req,
        reachable (snd (fst (fst (generateCoverHandler w db redis user_id req))))).
Proof.
  intros Hreach. split; [|split; [|split]].
  - intros aw session state code. unfold authCallbackHandler.
    destruct (stateMismatch _ state); [exact Hreach|].
    destruct (a_exchange aw); [exact Hreach|].
    destruct (a_newService aw); [exact Hreach|].
    destruct (a_userinfo aw) as [info|e]; [|exact Hreach].
    pose proof (reach_signin db (ui_Id info) (ui_Email info) (ui_Name info)
                  (ui_Picture info) Hreach) as Hin.
    destruct (GetOrCreateUser db (ui_Id info) (ui_Email info) (ui_Name info)
                (ui_Picture info)) as [db1 [user|e]]; cbn [fst] in Hin; [|exact Hin].
    now destruct (a_sessionSave aw).
  - intros tz now session. unfold authMeHandler.
    destruct (session !! "user_id") as [v|]; [|exact Hreach].
    destruct (firstUser db _) as [user|e]; [|exact Hreach].
    pose proof (reach_limits db tz now (asString (Some v)) Hreach) as Hchk.
    now destruct (CheckGenerationLimit tz now db _) as [db1 [[c r]|e]].
  - intros tz now session. unfold userLimitsHandler.
    destruct (session !! "user_id") as [v|]; [|exact Hreach].
    pose proof (reach_limits db tz now (asString (Some v)) Hreach) as Hchk.
    now destruct (CheckGenerationLimit tz now db _) as [db1 [[c r]|e]].
  - intros w redis user_id req. unfold generateCoverHandler.
    pose proof (reach_limitStep db w user_id req Hreach) as Hstep.
    destruct (limitStep w db user_id req) as [db1 [resp|t]]; cbn [fst] in Hstep;
      [exact Hstep|].
    destruct (generate w redis t) as [[[resp|outcome] redis'] tr]; [exact Hstep|].
    pose proof (reach_settle db1 w t outcome Hstep) as Hset.
    now destruct (settle w db1 t outcome) as [[resp db2] warned].
Qed.

(** X27.  In a reachable store the credit chosen by the handler is there when
    the request is settled on the store its limit check left. *)
Lemma reachable_settles (w : World) (db db1 : DB) (user_id : option Value)
  (req : GenerateCoverRequest) (t : Ticket) :
  reachable db ->
  limitStep w db user_id (Some req) = (db1, inr t) ->
  snd (UseGeneration (w_tz w) (w_now_use w) (w_now_stamp w) db1 (t_userID t) (t_useFree t))
  = None.
Proof.
  intros Hreach Hstep.
  pose proof (reachable_storeInvariant db Hreach) as Hinv.
  destruct (users db !! sessionUserID user_id) as [u|] eqn:Hu.
  - destruct (Hinv _ _ Hu) as [Hid [_ Hstamp]].
    rewrite <- Hid in Hu.
    destruct (limitStep_ticket _ _ _ _ _ _ _ Hu (eq_sym Hid) Hstep) as [Hdb1 [Htid [Hfree Hcan]]].
    rewrite Htid, Hfree, Hdb1.
    rewrite <- (checkedUser_ID (w_tz w) (w_now_check w) u).
    apply chosen_credit_available.
    + rewrite checkedUser_ID. now apply checkedDB_lookup.
    + now apply checkedUser_unstamped.
    + exact Hcan.
  - rewrite (limitStep_missing _ _ _ _ Hu) in Hstep. inversion Hstep.
Qed.

(** * Further properties of the code *)

(** ** Accounts *)

Lemma emailTaken_false_save (db : DB) (userID email : string) :
  users db !! userID = None ->
  emailTaken db userID email = false ->
  forall name picture,
    GetOrCreateUser db userID email name picture
    = (saveUser db (mkUser userID email name picture 1 zeroTime 0),
       Ok (mkUser userID email name picture 1 zeroTime 0)).
Proof.
  intros Hnone Hfree name picture. unfold GetOrCreateUser.
  rewrite (firstUser_None _ _ Hnone). now rewrite Hfree.
Qed.

(** X1.  Signing in with an identity the store does not know, under an
    address no other account holds, creates the account with one free
    generation, no stamp and no paid generation, leaves every other account
    as it is, and the account is eligible at once with one generation
    remaining, at whatever instant the limit is checked. *)
Theorem new_account_has_one_free_generation (db : DB) (userID email name picture : string)
  (tz : Z) (now : Time) :
  users db !! userID = None ->
  emailTaken db userID email = false ->
  let db' := fst (GetOrCreateUser db userID email name picture) in
  snd (GetOrCreateUser db userID email name picture)
  = Ok (mkUser userID email name picture 1 zeroTime 0)
  /\ users db' !! userID = Some (mkUser userID email name picture 1 zeroTime 0)
  /\ (forall k, k <> userID -> users db' !! k = users db !! k)
  /\ snd (CheckGenerationLimit tz now db' userID) = Ok (true, 1).
Proof.
  intros Hnone Hfree db'. subst db'.
  rewrite (emailTaken_false_save _ _ _ Hnone Hfree). cbn [fst snd].
  split; [reflexivity|]. split; [now apply lookup_saveUser_at|].
  split; [intros k Hk; now apply lookup_saveUser_ne|].
  change userID with (ID (mkUser userID email name picture 1 zeroTime 0)) at 2.
  rewrite CheckGenerationLimit_eq by (now apply lookup_saveUser_at).
  cbn [LastFreeGeneration FreeGenerationsLeft PaidGenerations].
  now destruct (Before zeroTime (startOfDay tz now)).
Qed.

Lemma new_account_has_one_free_generation_witness :
  let db' := fst (GetOrCreateUser emptyDB "u1" "u1@example.org" "U One" "") in
  users db' !! "u1" = Some (mkUser "u1" "u1@example.org" "U One" "" 1 zeroTime 0)
  /\ snd (CheckGenerationLimit 0 sampleNoon db' "u1") = Ok (true, 1).
Proof.
  intros db'.
  destruct (new_account_has_one_free_generation emptyDB "u1" "u1@example.org" "U One" ""
              0 sampleNoon) as [_ [Hrow [_ Hcheck]]]; try reflexivity.
  split; [exact Hrow|exact Hcheck].
Defined.

(** X2.  Signing in again never refills or spends anything: for an account
    the store already has, [GetOrCreateUser] leaves the free counter, the
    stamp and the paid balance as they are (only the profile may change),
    returns the row with the new profile, and leaves every other account as
    it is. *)
Theorem sign_in_again_keeps_credits (db : DB) (u : User) (email name picture : string) :
  users db !! ID u = Some u ->
  let db' := fst (GetOrCreateUser db (ID u) email name picture) in
  snd (GetOrCreateUser db (ID u) email name picture) = Ok (withProfile email name picture u)
  /\ (exists u', users db' !! ID u = Some u'
                 /\ FreeGenerationsLeft u' = FreeGenerationsLeft u
                 /\ LastFreeGeneration u' = LastFreeGeneration u
                 /\ PaidGenerations u' = PaidGenerations u)
  /\ (forall k, k <> ID u -> users db' !! k = users db !! k)
  /\ generations db' = generations db
  /\ transactions db' = transactions db.
Proof.
  intros Hu db'. subst db'. unfold GetOrCreateUser.
  rewrite (firstUser_Some _ _ _ Hu).
  destruct (emailTaken db (ID u) email); cbn [fst snd].
  - split; [reflexivity|]. split; [exists u; now repeat split|].
    now repeat split.
  - split; [reflexivity|]. split.
    + exists (withProfile email name picture u).
      split; [now apply lookup_saveUser_at|now repeat split].
    + split; [intros k Hk; apply lookup_saveUser_ne; cbn; congruence|].
      now split.
Qed.

Lemma sign_in_again_keeps_credits_witness :
  let u := sampleUser 0 sampleNoon 7 in
  let db := saveUser emptyDB u in
  let db' := fst (GetOrCreateUser db "u1" "new@example.org" "New Name" "pic") in
  exists u', users db' !! "u1" = Some u'
             /\ FreeGenerationsLeft u' = 0
             /\ LastFreeGeneration u' = sampleNoon
             /\ PaidGenerations u' = 7.
Proof.
  intros u db db'.
  destruct (sign_in_again_keeps_credits db u "new@example.org" "New Name" "pic")
    as [_ [Hrow _]]; [reflexivity|].
  exact Hrow.
Defined.

(** X3.  Checking the limit again on the same local day changes nothing: a
    second [CheckGenerationLimit], at any instant of the day of the first,
    gives the same answer and leaves the store the first call left. *)
Theorem limit_check_repeats_within_a_day (tz : Z) (now later : Time) (db : DB)
  (userID : string) :
  startOfDay tz later = startOfDay tz now ->
  CheckGenerationLimit tz later (fst (CheckGenerationLimit tz now db userID)) userID
  = CheckGenerationLimit tz now db userID.
Proof.
  intros Hday. unfold CheckGenerationLimit at 2 3. unfold firstUser.
  destruct (users db !! userID) as [u|] eqn:Hu.
  - destruct (Before (LastFreeGeneration u) (startOfDay tz now)) eqn:Hold; cbn [fst].
    + unfold CheckGenerationLimit, firstUser.
      destruct (decide (ID u = userID)) as [Heq|Hne].
      * rewrite lookup_saveUser_at by exact Heq.
        cbn [LastFreeGeneration withLast withFree]. rewrite Hday.
        destruct (Before zeroTime (startOfDay tz now)); [|reflexivity].
        f_equal. unfold saveUser. cbn. f_equal. apply insert_insert_eq.
      * rewrite lookup_saveUser_ne by exact Hne. rewrite Hu, Hday, Hold.
        f_equal. unfold saveUser. cbn. f_equal. apply insert_insert_eq.
    + unfold CheckGenerationLimit, firstUser. now rewrite Hu, Hday, Hold.
  - cbn [fst]. unfold CheckGenerationLimit, firstUser. now rewrite Hu.
Qed.

Lemma limit_check_repeats_within_a_day_witness :
  let db := saveUser emptyDB (sampleUser 0 (sampleNoon - Day) 2) in
  CheckGenerationLimit 0 (sampleNoon + Minute)
    (fst (CheckGenerationLimit 0 sampleNoon db "u1")) "u1"
  = CheckGenerationLimit 0 sampleNoon db "u1".
Proof.
  intros db.
  apply (limit_check_repeats_within_a_day 0 sampleNoon (sampleNoon + Minute) db "u1").
  reflexivity.
Defined.

(** X4.  One free generation a day.  Once an account with no paid balance
    has spent its free generation, a limit check on the day of the stamp
    answers "not eligible, 0 remaining" and writes nothing; a limit check on
    any later day answers "eligible, 1 remaining". *)
Theorem free_generation_returns_next_day (tz : Z) (now stamp : Time) (db : DB) (u : User) :
  users db !! ID u = Some u ->
  freeAt tz now u = 1 ->
  PaidGenerations u = 0 ->
  let db' := fst (UseGeneration tz now stamp db (ID u) true) in
  snd (UseGeneration tz now stamp db (ID u) true) = None
  /\ (forall later, startOfDay tz later <= stamp ->
        CheckGenerationLimit tz later db' (ID u) = (db', Ok (false, 0)))
  /\ (forall later, stamp < startOfDay tz later ->
        snd (CheckGenerationLimit tz later db' (ID u)) = Ok (true, 1)).
Proof.
  intros Hu Hfree Hpaid db'. subst db'.
  rewrite (UseGeneration_free_eq _ _ _ _ _ Hu), Hfree. cbn [fst snd Z.ltb Z.compare].
  assert (Hrow : users (saveUser db (withLast stamp (withFree (1 - 1) u))) !! ID u
                 = Some (withLast stamp (withFree (1 - 1) u)))
    by (now apply lookup_saveUser_at).
  split; [reflexivity|]. split.
  - intros later Hlater.
    pose proof (CheckGenerationLimit_eq tz later _ (withLast stamp (withFree (1 - 1) u)) Hrow)
      as Heq.
    change (ID (withLast stamp (withFree (1 - 1) u))) with (ID u) in Heq.
    rewrite Heq; clear Heq.
    cbn [LastFreeGeneration FreeGenerationsLeft PaidGenerations withLast withFree].
    unfold Before. destruct (Z.ltb_spec stamp (startOfDay tz later)); [lia|].
    now rewrite Hpaid.
  - intros later Hlater.
    pose proof (CheckGenerationLimit_eq tz later _ (withLast stamp (withFree (1 - 1) u)) Hrow)
      as Heq.
    change (ID (withLast stamp (withFree (1 - 1) u))) with (ID u) in Heq.
    rewrite Heq; clear Heq.
    cbn [LastFreeGeneration FreeGenerationsLeft PaidGenerations withLast withFree].
    unfold Before. destruct (Z.ltb_spec stamp (startOfDay tz later)); [|lia].
    now rewrite Hpaid.
Qed.

Lemma free_generation_returns_next_day_witness :
  let u := sampleUser 1 zeroTime 0 in
  let db := saveUser emptyDB u in
  let db' := fst (UseGeneration 0 sampleNoon sampleNoon db "u1" true) in
  CheckGenerationLimit 0 (sampleNoon + Minute) db' "u1" = (db', Ok (false, 0))
  /\ snd (CheckGenerationLimit 0 (sampleNoon + Day) db' "u1") = Ok (true, 1).
Proof.
  intros u db db'.
  destruct (free_generation_returns_next_day 0 sampleNoon sampleNoon db u)
    as [_ [Hsame Hnext]]; try reflexivity.
  split.
  - apply Hsame. vm_compute. discriminate.
  - apply Hnext. reflexivity.
Defined.

(** X5.  A purchased generation can be spent.  [AddPaidGenerations] with a
    positive count that keeps the balance in range succeeds, touches only
    the paid balance of the named account, and the paid settlement that
    follows succeeds and leaves the old balance plus the count minus one. *)
Theorem purchased_generation_can_be_spent (tz : Z) (now stamp : Time) (db : DB) (u : User)
  (count : Z) :
  users db !! ID u = Some u ->
  0 < count ->
  0 <= PaidGenerations u ->
  PaidGenerations u + count < 2 ^ 63 ->
  let db1 := fst (AddPaidGenerations db (ID u) count) in
  snd (AddPaidGenerations db (ID u) count) = None
  /\ users db1 !! ID u = Some (withPaid (PaidGenerations u + count) u)
  /\ (forall k, k <> ID u -> users db1 !! k = users db !! k)
  /\ UseGeneration tz now stamp db1 (ID u) false
     = (saveUser db1 (withPaid (PaidGenerations u + count - 1) u), None).
Proof.
  intros Hu Hcount Hpaid Hrange db1. subst db1.
  unfold AddPaidGenerations. rewrite (firstUser_Some _ _ _ Hu). cbn [fst snd].
  assert (Hwrap : wrap64 (PaidGenerations u + count) = PaidGenerations u + count).
  { unfold wrap64. rewrite Z.mod_small by lia. lia. }
  rewrite Hwrap.
  assert (Hrow : users (saveUser db (withPaid (PaidGenerations u + count) u)) !! ID u
                 = Some (withPaid (PaidGenerations u + count) u))
    by (now apply lookup_saveUser_at).
  split; [reflexivity|]. split; [exact Hrow|].
  split; [intros k Hk; apply lookup_saveUser_ne; cbn; congruence|].
  pose proof (UseGeneration_paid_eq tz now stamp _ (withPaid (PaidGenerations u + count) u)
                Hrow) as Heq.
  change (ID (withPaid (PaidGenerations u + count) u)) with (ID u) in Heq.
  rewrite Heq; clear Heq.
  cbn [PaidGenerations withPaid].
  destruct (Z.ltb_spec 0 (PaidGenerations u + count)); [reflexivity|lia].
Qed.

Lemma purchased_generation_can_be_spent_witness :
  let u := sampleUser 0 sampleNoon 0 in
  let db := saveUser emptyDB u in
  let db1 := fst (AddPaidGenerations db "u1" 10) in
  UseGeneration 0 sampleNoon sampleNoon db1 "u1" false
  = (saveUser db1 (withPaid (0 + 10 - 1) u), None).
Proof.
  intros u db db1.
  destruct (purchased_generation_can_be_spent 0 sampleNoon sampleNoon db u 10)
    as [_ [_ [_ Hspend]]];
    [reflexivity|reflexivity|discriminate|reflexivity|exact Hspend].
Defined.

Lemma nonNegative_saveUser (db : DB) (u : User) :
  nonNegative db -> 0 <= FreeGenerationsLeft u -> 0 <= PaidGenerations u ->
  nonNegative (saveUser db u).
Proof.
  intros Hdb Hf Hp k u' Hlook. unfold saveUser in Hlook. cbn [users] in Hlook.
  destruct (decide (ID u = k)) as [<-|Hne].
  - rewrite lookup_insert_eq in Hlook. inversion Hlook; subst. now split.
  - rewrite lookup_insert_ne in Hlook by exact Hne. exact (Hdb _ _ Hlook).
Qed.

(** X6.  No debit drives a counter below zero: in a store whose counters are
    all at least 0, they still are after [CheckGenerationLimit], after
    [UseGeneration] with either flag, and after a whole generate-cover
    request, whatever the request and the outside world. *)
Theorem counters_stay_non_negative (db : DB) :
  nonNegative db ->
  (forall tz now userID, nonNegative (fst (CheckGenerationLimit tz now db userID)))
  /\ (forall tz now stamp userID isFree,
        nonNegative (fst (UseGeneration tz now stamp db userID isFree)))
  /\ (forall w redis user_id req,
        nonNegative (snd (fst (fst (generateCoverHandler w db redis user_id req))))).
Proof.
  intros Hdb.
  assert (Hcheck : forall d tz now userID,
             nonNegative d -> nonNegative (fst (CheckGenerationLimit tz now d userID))).
  { intros d tz now userID Hd. unfold CheckGenerationLimit, firstUser.
    destruct (users d !! userID) as [u|] eqn:Hu; [|exact Hd].
    destruct (Hd _ _ Hu) as [Hf Hp].
    destruct (Before (LastFreeGeneration u) (startOfDay tz now)); [|exact Hd].
    cbn [fst]. apply nonNegative_saveUser; cbn; [exact Hd|lia|exact Hp]. }
  assert (Huse : forall d tz now stamp userID isFree,
             nonNegative d -> nonNegative (fst (UseGeneration tz now stamp d userID isFree))).
  { intros d tz now stamp userID isFree Hd. unfold UseGeneration, firstUser.
    destruct (users d !! userID) as [u|] eqn:Hu; [|exact Hd].
    destruct (Hd _ _ Hu) as [Hf Hp].
    destruct isFree.
    - destruct (Before (LastFreeGeneration u) (startOfDay tz now)).
      + cbn. apply nonNegative_saveUser; cbn; [exact Hd|lia|exact Hp].
      + destruct (Z.ltb_spec 0 (FreeGenerationsLeft u)); [|exact Hd].
        cbn [fst]. apply nonNegative_saveUser; cbn; [exact Hd|lia|exact Hp].
    - destruct (Z.ltb_spec 0 (PaidGenerations u)); [|exact Hd].
      cbn [fst]. apply nonNegative_saveUser; cbn; [exact Hd|exact Hf|lia]. }
  split; [intros; now apply Hcheck|]. split; [intros; now apply Huse|].
  intros w redis user_id req. unfold generateCoverHandler.
  assert (Hstep : nonNegative (fst (limitStep w db user_id req))).
  { unfold limitStep. destruct req as [req|]; [|exact Hdb].
    destruct (parseImage (req_Image req)) as [imageData imageFormat].
    pose proof (Hcheck db (w_tz w) (w_now_check w) (sessionUserID user_id) Hdb) as Hchk.
    destruct (CheckGenerationLimit (w_tz w) (w_now_check w) db (sessionUserID user_id))
      as [db1 [[canGenerate remaining]|e]]; cbn [fst] in Hchk; [|exact Hchk].
    now destruct (negb canGenerate). }
  destruct (limitStep w db user_id req) as [db1 [resp|t]]; cbn [fst] in Hstep;
    [exact Hstep|].
  destruct (generate w redis t) as [[[resp|outcome] redis1] tr]; [exact Hstep|].
  unfold settle. destruct outcome as [coverURL|e]; [|exact Hstep].
  pose proof (Huse db1 (w_tz w) (w_now_use w) (w_now_stamp w) (t_userID t) (t_useFree t)
                Hstep) as Hused.
  destruct (UseGeneration (w_tz w) (w_now_use w) (w_now_stamp w) db1 (t_userID t)
              (t_useFree t)) as [db2 used].
  exact Hused.
Qed.

Lemma counters_stay_non_negative_witness :
  nonNegative (fst (UseGeneration 0 sampleNoon sampleNoon
                      (saveUser emptyDB (sampleUser 1 zeroTime 0)) "u1" true)).
Proof.
  destruct (counters_stay_non_negative (saveUser emptyDB (sampleUser 1 zeroTime 0)))
    as [_ [Huse _]].
  - intros k u Hlook. unfold saveUser in Hlook. cbn [users emptyDB] in Hlook.
    destruct (decide ("u1" = k)) as [<-|Hne].
    + rewrite lookup_insert_eq in Hlook. inversion Hlook; subst. cbn. lia.
    + rewrite lookup_insert_ne in Hlook by exact Hne.
      rewrite lookup_empty in Hlook. discriminate.
  - apply Huse.
Defined.

(** X7.  What every row of a reachable store looks like, whatever ids the
    identity provider hands out: it is filed under its own id, it holds no
    or one free generation, and a free generation in hand carries no
    stamp. *)
Theorem reachable_rows_hold_the_daily_credit (db : DB) (k : string) (u : User) :
  reachable db ->
  users db !! k = Some u ->
  ID u = k
  /\ 0 <= FreeGenerationsLeft u <= 1
  /\ (0 < FreeGenerationsLeft u -> LastFreeGeneration u = zeroTime).
Proof.
  intros Hreach Hlook. exact (reachable_storeInvariant db Hreach k u Hlook).
Qed.

Lemma reachable_rows_hold_the_daily_credit_witness :
  let wA := sampleWorld sampleNoon "a" (HttpResp 200 "created") (pollDoneAt 0)
              (HttpResp 200 "png") in
  let db0 := fst (GetOrCreateUser emptyDB "u1" "u1@example.org" "U One" "") in
  let db1 := snd (fst (settle wA db0 (mkTicket "u1" "nanobanana" "QUJD" "png" "" true)
                         (Ok "https://cover.example/x.png"))) in
  0 <= FreeGenerationsLeft (mkUser "u1" "u1@example.org" "U One" "" 0 sampleNoon 0) <= 1.
Proof.
  intros wA db0 db1.
  apply (reachable_rows_hold_the_daily_credit db1 "u1").
  - apply reach_settle. apply reach_signin, reach_empty.
  - reflexivity.
Defined.

Lemma reachable_settles_witness :
  let w := sampleWorld sampleNoon "a" (HttpResp 200 "created") (pollDoneAt 0)
             (HttpResp 200 "png") in
  let db := fst (GetOrCreateUser emptyDB "u1" "u1@example.org" "U One" "") in
  snd (UseGeneration 0 sampleNoon sampleNoon db "u1" true) = None.
Proof.
  intros w db.
  apply (reachable_settles w db db (Some (VString "u1")) sampleRequest
           (mkTicket "u1" "nanobanana" "QUJD" "png" "" true)).
  - apply reach_signin, reach_empty.
  - reflexivity.
Defined.

(** ** Polling, further *)

Lemma pollLoop_failure_step (w : World) (url : string) (maxAttempts : Z)
  (interval : Duration) (k : nat) (i : Z) (failMsg failCode : string) :
  w_newRequest w url = None ->
  pollFailed w i failMsg failCode = true ->
  pollLoop w url maxAttempts interval (S k) i
  = (Err ("task failed: " +:+ (if String.eqb failMsg "" then "unknown error" else failMsg)
          +:+ " (failCode: " +:+ failCode +:+ ")"),
     [EvPoll url i]).
Proof.
  intros Hreq Hfail. simpl. rewrite Hreq.
  destruct (pollLoop w url maxAttempts interval k (i + 1)) as [r tr].
  unfold pollFailed in Hfail.
  destruct (w_pollHTTP w i) as [e|st e|st body]; try discriminate.
  destruct (w_unmarshalTask w body) as [taskResp|e]; try discriminate.
  apply andb_prop in Hfail as [Hfail Hcode].
  apply andb_prop in Hfail as [Hfail Hmsg].
  apply andb_prop in Hfail as [Hfail Hstate].
  apply andb_prop in Hfail as [Hok Hsucc].
  rewrite Hok. simpl. apply negb_true_iff in Hsucc. rewrite Hsucc, Hstate.
  apply String.eqb_eq in Hmsg. apply String.eqb_eq in Hcode. now subst.
Qed.

(** X8.  The poll loop returns at the first answer that reports success:
    when the first [n] answers leave the task running and answer [n + 1],
    still within the attempts allowed, reports success, the result is its
    first URL, after exactly [n + 1] requests and [n] sleeps of [interval];
    nothing is asked after it. *)
Theorem poll_returns_first_success (w : World) (taskID apiKey : string) (maxAttempts : Z)
  (interval : Duration) (n : nat) (resultURL : string) :
  w_newRequest w (recordInfoURL taskID) = None ->
  Z.of_nat n < maxAttempts ->
  (forall i, 0 <= i < Z.of_nat n -> pollPending w i = true) ->
  pollSucceeded w (Z.of_nat n) resultURL = true ->
  pollNanoBananaTask w taskID apiKey maxAttempts interval
  = (Ok resultURL,
     waitingTrace (recordInfoURL taskID) interval n 0
     ++ [EvPoll (recordInfoURL taskID) (Z.of_nat n)]).
Proof.
  intros Hreq Hn Hpend Hok. unfold pollNanoBananaTask. fold (recordInfoURL taskID).
  replace (Z.to_nat maxAttempts) with (n + S (Z.to_nat maxAttempts - S n))%nat by lia.
  rewrite pollLoop_pending_rounds; [|exact Hreq|intros j Hj; apply Hpend; lia].
  rewrite Z.add_0_l.
  now rewrite (pollLoop_success_step _ _ _ _ _ _ resultURL Hreq Hok).
Qed.

Lemma poll_returns_first_success_witness :
  let w := sampleWorld sampleNoon "a" (HttpResp 200 "created") (pollDoneAt 2)
             (HttpResp 200 "png") in
  pollNanoBananaTask w "task-1" "nb-key" 120 (5 * Second)
  = (Ok "https://provider.example/result.png",
     waitingTrace (recordInfoURL "task-1") (5 * Second) 2 0
     ++ [EvPoll (recordInfoURL "task-1") (Z.of_nat 2)]).
Proof.
  intros w.
  apply (poll_returns_first_success w "task-1" "nb-key" 120 (5 * Second) 2).
  - reflexivity.
  - reflexivity.
  - intros i Hi. unfold pollPending, w, sampleWorld, pollDoneAt. simpl.
    destruct (Z.eqb_spec i 2) as [Heq|Hne]; [lia|reflexivity].
  - reflexivity.
Defined.

(** X9.  The poll loop gives up at the first answer that reports failure:
    the error carries the provider's message, or "unknown error" when the
    message is empty, and its code; no request follows. *)
Theorem poll_stops_at_first_failure (w : World) (taskID apiKey : string) (maxAttempts : Z)
  (interval : Duration) (n : nat) (failMsg failCode : string) :
  w_newRequest w (recordInfoURL taskID) = None ->
  Z.of_nat n < maxAttempts ->
  (forall i, 0 <= i < Z.of_nat n -> pollPending w i = true) ->
  pollFailed w (Z.of_nat n) failMsg failCode = true ->
  pollNanoBananaTask w taskID apiKey maxAttempts interval
  = (Err ("task failed: " +:+ (if String.eqb failMsg "" then "unknown error" else failMsg)
          +:+ " (failCode: " +:+ failCode +:+ ")"),
     waitingTrace (recordInfoURL taskID) interval n 0
     ++ [EvPoll (recordInfoURL taskID) (Z.of_nat n)]).
Proof.
  intros Hreq Hn Hpend Hfail. unfold pollNanoBananaTask. fold (recordInfoURL taskID).
  replace (Z.to_nat maxAttempts) with (n + S (Z.to_nat maxAttempts - S n))%nat by lia.
  rewrite pollLoop_pending_rounds; [|exact Hreq|intros j Hj; apply Hpend; lia].
  rewrite Z.add_0_l.
  now rewrite (pollLoop_failure_step _ _ _ _ _ _ failMsg failCode Hreq Hfail).
Qed.

Lemma poll_stops_at_first_failure_witness :
  let w := sampleWorldWith 3 (HttpResp 200 "created") in
  pollNanoBananaTask w "task-1" "nb-key" 120 (5 * Second)
  = (Err "task failed: unknown error (failCode: E42)",
     waitingTrace (recordInfoURL "task-1") (5 * Second) 1 0
     ++ [EvPoll (recordInfoURL "task-1") (Z.of_nat 1)]).
Proof.
  intros w.
  apply (poll_stops_at_first_failure w "task-1" "nb-key" 120 (5 * Second) 1 "" "E42").
  - reflexivity.
  - reflexivity.
  - intros i Hi. assert (i = 0) as -> by lia. reflexivity.
  - reflexivity.
Defined.

(** ** Refusals of the provider and of the input *)

Lemma settle_error_status (w : World) (db : DB) (t : Ticket) (e : error) (status : Z) :
  (if Contains e "API key not configured" || Contains e "IMGBB_API_KEY not set"
   then StatusBadRequest
   else if Contains e "authentication failed" || Contains e "insufficient account balance"
        then StatusUnauthorized
        else StatusInternalServerError) = status ->
  settle w db t (Err e) = (mkResponse status (BErrorDetails "Failed to generate cover" e), db, []).
Proof. intros <-. reflexivity. Qed.

Lemma generate_nanobanana (w : World) (redis : gmap string (list Byte.byte * Time))
  (t : Ticket) :
  t_provider t = "nanobanana" ->
  w_nanoBananaKey w <> "" ->
  generate w redis t
  = (inr (fst (fst (generateCoverWithNanoBanana w redis (t_imageData t) (t_imageFormat t)
                      (w_nanoBananaKey w) (t_userID t) (w_storageDir w) (t_prompt t)))),
     snd (fst (generateCoverWithNanoBanana w redis (t_imageData t) (t_imageFormat t)
                 (w_nanoBananaKey w) (t_userID t) (w_storageDir w) (t_prompt t))),
     snd (generateCoverWithNanoBanana w redis (t_imageData t) (t_imageFormat t)
            (w_nanoBananaKey w) (t_userID t) (w_storageDir w) (t_prompt t))).
Proof.
  intros Hprov Hkey. unfold generate. rewrite Hprov. cbn [String.eqb Ascii.eqb Bool.eqb].
  destruct (String.eqb_spec (w_nanoBananaKey w) "") as [Heq|_]; [contradiction|].
  now destruct (generateCoverWithNanoBanana _ _ _ _ _ _ _ _) as [[r redis1] tr].
Qed.

(** X10.  When the provider turns the task down with HTTP status 401 or 402,
    the handler answers 401 with the fixed detail text of that status; with
    status 429 it answers 500.  In each case the staged image is removed in
    the same request (store, create, remove is the whole trace), and the
    store is left as the limit check left it: nothing is debited and no row
    is written. *)
Theorem provider_refusal_costs_nothing (w : World) (db db1 : DB)
  (redis : gmap string (list Byte.byte * Time)) (user_id : option Value)
  (req : GenerateCoverRequest) (t : Ticket) (decodedData : list Byte.byte)
  (status : Z) (body : string) :
  limitStep w db user_id (Some req) = (db1, inr t) ->
  t_provider t = "nanobanana" ->
  w_nanoBananaKey w <> "" ->
  w_base64 w (t_imageData t) = Ok decodedData ->
  (10 * 1024 * 1024 <? Z.of_nat (length decodedData)) = false ->
  w_redisSet w = None ->
  w_createTaskHTTP w = HttpResp status body ->
  status = 401 \/ status = 402 \/ status = 429 ->
  let key := "image:" +:+ (w_uuid_image w +:+ "." +:+ t_imageFormat t) in
  exists prompt,
    generateCoverHandler w db redis user_id (Some req)
    = (mkResponse (if status =? 429 then 500 else 401)
         (BErrorDetails "Failed to generate cover"
            ("failed to create Nano Banana task: " +:+
             (if status =? 401 then "authentication failed: check your NANO_BANANA_API_KEY"
              else if status =? 402 then "insufficient account balance"
              else "rate limit exceeded, please try again later"))),
       db1,
       redisDel w (<[key := (decodedData, w_now_redis w + 30 * Minute)]> redis) key,
       [EvRedisSet key (30 * Minute);
        EvCreateTask (getenvBASE_URL w +:+ "/api/image/"
                      +:+ (w_uuid_image w +:+ "." +:+ t_imageFormat t)) prompt;
        EvRedisDel key]).
Proof.
  intros Hstep Hprov Hkey Hdec Hsize Hset Hhttp Hstatus key.
  exists (if String.eqb (t_prompt t) "" then defaultNanoBananaPrompt else t_prompt t).
  unfold generateCoverHandler. rewrite Hstep.
  rewrite (generate_nanobanana _ _ _ Hprov Hkey).
  unfold generateCoverWithNanoBanana, redisSet, createNanoBananaTask.
  rewrite Hdec, Hsize, Hset, Hhttp.
  destruct Hstatus as [-> | [-> | ->]]; cbn [fst snd Z.eqb Pos.eqb negb];
    (erewrite settle_error_status by reflexivity); reflexivity.
Qed.

Lemma provider_refusal_costs_nothing_witness :
  let w := sampleWorldWith 3 (HttpResp 402 "payment required") in
  let u := sampleUser 1 zeroTime 0 in
  let db := saveUser emptyDB u in
  fst (fst (fst (generateCoverHandler w db ∅ (Some (VString "u1")) (Some sampleRequest))))
  = mkResponse 401
      (BErrorDetails "Failed to generate cover"
         "failed to create Nano Banana task: insufficient account balance")
  /\ snd (fst (fst (generateCoverHandler w db ∅ (Some (VString "u1")) (Some sampleRequest))))
     = db.
Proof.
  intros w u db.
  destruct (provider_refusal_costs_nothing w db db ∅ (Some (VString "u1")) sampleRequest
              (mkTicket "u1" "nanobanana" "QUJD" "png" "" true)
              (repeat Byte.x00 3) 402 "payment required") as [prompt Hrun];
    try reflexivity.
  - discriminate.
  - right; left; reflexivity.
  - rewrite Hrun. split; reflexivity.
Defined.

(** X11.  An image whose decoded size exceeds 10 MiB is refused before
    anything is stored: the handler answers 500 with the size-limit text,
    the cache is untouched, nothing outside is called (empty trace) and
    nothing is debited. *)
Theorem oversized_image_is_not_staged (w : World) (db db1 : DB)
  (redis : gmap string (list Byte.byte * Time)) (user_id : option Value)
  (req : GenerateCoverRequest) (t : Ticket) (decodedData : list Byte.byte) :
  limitStep w db user_id (Some req) = (db1, inr t) ->
  t_provider t = "nanobanana" ->
  w_nanoBananaKey w <> "" ->
  w_base64 w (t_imageData t) = Ok decodedData ->
  10 * 1024 * 1024 < Z.of_nat (length decodedData) ->
  generateCoverHandler w db redis user_id (Some req)
  = (mkResponse 500 (BErrorDetails "Failed to generate cover" "image size exceeds 10MB limit"),
     db1, redis, []).
Proof.
  intros Hstep Hprov Hkey Hdec Hsize.
  unfold generateCoverHandler. rewrite Hstep.
  rewrite (generate_nanobanana _ _ _ Hprov Hkey).
  unfold generateCoverWithNanoBanana. rewrite Hdec.
  apply Z.ltb_lt in Hsize. rewrite Hsize. cbn [fst snd].
  erewrite settle_error_status by reflexivity. reflexivity.
Qed.

Lemma oversized_image_is_not_staged_witness :
  let w := sampleWorldWith (Z.to_nat (10 * 1024 * 1024 + 1)) (HttpResp 200 "created") in
  let db := saveUser emptyDB (sampleUser 1 zeroTime 0) in
  generateCoverHandler w db ∅ (Some (VString "u1")) (Some sampleRequest)
  = (mkResponse 500 (BErrorDetails "Failed to generate cover" "image size exceeds 10MB limit"),
     db, ∅, []).
Proof.
  intros w db.
  apply (oversized_image_is_not_staged w db db ∅ (Some (VString "u1")) sampleRequest
           (mkTicket "u1" "nanobanana" "QUJD" "png" "" true)
           (repeat Byte.x00 (Z.to_nat (10 * 1024 * 1024 + 1)))).
  - reflexivity.
  - reflexivity.
  - discriminate.
  - reflexivity.
  - rewrite repeat_length, Z2Nat.id; lia.
Defined.

(** ** Which credit a successful request takes *)

Lemma handler_success_free (w : World) (db db1 : DB)
  (redis redis' : gmap string (list Byte.byte * Time)) (user_id : option Value)
  (req : GenerateCoverRequest) (t : Ticket) (coverURL : string) (tr : list Event)
  (u1 u2 : User) :
  limitStep w db user_id (Some req) = (db1, inr t) ->
  generate w redis t = (inr (Ok coverURL), redis', tr) ->
  UseGeneration (w_tz w) (w_now_use w) (w_now_stamp w) db1 (t_userID t) (t_useFree t)
  = (saveUser db1 u2, None) ->
  generateCoverHandler w db redis user_id (Some req)
  = (mkResponse StatusOK (BCover (w_uuid_response w) coverURL),
     createGeneration (saveUser db1 u2)
       (mkGeneration (w_uuid_generation w) (t_userID t) coverURL (t_provider t) (t_useFree t)),
     redis', tr).
Proof.
  intros Hstep Hrun Hused. unfold generateCoverHandler. rewrite Hstep, Hrun.
  unfold settle. rewrite Hused. now rewrite app_nil_r.
Qed.

(** X12.  Free before paid.  For an account that holds its free generation
    when the request arrives (no or one free generation on the row, none
    stamped), a successful request takes the free generation whatever the
    paid balance is: the answer is 200, the row ends with no free
    generation, the stamp of the settlement and the paid balance it had, and
    the [Generation] row written is marked free. *)
Theorem free_generation_is_spent_first (w : World) (db db1 : DB)
  (redis redis' : gmap string (list Byte.byte * Time)) (user_id : option Value)
  (req : GenerateCoverRequest) (u : User) (t : Ticket) (coverURL : string)
  (tr : list Event) :
  users db !! ID u = Some u ->
  sessionUserID user_id = ID u ->
  FreeGenerationsLeft u <= 1 ->
  unstampedWhenFree u ->
  0 < freeAt (w_tz w) (w_now_check w) u ->
  limitStep w db user_id (Some req) = (db1, inr t) ->
  generate w redis t = (inr (Ok coverURL), redis', tr) ->
  exists db' u',
    generateCoverHandler w db redis user_id (Some req)
    = (mkResponse StatusOK (BCover (w_uuid_response w) coverURL), db', redis', tr)
    /\ users db' !! ID u = Some u'
    /\ FreeGenerationsLeft u' = 0
    /\ LastFreeGeneration u' = w_now_stamp w
    /\ PaidGenerations u' = PaidGenerations u
    /\ generations db'
       = generations db
         ++ [mkGeneration (w_uuid_generation w) (ID u) coverURL (t_provider t) true].
Proof.
  intros Hu Hid Hle Hinv Hfree Hstep Hrun.
  destruct (limitStep_ticket _ _ _ _ _ _ _ Hu Hid Hstep) as [Hdb1 [Htid [Huse Hcan]]].
  set (u1 := checkedUser (w_tz w) (w_now_check w) u) in *.
  assert (Hu1 : users db1 !! ID u1 = Some u1).
  { subst db1 u1. rewrite checkedUser_ID. now apply checkedDB_lookup. }
  assert (Hid1 : ID u1 = ID u) by apply checkedUser_ID.
  assert (Hf1 : FreeGenerationsLeft u1 = freeAt (w_tz w) (w_now_check w) u)
    by apply checkedUser_Free.
  assert (Hf1' : FreeGenerationsLeft u1 = 1).
  { rewrite Hf1 in *. unfold freeAt in *. destruct (Before _ _); lia. }
  assert (Hl1 : LastFreeGeneration u1 = zeroTime).
  { apply (checkedUser_unstamped (w_tz w) (w_now_check w) u Hinv). fold u1. lia. }
  assert (Hchoose : t_useFree t = true).
  { rewrite Huse. unfold chooseFree. rewrite Hf1', Hl1. cbn. apply orb_true_r. }
  assert (Hat : freeAt (w_tz w) (w_now_use w) u1 = 1).
  { unfold freeAt. rewrite Hf1'. now destruct (Before _ _). }
  pose proof (UseGeneration_free_eq (w_tz w) (w_now_use w) (w_now_stamp w) db1 u1 Hu1)
    as Hused.
  rewrite Hat in Hused. cbn [Z.ltb Z.compare] in Hused. rewrite Hid1 in Hused.
  rewrite <- Htid, <- Hchoose in Hused.
  eexists _, (withLast (w_now_stamp w) (withFree (1 - 1) u1)).
  split; [exact (handler_success_free _ _ _ _ _ _ _ _ _ _ u1 _ Hstep Hrun Hused)|].
  rewrite createGeneration_users.
  split; [apply lookup_saveUser_at; exact Hid1|].
  split; [reflexivity|]. split; [reflexivity|].
  split; [apply checkedUser_Paid|].
  unfold createGeneration. cbn [generations saveUser].
  rewrite Hdb1, checkedDB_generations, Htid, Hchoose. reflexivity.
Qed.

Lemma free_generation_is_spent_first_witness :
  let w := sampleWorld sampleNoon "a" (HttpResp 200 "created") (pollDoneAt 0)
             (HttpResp 200 "png") in
  let u := sampleUser 1 zeroTime 5 in
  let db := saveUser emptyDB u in
  exists db' u',
    snd (fst (fst (generateCoverHandler w db ∅ (Some (VString "u1")) (Some sampleRequest))))
    = db'
    /\ users db' !! "u1" = Some u'
    /\ FreeGenerationsLeft u' = 0
    /\ PaidGenerations u' = 5.
Proof.
  intros w u db.
  destruct (free_generation_is_spent_first w db (checkedDB 0 sampleNoon db u) ∅ ∅
              (Some (VString "u1")) sampleRequest u
              (mkTicket "u1" "nanobanana" "QUJD" "png" "" true)
              "https://cover.example/storage/u1/file-a_1700000000.png"
              (snd (generate w ∅ (mkTicket "u1" "nanobanana" "QUJD" "png" "" true))))
    as [db' [u' [Hrun [Hrow [Hfree [_ [Hpaid _]]]]]]];
    [reflexivity|reflexivity|discriminate|intros _; reflexivity|reflexivity
    |reflexivity|reflexivity|].
  exists db', u'. rewrite Hrun. repeat split; assumption.
Defined.

(** X13.  Paid when the free generation is gone.  For an account with no
    free generation left today, a request passes the limit check only on
    its paid balance, and a successful request takes one paid generation:
    the row keeps its free counter and stamp, the paid balance drops by one,
    and the [Generation] row written is marked not free. *)
Theorem paid_generation_is_spent_when_free_is_gone (w : World) (db db1 : DB)
  (redis redis' : gmap string (list Byte.byte * Time)) (user_id : option Value)
  (req : GenerateCoverRequest) (u : User) (t : Ticket) (coverURL : string)
  (tr : list Event) :
  users db !! ID u = Some u ->
  sessionUserID user_id = ID u ->
  freeAt (w_tz w) (w_now_check w) u <= 0 ->
  limitStep w db user_id (Some req) = (db1, inr t) ->
  generate w redis t = (inr (Ok coverURL), redis', tr) ->
  0 < PaidGenerations u
  /\ exists db' u',
       generateCoverHandler w db redis user_id (Some req)
       = (mkResponse StatusOK (BCover (w_uuid_response w) coverURL), db', redis', tr)
       /\ users db' !! ID u = Some u'
       /\ PaidGenerations u' = PaidGenerations u - 1
       /\ FreeGenerationsLeft u' = FreeGenerationsLeft u
       /\ LastFreeGeneration u' = LastFreeGeneration u
       /\ generations db'
          = generations db
            ++ [mkGeneration (w_uuid_generation w) (ID u) coverURL (t_provider t) false].
Proof.
  intros Hu Hid Hfree Hstep Hrun.
  destruct (limitStep_ticket _ _ _ _ _ _ _ Hu Hid Hstep) as [Hdb1 [Htid [Huse Hcan]]].
  assert (Hsame : Before (LastFreeGeneration u) (startOfDay (w_tz w) (w_now_check w)) = false).
  { unfold freeAt in Hfree. destruct (Before _ _); [lia|reflexivity]. }
  assert (Hu1 : checkedUser (w_tz w) (w_now_check w) u = u).
  { unfold checkedUser. now rewrite Hsame. }
  assert (Hd1 : checkedDB (w_tz w) (w_now_check w) db u = db).
  { unfold checkedDB. now rewrite Hsame. }
  rewrite Hd1 in Hdb1. rewrite Hu1 in *. subst db1.
  assert (Hf0 : (0 <? FreeGenerationsLeft u) = false).
  { unfold freeAt in Hfree. rewrite Hsame in Hfree. apply Z.ltb_ge. exact Hfree. }
  rewrite Hf0 in Hcan. cbn [orb] in Hcan.
  assert (Hchoose : t_useFree t = false).
  { rewrite Huse. unfold chooseFree. now rewrite Hf0. }
  split; [apply Z.ltb_lt; exact Hcan|].
  pose proof (UseGeneration_paid_eq (w_tz w) (w_now_use w) (w_now_stamp w) db u Hu) as Hused.
  rewrite Hcan in Hused. rewrite <- Htid, <- Hchoose in Hused.
  eexists _, (withPaid (PaidGenerations u - 1) u).
  split; [exact (handler_success_free _ _ _ _ _ _ _ _ _ _ u _ Hstep Hrun Hused)|].
  rewrite createGeneration_users.
  split; [now apply lookup_saveUser_at|].
  split; [reflexivity|]. split; [reflexivity|]. split; [reflexivity|].
  unfold createGeneration. cbn [generations saveUser].
  rewrite Htid, Hchoose. reflexivity.
Qed.

Lemma paid_generation_is_spent_when_free_is_gone_witness :
  let w := sampleWorld sampleNoon "a" (HttpResp 200 "created") (pollDoneAt 0)
             (HttpResp 200 "png") in
  let u := sampleUser 0 (sampleNoon - Minute) 5 in
  let db := saveUser emptyDB u in
  exists db' u',
    snd (fst (fst (generateCoverHandler w db ∅ (Some (VString "u1")) (Some sampleRequest))))
    = db'
    /\ users db' !! "u1" = Some u'
    /\ PaidGenerations u' = 5 - 1
    /\ FreeGenerationsLeft u' = 0.
Proof.
  intros w u db.
  destruct (paid_generation_is_spent_when_free_is_gone w db db ∅ ∅
              (Some (VString "u1")) sampleRequest u
              (mkTicket "u1" "nanobanana" "QUJD" "png" "" false)
              "https://cover.example/storage/u1/file-a_1700000000.png"
              (snd (generate w ∅ (mkTicket "u1" "nanobanana" "QUJD" "png" "" false))))
    as [_ [db' [u' [Hrun [Hrow [Hpaid [Hfree _]]]]]]];
    [reflexivity|reflexivity|discriminate|reflexivity|reflexivity|].
  exists db', u'. rewrite Hrun. repeat split; assumption.
Defined.

(** ** The payment webhook, further *)

(** X14.  The webhook changes a balance only for a success notification of a
    known order whose package is in the catalogue: in every other case the
    accounts are exactly as before, and the [Generation] rows are never
    touched. *)
Theorem webhook_credits_only_known_success (db : DB)
  (webhookData : option (gmap string Value)) :
  generations (snd (paymentWebhook db webhookData)) = generations db
  /\ (users (snd (paymentWebhook db webhookData)) = users db
      \/ exists data t pkg,
           webhookData = Some data
           /\ (asString (data !! "status") = "success"
               \/ asString (data !! "status") = "completed")
           /\ firstTransactionByOrder db (asString (data !! "order_id")) = Ok t
           /\ In pkg Packages
           /\ pkg_Type pkg = PackageType t).
Proof.
  unfold paymentWebhook. destruct webhookData as [data|]; [|split; [reflexivity|now left]].
  destruct (firstTransactionByOrder db (asString (data !! "order_id"))) as [t|e] eqn:Hfirst;
    [|split; [reflexivity|now left]].
  destruct (String.eqb_spec (asString (data !! "status")) "success") as [Hs|Hs];
    [|destruct (String.eqb_spec (asString (data !! "status")) "completed") as [Hc|Hc]];
    cbn [orb snd].
  - change (PackageType (withStatus "completed" t)) with (PackageType t).
    destruct (find (fun pkg => String.eqb (pkg_Type pkg) (PackageType t)) Packages)
      as [pkg|] eqn:Hpkg; [|split; [reflexivity|now left]].
    split.
    + unfold AddPaidGenerations.
      destruct (firstUser _ _); reflexivity.
    + right. exists data, t, pkg. split; [reflexivity|]. split; [now left|].
      split; [exact Hfirst|]. apply find_some in Hpkg as [Hin Heq].
      split; [exact Hin|now apply String.eqb_eq].
  - change (PackageType (withStatus "completed" t)) with (PackageType t).
    destruct (find (fun pkg => String.eqb (pkg_Type pkg) (PackageType t)) Packages)
      as [pkg|] eqn:Hpkg; [|split; [reflexivity|now left]].
    split.
    + unfold AddPaidGenerations.
      destruct (firstUser _ _); reflexivity.
    + right. exists data, t, pkg. split; [reflexivity|]. split; [now right|].
      split; [exact Hfirst|]. apply find_some in Hpkg as [Hin Heq].
      split; [exact Hin|now apply String.eqb_eq].
  - split; [reflexivity|now left].
Qed.

Lemma paymentWebhook_failure (db : DB) (webhookData : gmap string Value)
  (t : Transaction) :
  asString (webhookData !! "status") <> "success" ->
  asString (webhookData !! "status") <> "completed" ->
  firstTransactionByOrder db (asString (webhookData !! "order_id")) = Ok t ->
  paymentWebhook db (Some webhookData)
  = (mkResponse StatusOK (BStatus "ok"), saveTransaction db (withStatus "failed" t)).
Proof.
  intros Hs Hc Hfirst. unfold paymentWebhook. rewrite Hfirst.
  destruct (String.eqb_spec (asString (webhookData !! "status")) "success"); [contradiction|].
  destruct (String.eqb_spec (asString (webhookData !! "status")) "completed");
    [contradiction|reflexivity].
Qed.

(** X15.  A failure notification that arrives after the success notification
    of the same order turns the intent's status from [completed] to
    [failed] and takes nothing back: the account keeps the generations the
    success credited. *)
Theorem late_failure_flips_status_keeps_credit (db : DB)
  (okData failData : gmap string Value) (t : Transaction) (pkg : Package) (u : User) :
  asString (okData !! "status") = "success" \/ asString (okData !! "status") = "completed" ->
  asString (failData !! "status") <> "success" ->
  asString (failData !! "status") <> "completed" ->
  asString (failData !! "order_id") = asString (okData !! "order_id") ->
  NoDup (map tx_ID (transactions db)) ->
  firstTransactionByOrder db (asString (okData !! "order_id")) = Ok t ->
  find (fun p => String.eqb (pkg_Type p) (PackageType t)) Packages = Some pkg ->
  users db !! ID u = Some u ->
  tx_UserID t = ID u ->
  let db1 := snd (paymentWebhook db (Some okData)) in
  let db2 := snd (paymentWebhook db1 (Some failData)) in
  firstTransactionByOrder db1 (asString (okData !! "order_id"))
  = Ok (withStatus "completed" t)
  /\ firstTransactionByOrder db2 (asString (okData !! "order_id"))
     = Ok (withStatus "failed" t)
  /\ users db2 !! ID u = Some (withPaid (wrap64 (PaidGenerations u + Count pkg)) u).
Proof.
  intros Hok Hs Hc Horder Hnodup Hfirst Hpkg Hu Huid db1 db2.
  assert (Hfind : find (fun x => String.eqb (LavaOrderID x) (asString (okData !! "order_id")))
                    (transactions db) = Some t).
  { unfold firstTransactionByOrder in Hfirst.
    destruct (find _ (transactions db)); now inversion Hfirst. }
  pose proof (paymentWebhook_success db okData t pkg u Hok Hnodup Hfind Hpkg Hu Huid) as Hone.
  assert (Hfind1 : find (fun x => String.eqb (LavaOrderID x) (asString (okData !! "order_id")))
                     (transactions db1) = Some (withStatus "completed" t)).
  { subst db1. rewrite Hone. cbn [snd transactions]. now apply find_order_upsert. }
  assert (Hnodup1 : NoDup (map tx_ID (transactions db1))).
  { subst db1. rewrite Hone. cbn [snd transactions].
    rewrite upsertTransaction_ids; [exact Hnodup|].
    apply (find_order_In _ _ _ Hfind). }
  assert (Hfirst1 : firstTransactionByOrder db1 (asString (failData !! "order_id"))
                    = Ok (withStatus "completed" t)).
  { unfold firstTransactionByOrder. now rewrite Horder, Hfind1. }
  split; [unfold firstTransactionByOrder; now rewrite Hfind1|].
  subst db2. rewrite (paymentWebhook_failure _ _ _ Hs Hc Hfirst1). cbn [snd].
  split.
  - unfold firstTransactionByOrder, saveTransaction. cbn [transactions].
    now rewrite (find_order_upsert "failed" _ (withStatus "completed" t) _ Hnodup1 Hfind1).
  - unfold saveTransaction. cbn [users]. subst db1. rewrite Hone. cbn [snd users].
    apply lookup_insert_eq.
Qed.

Lemma late_failure_flips_status_keeps_credit_witness :
  let db := mkDB (users (saveUser emptyDB (sampleUser 0 zeroTime 0))) [] [sampleIntent] in
  let db1 := snd (paymentWebhook db (Some (sampleNotification "success"))) in
  let db2 := snd (paymentWebhook db1 (Some (sampleNotification "expired"))) in
  firstTransactionByOrder db2 "order-1" = Ok (withStatus "failed" sampleIntent)
  /\ users db2 !! "u1" = Some (withPaid (wrap64 (0 + 30)) (sampleUser 0 zeroTime 0)).
Proof.
  intros db db1 db2.
  destruct (late_failure_flips_status_keeps_credit db (sampleNotification "success")
              (sampleNotification "expired") sampleIntent
              (mkPackage "pack2" "Basic" 30 799 59900 true) (sampleUser 0 zeroTime 0))
    as [_ [Hstatus Hcredit]];
    [left; reflexivity|discriminate|discriminate|reflexivity
    |repeat constructor; apply not_elem_of_nil
    |reflexivity|reflexivity|reflexivity|reflexivity|].
  split; [exact Hstatus|exact Hcredit].
Defined.

(** ** Purchases *)

Lemma createTransaction_fresh (db : DB) (t : Transaction) :
  freshFor db t -> createTransaction db t = Ok (addIntent db t).
Proof.
  intros Hfresh. unfold createTransaction, addIntent.
  assert (Hex : existsb (fun x => String.eqb (tx_ID x) (tx_ID t)
                                  || String.eqb (LavaOrderID x) (LavaOrderID t))
                  (transactions db) = false).
  { unfold freshFor in Hfresh. induction Hfresh as [|x l [Hid Hord] _ IH]; [reflexivity|].
    simpl. rewrite IH.
    destruct (String.eqb_spec (tx_ID x) (tx_ID t)); [contradiction|].
    destruct (String.eqb_spec (LavaOrderID x) (LavaOrderID t)); [contradiction|reflexivity]. }
  now rewrite Hex.
Qed.

Lemma createTransaction_blocked (db : DB) (t x : Transaction) :
  In x (transactions db) -> LavaOrderID x = LavaOrderID t ->
  createTransaction db t = Err ErrUniqueConstraint.
Proof.
  intros Hin Hord. unfold createTransaction.
  assert (Hex : existsb (fun y => String.eqb (tx_ID y) (tx_ID t)
                                  || String.eqb (LavaOrderID y) (LavaOrderID t))
                  (transactions db) = true).
  { apply existsb_exists. exists x. split; [exact Hin|].
    rewrite Hord, String.eqb_refl. apply orb_true_r. }
  now rewrite Hex.
Qed.

Lemma upsertTransaction_last (t t' : Transaction) (l : list Transaction) :
  Forall (fun x => tx_ID x <> tx_ID t) l ->
  tx_ID t' = tx_ID t ->
  upsertTransaction t' (l ++ [t]) = l ++ [t'].
Proof.
  intros Hfresh Hid. induction Hfresh as [|x l Hx _ IH]; simpl.
  - now rewrite Hid, String.eqb_refl.
  - rewrite Hid. destruct (String.eqb_spec (tx_ID x) (tx_ID t)); [contradiction|].
    now rewrite IH.
Qed.

Lemma find_order_last (orderID : string) (t : Transaction) (l : list Transaction) :
  Forall (fun x => LavaOrderID x <> orderID) l ->
  LavaOrderID t = orderID ->
  find (fun x => String.eqb (LavaOrderID x) orderID) (l ++ [t]) = Some t.
Proof.
  intros Hfresh Hord. induction Hfresh as [|x l Hx _ IH]; simpl.
  - now rewrite Hord, String.eqb_refl.
  - destruct (String.eqb_spec (LavaOrderID x) orderID); [contradiction|exact IH].
Qed.

Lemma lavaCurrency_id (currency : string) :
  (if String.eqb currency "USD" then "USD"
   else if String.eqb currency "RUB" then "RUB" else currency) = currency.
Proof.
  destruct (String.eqb_spec currency "USD") as [->|_]; [reflexivity|].
  now destruct (String.eqb_spec currency "RUB") as [->|_].
Qed.

(** The handler once the request is accepted and the intent written. *)
Lemma paymentCreateHandler_accepted (pw : PayWorld) (db : DB) (session : gmap string Value)
  (v : Value) (req : PaymentRequest) (pkg : Package) :
  session !! "user_id" = Some v ->
  find (fun p => String.eqb (pkg_Type p) (pr_PackageType req)) Packages = Some pkg ->
  freshFor db (pendingIntent pw (asString (Some v)) req pkg) ->
  paymentCreateHandler pw db session (Some req)
  = let intent := pendingIntent pw (asString (Some v)) req pkg in
    let '(order, sent) :=
      createLavaTopOrder pw (p_uuid_transaction pw) (priceIn (pr_Currency req) pkg)
        (pr_Currency req) pkg in
    match order with
    | Err e =>
        (AJSON StatusInternalServerError
           (ginH [("error", JStr "Failed to create payment order"); ("details", JStr e)]),
         addIntent db intent, sent)
    | Ok (orderID, paymentURL) =>
        (AJSON StatusOK
           (ginH [("transaction_id", JStr (p_uuid_transaction pw));
                  ("payment_url", JStr paymentURL);
                  ("order_id", JStr orderID)]),
         saveTransactionOrder (addIntent db intent) (withLavaOrderID orderID intent), sent)
    end.
Proof.
  intros Hsession Hpkg Hfresh. unfold paymentCreateHandler.
  rewrite Hsession, Hpkg.
  fold (priceIn (pr_Currency req) pkg).
  fold (pendingIntent pw (asString (Some v)) req pkg).
  rewrite (createTransaction_fresh _ _ Hfresh). cbn zeta.
  destruct (createLavaTopOrder pw (p_uuid_transaction pw) (priceIn (pr_Currency req) pkg)
              (pr_Currency req) pkg) as [[[orderID paymentURL]|e] sent]; reflexivity.
Qed.

Lemma createLavaTopOrder_sent (pw : PayWorld) (transactionID : string) (amount : Z)
  (currency : string) (pkg : Package) :
  p_LAVA_SHOP_ID pw <> "" ->
  p_LAVA_SECRET_KEY pw <> "" ->
  p_newRequest pw ((if String.eqb (p_LAVA_API_URL pw) "" then "https://api.lava.top"
                    else p_LAVA_API_URL pw) +:+ "/v1/invoice/create") = None ->
  snd (createLavaTopOrder pw transactionID amount currency pkg)
  = [EvLavaInvoice ((if String.eqb (p_LAVA_API_URL pw) "" then "https://api.lava.top"
                     else p_LAVA_API_URL pw) +:+ "/v1/invoice/create")
       amount transactionID (p_LAVA_SHOP_ID pw) currency].
Proof.
  intros Hshop Hsecret Hreq. unfold createLavaTopOrder.
  destruct (String.eqb_spec (p_LAVA_SHOP_ID pw) ""); [contradiction|].
  destruct (String.eqb_spec (p_LAVA_SECRET_KEY pw) ""); [contradiction|].
  cbn [orb]. rewrite Hreq, lavaCurrency_id.
  destruct (p_lavaHTTP pw) as [e|st e|st body]; try reflexivity.
  destruct (negb (st =? 200)); [reflexivity|].
  destruct (p_unmarshalLava pw body) as [lavaResp|e]; [|reflexivity].
  now destruct (negb (String.eqb (lava_Status lavaResp) "success")).
Qed.

Lemma freshFor_ids (db : DB) (t : Transaction) :
  freshFor db t -> Forall (fun x => tx_ID x <> tx_ID t) (transactions db).
Proof.
  intros Hfresh. unfold freshFor in Hfresh.
  induction Hfresh as [|x l [Hid _] _ IH]; constructor; assumption.
Qed.

Lemma freshFor_orders (db : DB) (t : Transaction) :
  freshFor db t -> Forall (fun x => LavaOrderID x <> LavaOrderID t) (transactions db).
Proof.
  intros Hfresh. unfold freshFor in Hfresh.
  induction Hfresh as [|x l [_ Hord] _ IH]; constructor; assumption.
Qed.

Lemma NoDup_ids_last (l : list Transaction) (t : Transaction) :
  NoDup (map tx_ID l) ->
  Forall (fun x => tx_ID x <> tx_ID t) l ->
  NoDup (map tx_ID (l ++ [t])).
Proof.
  intros Hnodup Hfresh. rewrite map_app. apply NoDup_app.
  split; [exact Hnodup|]. split; [|repeat constructor; apply not_elem_of_nil].
  intros i Hi Hin. apply list_elem_of_In in Hi. apply in_map_iff in Hi as [x [<- Hx]].
  apply list_elem_of_In in Hin. destruct Hin as [Heq|[]].
  rewrite Forall_forall in Hfresh. apply list_elem_of_In in Hx.
  now apply (Hfresh x Hx).
Qed.

(** A success notification for the intent last written. *)
Lemma paymentWebhook_settles_new_intent (db : DB) (webhookData : gmap string Value)
  (t : Transaction) (pkg : Package) (u : User) :
  asString (webhookData !! "status") = "success"
  \/ asString (webhookData !! "status") = "completed" ->
  asString (webhookData !! "order_id") = LavaOrderID t ->
  NoDup (map tx_ID (transactions db)) ->
  freshFor db t ->
  find (fun p => String.eqb (pkg_Type p) (PackageType t)) Packages = Some pkg ->
  users db !! ID u = Some u ->
  tx_UserID t = ID u ->
  paymentWebhook (addIntent db t) (Some webhookData)
  = (mkResponse StatusOK (BStatus "ok"),
     mkDB (<[ID u := withPaid (wrap64 (PaidGenerations u + Count pkg)) u]> (users db))
          (generations db)
          (transactions db ++ [withStatus "completed" t])).
Proof.
  intros Hstatus Horder Hnodup Hfresh Hpkg Hu Huid.
  rewrite (paymentWebhook_success (addIntent db t) webhookData t pkg u Hstatus).
  - unfold addIntent. cbn [users generations transactions].
    now rewrite (upsertTransaction_last t _ _ (freshFor_ids _ _ Hfresh)).
  - unfold addIntent. cbn [transactions].
    apply NoDup_ids_last; [exact Hnodup|now apply freshFor_ids].
  - unfold addIntent. cbn [transactions]. rewrite Horder.
    apply find_order_last; [now apply freshFor_orders|reflexivity].
  - exact Hpkg.
  - exact Hu.
  - exact Huid.
Qed.

(** X16.  What a purchase charges.  Once the request is accepted (signed in,
    package in the catalogue, intent written) and the gateway is configured,
    exactly one invoice is sent: for the new transaction id, in the currency
    text of the request, over the rouble price when that text is [RUB] and
    over the dollar price for every other text.  The intent in the store is
    pending and carries that amount, currency and package, under the
    session's account. *)
Theorem purchase_price_follows_currency (pw : PayWorld) (db : DB)
  (session : gmap string Value) (v : Value) (req : PaymentRequest) (pkg : Package) :
  session !! "user_id" = Some v ->
  find (fun p => String.eqb (pkg_Type p) (pr_PackageType req)) Packages = Some pkg ->
  freshFor db (pendingIntent pw (asString (Some v)) req pkg) ->
  p_LAVA_SHOP_ID pw <> "" ->
  p_LAVA_SECRET_KEY pw <> "" ->
  p_newRequest pw ((if String.eqb (p_LAVA_API_URL pw) "" then "https://api.lava.top"
                    else p_LAVA_API_URL pw) +:+ "/v1/invoice/create") = None ->
  let run := paymentCreateHandler pw db session (Some req) in
  snd run
  = [EvLavaInvoice ((if String.eqb (p_LAVA_API_URL pw) "" then "https://api.lava.top"
                     else p_LAVA_API_URL pw) +:+ "/v1/invoice/create")
       (priceIn (pr_Currency req) pkg) (p_uuid_transaction pw) (p_LAVA_SHOP_ID pw)
       (pr_Currency req)]
  /\ (pr_Currency req = "RUB" -> priceIn (pr_Currency req) pkg = PriceRUB pkg)
  /\ (pr_Currency req <> "RUB" -> priceIn (pr_Currency req) pkg = PriceUSD pkg)
  /\ exists t, In t (transactions (snd (fst run)))
               /\ tx_ID t = p_uuid_transaction pw
               /\ tx_UserID t = asString (Some v)
               /\ PackageType t = pr_PackageType req
               /\ Amount t = priceIn (pr_Currency req) pkg
               /\ Currency t = pr_Currency req
               /\ Status t = "pending".
Proof.
  intros Hsession Hpkg Hfresh Hshop Hsecret Hreq run. subst run.
  rewrite (paymentCreateHandler_accepted _ _ _ _ _ _ Hsession Hpkg Hfresh). cbn zeta.
  pose proof (createLavaTopOrder_sent pw (p_uuid_transaction pw)
                (priceIn (pr_Currency req) pkg) (pr_Currency req) pkg Hshop Hsecret Hreq)
    as Hsent.
  destruct (createLavaTopOrder pw (p_uuid_transaction pw) (priceIn (pr_Currency req) pkg)
              (pr_Currency req) pkg) as [order sent].
  cbn [snd] in Hsent. subst sent.
  assert (Hprice : (pr_Currency req = "RUB" -> priceIn (pr_Currency req) pkg = PriceRUB pkg)
                   /\ (pr_Currency req <> "RUB"
                       -> priceIn (pr_Currency req) pkg = PriceUSD pkg)).
  { unfold priceIn. destruct (String.eqb_spec (pr_Currency req) "RUB"); split; intros;
      congruence. }
  destruct Hprice as [Hrub Husd].
  destruct order as [[orderID paymentURL]|e]; cbn [fst snd].
  - split; [reflexivity|]. split; [exact Hrub|]. split; [exact Husd|].
    unfold saveTransactionOrder.
    destruct (existsb _ (transactions (addIntent db _))).
    + exists (pendingIntent pw (asString (Some v)) req pkg).
      split; [unfold addIntent; cbn [transactions]; apply in_or_app; right; now left|].
      now repeat split.
    + exists (withLavaOrderID orderID (pendingIntent pw (asString (Some v)) req pkg)).
      split; [|now repeat split].
      unfold saveTransaction, addIntent. cbn [transactions].
      rewrite (upsertTransaction_last (pendingIntent pw (asString (Some v)) req pkg)
                 _ _ (freshFor_ids _ _ Hfresh)) by reflexivity.
      apply in_or_app; right; now left.
  - split; [reflexivity|]. split; [exact Hrub|]. split; [exact Husd|].
    exists (pendingIntent pw (asString (Some v)) req pkg).
    split; [unfold addIntent; cbn [transactions]; apply in_or_app; right; now left|].
    now repeat split.
Qed.

Lemma purchase_price_follows_currency_witness :
  let pw := samplePayWorld (HttpResp 200 "invoice") in
  snd (paymentCreateHandler pw emptyDB sampleSession (Some (mkPaymentRequest "pack2" "EUR")))
  = [EvLavaInvoice "https://api.lava.top/v1/invoice/create" 799 "tx-9" "shop-1" "EUR"].
Proof.
  intros pw.
  destruct (purchase_price_follows_currency pw emptyDB sampleSession (VString "u1")
              (mkPaymentRequest "pack2" "EUR") (mkPackage "pack2" "Basic" 30 799 59900 true))
    as [Hsent _];
    [reflexivity|reflexivity|constructor|discriminate|discriminate|reflexivity|].
  exact Hsent.
Defined.

(** X17.  When the gateway call fails, the handler answers 500 and the
    pending intent it has written stays in the store with an empty order
    reference.  As the order reference is unique among the intents, every
    later purchase, by any account and for any package, is then refused with
    500 "Failed to create transaction" before the gateway is called, and
    writes nothing. *)
Theorem gateway_failure_blocks_later_purchases (pw : PayWorld) (db : DB)
  (session : gmap string Value) (v : Value) (req : PaymentRequest) (pkg : Package)
  (e : error) (sent : list PayEvent) :
  session !! "user_id" = Some v ->
  find (fun p => String.eqb (pkg_Type p) (pr_PackageType req)) Packages = Some pkg ->
  freshFor db (pendingIntent pw (asString (Some v)) req pkg) ->
  createLavaTopOrder pw (p_uuid_transaction pw) (priceIn (pr_Currency req) pkg)
    (pr_Currency req) pkg = (Err e, sent) ->
  let db1 := addIntent db (pendingIntent pw (asString (Some v)) req pkg) in
  paymentCreateHandler pw db session (Some req)
  = (AJSON StatusInternalServerError
       (ginH [("error", JStr "Failed to create payment order"); ("details", JStr e)]),
     db1, sent)
  /\ forall pw' session' v' req' pkg',
       session' !! "user_id" = Some v' ->
       find (fun p => String.eqb (pkg_Type p) (pr_PackageType req')) Packages = Some pkg' ->
       paymentCreateHandler pw' db1 session' (Some req')
       = (AJSON StatusInternalServerError
            (ginH [("error", JStr "Failed to create transaction")]), db1, []).
Proof.
  intros Hsession Hpkg Hfresh Hlava db1. split.
  - rewrite (paymentCreateHandler_accepted _ _ _ _ _ _ Hsession Hpkg Hfresh). cbn zeta.
    now rewrite Hlava.
  - intros pw' session' v' req' pkg' Hsession' Hpkg'.
    unfold paymentCreateHandler. rewrite Hsession', Hpkg'.
    rewrite (createTransaction_blocked db1 _ (pendingIntent pw (asString (Some v)) req pkg));
      [reflexivity| |reflexivity].
    subst db1. unfold addIntent. cbn [transactions]. apply in_or_app. right. now left.
Qed.

Lemma gateway_failure_blocks_later_purchases_witness :
  let pw := samplePayWorld (HttpSendErr "connection refused") in
  let db1 := snd (fst (paymentCreateHandler pw emptyDB sampleSession
                         (Some (mkPaymentRequest "pack2" "RUB")))) in
  paymentCreateHandler (samplePayWorld (HttpResp 200 "invoice")) db1
    (<["user_id" := VString "u2"]> ∅) (Some (mkPaymentRequest "pack1" "USD"))
  = (AJSON StatusInternalServerError
       (ginH [("error", JStr "Failed to create transaction")]), db1, []).
Proof.
  intros pw db1.
  destruct (gateway_failure_blocks_later_purchases pw emptyDB sampleSession (VString "u1")
              (mkPaymentRequest "pack2" "RUB") (mkPackage "pack2" "Basic" 30 799 59900 true)
              "failed to send request: connection refused"
              [EvLavaInvoice "https://api.lava.top/v1/invoice/create" 59900 "tx-9" "shop-1"
                 "RUB"])
    as [_ Hblocked]; [reflexivity|reflexivity|constructor|reflexivity|].
  apply (Hblocked (samplePayWorld (HttpResp 200 "invoice")) (<["user_id" := VString "u2"]> ∅)
           (VString "u2") (mkPaymentRequest "pack1" "USD")
           (mkPackage "pack1" "Starter" 10 299 24900 false)); reflexivity.
Defined.

Lemma saveTransactionOrder_new (db : DB) (t : Transaction) (orderID : string) :
  freshFor db t ->
  Forall (fun x => LavaOrderID x <> orderID) (transactions db) ->
  saveTransactionOrder (addIntent db t) (withLavaOrderID orderID t)
  = addIntent db (withLavaOrderID orderID t).
Proof.
  intros Hfresh Horders. unfold saveTransactionOrder.
  assert (Hex : existsb (fun x => negb (String.eqb (tx_ID x) (tx_ID (withLavaOrderID orderID t)))
                                  && String.eqb (LavaOrderID x)
                                       (LavaOrderID (withLavaOrderID orderID t)))
                  (transactions (addIntent db t)) = false).
  { unfold addIntent. cbn [transactions]. rewrite existsb_app. cbn [existsb].
    change (tx_ID (withLavaOrderID orderID t)) with (tx_ID t).
    change (LavaOrderID (withLavaOrderID orderID t)) with orderID.
    rewrite String.eqb_refl. cbn [negb andb orb]. rewrite orb_false_r.
    induction Horders as [|x l Hx _ IH]; [reflexivity|]. simpl. rewrite IH.
    destruct (String.eqb_spec (LavaOrderID x) orderID); [contradiction|].
    now rewrite andb_false_r. }
  rewrite Hex. unfold saveTransaction, addIntent. cbn [users generations transactions].
  now rewrite (upsertTransaction_last t _ _ (freshFor_ids _ _ Hfresh)).
Qed.

(** X18.  A purchase, end to end.  A signed-in account buys a package of the
    catalogue, the gateway returns an order reference no intent holds yet,
    and the gateway then notifies success for that reference: the handler
    answers 200 with the payment URL and the reference, the intent ends
    [completed], and the account's paid balance has grown by the count of
    the package bought (in 64-bit arithmetic). *)
Theorem purchase_then_notification_credits (pw : PayWorld) (db : DB)
  (session : gmap string Value) (req : PaymentRequest) (pkg : Package) (u : User)
  (orderID paymentURL : string) (sent : list PayEvent) (webhookData : gmap string Value) :
  users db !! ID u = Some u ->
  session !! "user_id" = Some (VString (ID u)) ->
  find (fun p => String.eqb (pkg_Type p) (pr_PackageType req)) Packages = Some pkg ->
  NoDup (map tx_ID (transactions db)) ->
  freshFor db (pendingIntent pw (ID u) req pkg) ->
  Forall (fun x => LavaOrderID x <> orderID) (transactions db) ->
  createLavaTopOrder pw (p_uuid_transaction pw) (priceIn (pr_Currency req) pkg)
    (pr_Currency req) pkg = (Ok (orderID, paymentURL), sent) ->
  asString (webhookData !! "order_id") = orderID ->
  asString (webhookData !! "status") = "success"
  \/ asString (webhookData !! "status") = "completed" ->
  let db1 := snd (fst (paymentCreateHandler pw db session (Some req))) in
  let db2 := snd (paymentWebhook db1 (Some webhookData)) in
  fst (fst (paymentCreateHandler pw db session (Some req)))
  = AJSON StatusOK (ginH [("transaction_id", JStr (p_uuid_transaction pw));
                          ("payment_url", JStr paymentURL);
                          ("order_id", JStr orderID)])
  /\ firstTransactionByOrder db1 orderID
     = Ok (withLavaOrderID orderID (pendingIntent pw (ID u) req pkg))
  /\ firstTransactionByOrder db2 orderID
     = Ok (withStatus "completed" (withLavaOrderID orderID (pendingIntent pw (ID u) req pkg)))
  /\ users db2 !! ID u = Some (withPaid (wrap64 (PaidGenerations u + Count pkg)) u).
Proof.
  intros Hu Hsession Hpkg Hnodup Hfresh Horders Hlava Horder Hstatus db1 db2.
  assert (Hrun : paymentCreateHandler pw db session (Some req)
                 = (AJSON StatusOK (ginH [("transaction_id", JStr (p_uuid_transaction pw));
                                          ("payment_url", JStr paymentURL);
                                          ("order_id", JStr orderID)]),
                    addIntent db (withLavaOrderID orderID (pendingIntent pw (ID u) req pkg)),
                    sent)).
  { rewrite (paymentCreateHandler_accepted _ _ _ (VString (ID u)) _ _ Hsession Hpkg Hfresh).
    cbn zeta. cbn [asString]. rewrite Hlava.
    now rewrite (saveTransactionOrder_new _ _ _ Hfresh Horders). }
  assert (Hfresh1 : freshFor db (withLavaOrderID orderID (pendingIntent pw (ID u) req pkg))).
  { unfold freshFor.
    pose proof (freshFor_ids _ _ Hfresh) as Hids.
    clear -Hids Horders. induction Hids as [|x l Hx _ IH]; constructor.
    - inversion Horders; subst. split; assumption.
    - apply IH. now inversion Horders. }
  assert (Hone : paymentWebhook db1 (Some webhookData)
                 = (mkResponse StatusOK (BStatus "ok"),
                    mkDB (<[ID u := withPaid (wrap64 (PaidGenerations u + Count pkg)) u]>
                            (users db))
                         (generations db)
                         (transactions db
                          ++ [withStatus "completed"
                                (withLavaOrderID orderID (pendingIntent pw (ID u) req pkg))]))).
  { subst db1. rewrite Hrun. cbn [fst snd].
    apply paymentWebhook_settles_new_intent; try assumption; reflexivity. }
  subst db2. rewrite Hone. subst db1. rewrite Hrun. cbn [fst snd].
  split; [reflexivity|]. split; [|split].
  - unfold firstTransactionByOrder, addIntent. cbn [transactions].
    now rewrite find_order_last.
  - unfold firstTransactionByOrder. cbn [transactions].
    now rewrite find_order_last.
  - cbn [users]. apply lookup_insert_eq.
Qed.

Lemma purchase_then_notification_credits_witness :
  let pw := samplePayWorld (HttpResp 200 "invoice") in
  let u := sampleUser 0 sampleNoon 0 in
  let db := saveUser emptyDB u in
  let db1 := snd (fst (paymentCreateHandler pw db sampleSession
                         (Some (mkPaymentRequest "pack3" "USD")))) in
  let db2 := snd (paymentWebhook db1
                    (Some (<["order_id" := VString "inv-1"]>
                             (<["status" := VString "success"]> ∅)))) in
  users db2 !! "u1" = Some (withPaid (wrap64 (0 + 100)) u).
Proof.
  intros pw u db db1 db2.
  destruct (purchase_then_notification_credits pw db sampleSession
              (mkPaymentRequest "pack3" "USD")
              (mkPackage "pack3" "Professional" 100 1999 149900 false) u
              "inv-1" "https://pay.example/inv-1"
              [EvLavaInvoice "https://api.lava.top/v1/invoice/create" 1999 "tx-9" "shop-1"
                 "USD"]
              (<["order_id" := VString "inv-1"]> (<["status" := VString "success"]> ∅)))
    as [_ [_ [_ Hcredit]]];
    [reflexivity|reflexivity|reflexivity|constructor|constructor|constructor
    |reflexivity|reflexivity|left; reflexivity|].
  exact Hcredit.
Defined.

(** X19.  A notification without an order reference settles the intent whose
    gateway call failed.  After a purchase whose gateway call failed (the
    intent is left with an empty reference), a success notification that
    carries no [order_id], or one that is not a string, is matched with that
    intent: it is marked [completed] and the account is credited the count
    of its package, although no payment was ever set up. *)
Theorem notification_without_reference_settles_failed_purchase (pw : PayWorld) (db : DB)
  (session : gmap string Value) (req : PaymentRequest) (pkg : Package) (u : User)
  (e : error) (sent : list PayEvent) (webhookData : gmap string Value) :
  users db !! ID u = Some u ->
  session !! "user_id" = Some (VString (ID u)) ->
  find (fun p => String.eqb (pkg_Type p) (pr_PackageType req)) Packages = Some pkg ->
  NoDup (map tx_ID (transactions db)) ->
  freshFor db (pendingIntent pw (ID u) req pkg) ->
  createLavaTopOrder pw (p_uuid_transaction pw) (priceIn (pr_Currency req) pkg)
    (pr_Currency req) pkg = (Err e, sent) ->
  (forall s, webhookData !! "order_id" <> Some (VString s)) ->
  asString (webhookData !! "status") = "success"
  \/ asString (webhookData !! "status") = "completed" ->
  let db1 := snd (fst (paymentCreateHandler pw db session (Some req))) in
  let db2 := snd (paymentWebhook db1 (Some webhookData)) in
  firstTransactionByOrder db1 "" = Ok (pendingIntent pw (ID u) req pkg)
  /\ firstTransactionByOrder db2 ""
     = Ok (withStatus "completed" (pendingIntent pw (ID u) req pkg))
  /\ users db2 !! ID u = Some (withPaid (wrap64 (PaidGenerations u + Count pkg)) u).
Proof.
  intros Hu Hsession Hpkg Hnodup Hfresh Hlava Hnoref Hstatus db1 db2.
  assert (Horder : asString (webhookData !! "order_id") = "").
  { destruct (webhookData !! "order_id") as [[s|]|]; try reflexivity.
    now destruct (Hnoref s). }
  assert (Hrun : paymentCreateHandler pw db session (Some req)
                 = (AJSON StatusInternalServerError
                      (ginH [("error", JStr "Failed to create payment order");
                             ("details", JStr e)]),
                    addIntent db (pendingIntent pw (ID u) req pkg), sent)).
  { rewrite (paymentCreateHandler_accepted _ _ _ (VString (ID u)) _ _ Hsession Hpkg Hfresh).
    cbn zeta. cbn [asString]. now rewrite Hlava. }
  assert (Hone : paymentWebhook db1 (Some webhookData)
                 = (mkResponse StatusOK (BStatus "ok"),
                    mkDB (<[ID u := withPaid (wrap64 (PaidGenerations u + Count pkg)) u]>
                            (users db))
                         (generations db)
                         (transactions db
                          ++ [withStatus "completed" (pendingIntent pw (ID u) req pkg)]))).
  { subst db1. rewrite Hrun. cbn [fst snd].
    apply paymentWebhook_settles_new_intent; try assumption; reflexivity. }
  subst db2. rewrite Hone. subst db1. rewrite Hrun. cbn [fst snd].
  split; [|split].
  - unfold firstTransactionByOrder, addIntent. cbn [transactions].
    rewrite find_order_last; [reflexivity| |reflexivity].
    exact (freshFor_orders _ _ Hfresh).
  - unfold firstTransactionByOrder. cbn [transactions].
    rewrite find_order_last; [reflexivity| |reflexivity].
    exact (freshFor_orders _ _ Hfresh).
  - cbn [users]. apply lookup_insert_eq.
Qed.

Lemma notification_without_reference_settles_failed_purchase_witness :
  let pw := samplePayWorld (HttpSendErr "connection refused") in
  let u := sampleUser 0 sampleNoon 0 in
  let db := saveUser emptyDB u in
  let db1 := snd (fst (paymentCreateHandler pw db sampleSession
                         (Some (mkPaymentRequest "pack3" "USD")))) in
  let db2 := snd (paymentWebhook db1 (Some (<["status" := VString "success"]> ∅))) in
  users db2 !! "u1" = Some (withPaid (wrap64 (0 + 100)) u).
Proof.
  intros pw u db db1 db2.
  destruct (notification_without_reference_settles_failed_purchase pw db sampleSession
              (mkPaymentRequest "pack3" "USD")
              (mkPackage "pack3" "Professional" 100 1999 149900 false) u
              "failed to send request: connection refused"
              [EvLavaInvoice "https://api.lava.top/v1/invoice/create" 1999 "tx-9" "shop-1"
                 "USD"]
              (<["status" := VString "success"]> ∅))
    as [_ [_ Hcredit]];
    [reflexivity|reflexivity|reflexivity|constructor|constructor|reflexivity
    |intros s; discriminate|left; reflexivity|].
  exact Hcredit.
Defined.

(** ** Session endpoints *)

(** X20.  [/api/auth/me] reads the row before the limit check resets it.
    For an account whose stamp is before the current day, the reply says
    [can_generate] true and counts the fresh free generation in
    [generations_remaining], while [free_generations_left] still shows the
    free counter as it was before the reset; the reset itself is written to
    the store by this read-only looking request. *)
Theorem auth_me_reports_counter_before_reset (tz : Z) (now : Time) (db : DB)
  (session : gmap string Value) (u : User) :
  session !! "user_id" = Some (VString (ID u)) ->
  users db !! ID u = Some u ->
  Before (LastFreeGeneration u) (startOfDay tz now) = true ->
  exists body,
    authMeHandler tz now db session
    = (AJSON StatusOK body, saveUser db (withLast zeroTime (withFree 1 u)))
    /\ body !! "can_generate" = Some (JBool true)
    /\ body !! "generations_remaining" = Some (JNum (wrap64 (1 + PaidGenerations u)))
    /\ body !! "free_generations_left" = Some (JNum (FreeGenerationsLeft u))
    /\ body !! "paid_generations" = Some (JNum (PaidGenerations u)).
Proof.
  intros Hsession Hu Hold. unfold authMeHandler. rewrite Hsession. cbn [asString].
  rewrite (firstUser_Some _ _ _ Hu), (CheckGenerationLimit_eq _ _ _ _ Hu), Hold.
  eexists. split; [reflexivity|]. repeat split.
Qed.

Lemma auth_me_reports_counter_before_reset_witness :
  let u := sampleUser 0 (sampleNoon - Day) 0 in
  let db := saveUser emptyDB u in
  exists body,
    fst (authMeHandler 0 sampleNoon db sampleSession) = AJSON StatusOK body
    /\ body !! "can_generate" = Some (JBool true)
    /\ body !! "generations_remaining" = Some (JNum (wrap64 (1 + 0)))
    /\ body !! "free_generations_left" = Some (JNum 0).
Proof.
  intros u db.
  destruct (auth_me_reports_counter_before_reset 0 sampleNoon db sampleSession u)
    as [body [Hrun [Hcan [Hrem [Hfree _]]]]]; [reflexivity|reflexivity|reflexivity|].
  exists body. rewrite Hrun. repeat split; assumption.
Defined.

(** X21.  The browser never learns that it may generate.  The limits
    endpoint sends the flag under the key [can_generate]; the client's
    [checkGenerationLimit] reads [canGenerate], so for every reply of the
    endpoint it resolves to [canGenerate] false.  The [remaining] count does
    arrive: for a signed-in account it is the number the limit check
    returned. *)
Theorem client_never_sees_can_generate (tz : Z) (now : Time) (db : DB)
  (session : gmap string Value) :
  snd (checkGenerationLimit_client (received (fst (userLimitsHandler tz now db session))))
  = JBool false
  /\ forall v canGenerate remaining,
       session !! "user_id" = Some v ->
       snd (CheckGenerationLimit tz now db (asString (Some v))) = Ok (canGenerate, remaining) ->
       fst (checkGenerationLimit_client
              (received (fst (userLimitsHandler tz now db session))))
       = JNum remaining.
Proof.
  unfold userLimitsHandler. split.
  - destruct (session !! "user_id") as [v|]; [|reflexivity].
    destruct (CheckGenerationLimit tz now db (asString (Some v)))
      as [db1 [[canGenerate remaining]|e]]; reflexivity.
  - intros v canGenerate remaining Hsession Hcheck. rewrite Hsession.
    destruct (CheckGenerationLimit tz now db (asString (Some v))) as [db1 checked].
    cbn [snd] in Hcheck. subst checked. cbn [fst received checkGenerationLimit_client].
    cbn [response_ok StatusOK Z.leb Z.compare Pos.compare Pos.compare_cont andb].
    change (ginH [("can_generate", JBool canGenerate); ("remaining", JNum remaining)]
              !! "remaining") with (Some (JNum remaining)).
    unfold js_or, truthy. cbn [fst].
    now destruct (Z.eqb_spec remaining 0) as [->|_].
Qed.

Lemma client_never_sees_can_generate_witness :
  let db := saveUser emptyDB (sampleUser 1 zeroTime 4) in
  checkGenerationLimit_client (received (fst (userLimitsHandler 0 sampleNoon db sampleSession)))
  = (JNum 5, JBool false).
Proof.
  intros db.
  destruct (client_never_sees_can_generate 0 sampleNoon db sampleSession) as [Hflag Hcount].
  specialize (Hcount (VString "u1") true 5 eq_refl eq_refl).
  destruct (checkGenerationLimit_client _) as [remaining canGenerate].
  cbn [fst snd] in *. now subst.
Defined.

(** X22.  The sign-in callback accepts only the state it issued.  A callback
    whose [state] is not the string stored in the session is answered 400
    and changes neither the store nor the session, whatever the identity
    provider would have said; and the state that [/api/auth/google] has just
    stored is accepted, while any other is turned down. *)
Theorem sign_in_accepts_only_issued_state (aw : AuthWorld) (db : DB)
  (session : gmap string Value) :
  (forall state code,
      session !! "oauth_state" <> Some (VString state) ->
      authCallbackHandler aw db session state code
      = (AJSON StatusBadRequest (ginH [("error", JStr "Invalid state parameter")]),
         db, session))
  /\ (a_sessionSave aw = None ->
      let session1 := snd (authGoogleHandler aw session) in
      fst (authGoogleHandler aw session)
      = ARedirect StatusTemporaryRedirect (a_AuthCodeURL aw (a_uuid_state aw))
      /\ stateMismatch (session1 !! "oauth_state") (a_uuid_state aw) = false
      /\ forall state code,
           state <> a_uuid_state aw ->
           authCallbackHandler aw db session1 state code
           = (AJSON StatusBadRequest (ginH [("error", JStr "Invalid state parameter")]),
              db, session1)).
Proof.
  assert (Hbad : forall s state code,
             s !! "oauth_state" <> Some (VString state) ->
             authCallbackHandler aw db s state code
             = (AJSON StatusBadRequest (ginH [("error", JStr "Invalid state parameter")]),
                db, s)).
  { intros s state code Hne. unfold authCallbackHandler, stateMismatch.
    destruct (s !! "oauth_state") as [[stored|]|]; try reflexivity.
    destruct (String.eqb_spec stored state) as [->|_]; [now destruct Hne|reflexivity]. }
  split; [exact (Hbad session)|].
  intros Hsave session1. subst session1. unfold authGoogleHandler. rewrite Hsave.
  cbn [fst snd]. split; [reflexivity|]. split.
  - unfold stateMismatch. rewrite lookup_insert_eq. now rewrite String.eqb_refl.
  - intros state code Hne. apply Hbad. rewrite lookup_insert_eq. congruence.
Qed.

Lemma sign_in_accepts_only_issued_state_witness :
  let session1 := snd (authGoogleHandler sampleAuthWorld ∅) in
  stateMismatch (session1 !! "oauth_state") "state-1" = false
  /\ authCallbackHandler sampleAuthWorld emptyDB session1 "forged" "code"
     = (AJSON StatusBadRequest (ginH [("error", JStr "Invalid state parameter")]),
        emptyDB, session1).
Proof.
  intros session1.
  destruct (sign_in_accepts_only_issued_state sampleAuthWorld emptyDB ∅) as [_ Hissued].
  destruct (Hissued eq_refl) as [_ [Hok Hother]].
  split; [exact Hok|]. apply Hother. discriminate.
Defined.

(** X23.  The first generation after signing in is free.  When the callback
    succeeds for an identity the store does not know, it creates the account,
    redirects to the front end, puts the account's id into the session and
    drops the state token; the next generate-cover request of that session
    passes the limit check, for that account, and is set to take the free
    generation. *)
Theorem first_generation_after_sign_in_is_free (aw : AuthWorld) (db : DB)
  (session : gmap string Value) (state code : string) (info : UserInfo) :
  session !! "oauth_state" = Some (VString state) ->
  a_exchange aw = None ->
  a_newService aw = None ->
  a_userinfo aw = Ok info ->
  a_sessionSave aw = None ->
  users db !! ui_Id info = None ->
  emailTaken db (ui_Id info) (ui_Email info) = false ->
  let account := mkUser (ui_Id info) (ui_Email info) (ui_Name info) (ui_Picture info)
                   1 zeroTime 0 in
  exists session',
    authCallbackHandler aw db session state code
    = (ARedirect StatusTemporaryRedirect
         (if String.eqb (a_FRONTEND_URL aw) "" then "http://localhost:3000"
          else a_FRONTEND_URL aw),
       saveUser db account, session')
    /\ session' !! "user_id" = Some (VString (ui_Id info))
    /\ session' !! "oauth_state" = None
    /\ forall w req,
         exists t, limitStep w (saveUser db account) (session' !! "user_id") (Some req)
                   = (saveUser db account, inr t)
                   /\ t_userID t = ui_Id info
                   /\ t_useFree t = true.
Proof.
  intros Hstate Hex Hsvc Hinfo Hsave Hnone Hfree account.
  set (session' :=
         delete "oauth_state"
           (<["user_picture" := VString (ui_Picture info)]>
              (<["user_name" := VString (ui_Name info)]>
                 (<["user_email" := VString (ui_Email info)]>
                    (<["user_id" := VString (ui_Id info)]> session))))).
  assert (Hsession : session' !! "user_id" = Some (VString (ui_Id info))).
  { subst session'. rewrite lookup_delete_ne by discriminate.
    rewrite !lookup_insert_ne by discriminate. apply lookup_insert_eq. }
  exists session'. split; [|split; [|split]].
  - unfold authCallbackHandler, stateMismatch.
    rewrite Hstate, String.eqb_refl. cbn [negb].
    rewrite Hex, Hsvc, Hinfo.
    rewrite (emailTaken_false_save _ _ _ Hnone Hfree). rewrite Hsave. reflexivity.
  - exact Hsession.
  - apply lookup_delete_eq.
  - intros w req.
    rewrite Hsession.
    assert (Hrow : users (saveUser db account) !! ID account = Some account)
      by apply lookup_saveUser.
    rewrite (limitStep_found w _ (Some (VString (ui_Id info))) req account Hrow eq_refl).
    assert (Hsame : checkedDB (w_tz w) (w_now_check w) (saveUser db account) account
                    = saveUser db account).
    { unfold checkedDB, checkedUser.
      destruct (Before (LastFreeGeneration account) (startOfDay (w_tz w) (w_now_check w)));
        [|reflexivity].
      unfold saveUser. cbn. f_equal. apply insert_insert_eq. }
    assert (Hu1 : checkedUser (w_tz w) (w_now_check w) account = account).
    { unfold checkedUser. now destruct (Before _ _). }
    rewrite Hsame, Hu1. cbn [FreeGenerationsLeft account Z.ltb Z.compare orb].
    eexists. split; [reflexivity|]. split; [reflexivity|].
    cbn [t_useFree]. unfold chooseFree. cbn. apply orb_true_r.
Qed.

Lemma first_generation_after_sign_in_is_free_witness :
  let session := snd (authGoogleHandler sampleAuthWorld ∅) in
  let run := authCallbackHandler sampleAuthWorld emptyDB session "state-1" "code" in
  let w := sampleWorld sampleNoon "a" (HttpResp 200 "created") (pollDoneAt 0)
             (HttpResp 200 "png") in
  exists t, limitStep w (snd (fst run)) (snd run !! "user_id") (Some sampleRequest)
            = (snd (fst run), inr t)
            /\ t_userID t = "u1"
            /\ t_useFree t = true.
Proof.
  intros session run w.
  destruct (first_generation_after_sign_in_is_free sampleAuthWorld emptyDB session
              "state-1" "code" (mkUserInfo "u1" "u1@example.org" "U One" ""))
    as [session' [Hrun [_ [_ Hnext]]]];
    [reflexivity|reflexivity|reflexivity|reflexivity|reflexivity|reflexivity|reflexivity|].
  subst run. rewrite Hrun. cbn [fst snd]. apply Hnext.
Defined.

(** X24.  After a logout the session is empty: the account, limits and
    purchase endpoints answer 401 and leave the store alone.  The
    generate-cover endpoint asks for no session: the request runs for the id
    [anonymous].  In a store with no account of that id it is answered 500
    before anything is staged or asked of a provider; in a store where the
    sign-in has filed an account under that id, the request passes the limit
    check on that account's generations. *)
Theorem logout_ends_the_session (db : DB) (session : gmap string Value) :
  let session' := snd (logoutHandler None session) in
  session' = ∅
  /\ (forall tz now,
        authMeHandler tz now db session'
        = (AJSON StatusUnauthorized (ginH [("error", JStr "Not authenticated")]), db))
  /\ (forall tz now,
        userLimitsHandler tz now db session'
        = (AJSON StatusUnauthorized (ginH [("error", JStr "Not authenticated")]), db))
  /\ (forall pw req,
        paymentCreateHandler pw db session' req
        = (AJSON StatusUnauthorized (ginH [("error", JStr "Not authenticated")]), db, []))
  /\ (forall w redis req,
        users db !! "anonymous" = None ->
        generateCoverHandler w db redis (session' !! "user_id") (Some req)
        = (mkResponse 500 (BError "Failed to check generation limit"), db, redis, []))
  /\ (forall w req u,
        users db !! "anonymous" = Some u ->
        ID u = "anonymous" ->
        0 < freeAt (w_tz w) (w_now_check w) u \/ 0 < PaidGenerations u ->
        exists t,
          limitStep w db (session' !! "user_id") (Some req)
          = (checkedDB (w_tz w) (w_now_check w) db u, inr t)
          /\ t_userID t = "anonymous").
Proof.
  intros session'. subst session'. cbn [logoutHandler snd].
  split; [reflexivity|]. split; [reflexivity|]. split; [reflexivity|].
  split; [reflexivity|]. split.
  - intros w redis req Hnone. rewrite lookup_empty.
    unfold generateCoverHandler. now rewrite limitStep_missing.
  - intros w req u Hu Hid Hcredit. rewrite lookup_empty.
    rewrite <- Hid in Hu.
    rewrite (limitStep_found w db None req u Hu (eq_sym Hid)).
    rewrite checkedUser_Free, checkedUser_Paid.
    replace ((0 <? freeAt (w_tz w) (w_now_check w) u) || (0 <? PaidGenerations u))
      with true.
    + eexists. split; [reflexivity|exact Hid].
    + symmetry. apply orb_true_iff.
      destruct Hcredit as [Hfree|Hpaid]; [left|right]; now apply Z.ltb_lt.
Qed.

Lemma logout_ends_the_session_witness :
  let db := fst (GetOrCreateUser emptyDB "u1" "u1@example.org" "U One" "") in
  let db' := fst (GetOrCreateUser emptyDB "anonymous" "a@example.org" "A" "") in
  let w := sampleWorld sampleNoon "a" (HttpResp 200 "created") (pollDoneAt 0)
             (HttpResp 200 "png") in
  generateCoverHandler w db ∅ (snd (logoutHandler None sampleSession) !! "user_id")
    (Some sampleRequest)
  = (mkResponse 500 (BError "Failed to check generation limit"), db, ∅, [])
  /\ exists t,
       limitStep w db' (snd (logoutHandler None sampleSession) !! "user_id")
         (Some sampleRequest)
       = (checkedDB 0 sampleNoon db' (mkUser "anonymous" "a@example.org" "A" "" 1 zeroTime 0),
          inr t)
       /\ t_userID t = "anonymous".
Proof.
  intros db db' w. split.
  - destruct (logout_ends_the_session db sampleSession) as [_ [_ [_ [_ [Hgen _]]]]].
    apply Hgen. reflexivity.
  - destruct (logout_ends_the_session db' sampleSession) as [_ [_ [_ [_ [_ Hrun]]]]].
    apply (Hrun w sampleRequest (mkUser "anonymous" "a@example.org" "A" "" 1 zeroTime 0));
      [reflexivity|reflexivity|left; reflexivity].
Defined.

(** ** Images: the data URI of the request and the image endpoint *)

Lemma string_length_append (s t : string) :
  String.length (s +:+ t) = (String.length s + String.length t)%nat.
Proof. induction s as [|c s IH]; simpl; [reflexivity|now rewrite IH]. Qed.

Lemma substring_all (t : string) : String.substring 0 (String.length t) t = t.
Proof. induction t as [|c t IH]; simpl; [reflexivity|now rewrite IH]. Qed.

Lemma substring_suffix (s t : string) :
  String.substring (String.length s) (String.length t) (s +:+ t) = t.
Proof. induction s as [|c s IH]; simpl; [apply substring_all|exact IH]. Qed.

Lemma HasSuffix_append (s a b : string) :
  String.length a = String.length b ->
  HasSuffix (s +:+ a) b = String.eqb a b.
Proof.
  intros Hlen. unfold HasSuffix. rewrite string_length_append, <- Hlen.
  replace (String.length a <=? String.length s + String.length a)%nat with true
    by (symmetry; apply Nat.leb_le; lia).
  replace (String.length s + String.length a - String.length a)%nat
    with (String.length s) by lia.
  now rewrite substring_suffix.
Qed.

Lemma string_append_assoc (a b c : string) : (a +:+ b) +:+ c = a +:+ (b +:+ c).
Proof.
  induction a as [|x a IH]; [reflexivity|].
  change (String x ((a +:+ b) +:+ c) = String x (a +:+ (b +:+ c))).
  now rewrite IH.
Qed.

Lemma string_snoc (s : string) :
  s = EmptyString \/ exists s' c, s = s' +:+ String c EmptyString.
Proof.
  induction s as [|c s IH]; [now left|right].
  destruct IH as [->|[s' [d ->]]].
  - now exists EmptyString, c.
  - now exists (String c s'), d.
Qed.

Lemma HasSuffix_longer (s a b : string) :
  String.length b = S (String.length a) ->
  (forall c, String.eqb (String c a) b = false) ->
  HasSuffix (s +:+ a) b = false.
Proof.
  intros Hlen Hne. destruct (string_snoc s) as [->|[s' [c ->]]].
  - change (EmptyString +:+ a) with a. unfold HasSuffix. rewrite Hlen.
    replace (S (String.length a) <=? String.length a)%nat with false
      by (symmetry; apply Nat.leb_gt; lia).
    reflexivity.
  - rewrite string_append_assoc.
    change (String c EmptyString +:+ a) with (String c a).
    rewrite HasSuffix_append by (simpl; now rewrite Hlen). apply Hne.
Qed.

(** X25.  When the removal of the staged image does not reach the cache,
    the image the orchestrator staged stays open to the image endpoint: in
    the cache the orchestrator leaves, until 30 minutes after the staging,
    the endpoint answers 200 with the very bytes that were decoded from the
    request, under the identifier the orchestrator chose, and with the
    content type of the format: image/jpeg for jpg and jpeg, image/webp for
    webp, image/png for png. *)
Theorem staged_image_is_served_while_it_lasts (w : World)
  (redis : gmap string (list Byte.byte * Time))
  (imageData imageFormat apiKey userID storageDir customPrompt : string)
  (decodedData : list Byte.byte) (now : Time) :
  w_base64 w imageData = Ok decodedData ->
  (10 * 1024 * 1024 <? Z.of_nat (length decodedData)) = false ->
  w_redisSet w = None ->
  w_redisDel w = false ->
  now < w_now_redis w + 30 * Minute ->
  exists contentType,
    imageHandler
      (snd (fst (generateCoverWithNanoBanana w redis imageData imageFormat apiKey userID
                   storageDir customPrompt)))
      now None (w_uuid_image w +:+ "." +:+ imageFormat)
    = mkResponse StatusOK (BData contentType decodedData)
    /\ (imageFormat = "jpg" \/ imageFormat = "jpeg" -> contentType = "image/jpeg")
    /\ (imageFormat = "webp" -> contentType = "image/webp")
    /\ (imageFormat = "png" -> contentType = "image/png").
Proof.
  intros Hdec Hsize Hset Hdel Hnow.
  destruct (generateCoverWithNanoBanana_staged w redis imageData imageFormat apiKey userID
              storageDir customPrompt decodedData Hdec Hsize Hset)
    as [r [before [after Heq]]].
  rewrite Heq. cbn [fst snd]. unfold redisDel. rewrite Hdel.
  eexists. split.
  - unfold imageHandler, redisGet. rewrite lookup_insert_eq.
    replace (now <? w_now_redis w + 30 * Minute) with true
      by (symmetry; apply Z.ltb_lt; exact Hnow).
    reflexivity.
  - split; [|split].
    + intros [->| ->].
      * change ("." +:+ "jpg") with ".jpg".
        now rewrite (HasSuffix_append _ ".jpg" ".jpg").
      * change ("." +:+ "jpeg") with ".jpeg".
        rewrite (HasSuffix_append _ ".jpeg" ".jpeg") by reflexivity.
        now rewrite orb_true_r.
    + intros ->.
      rewrite (HasSuffix_append _ ".webp" ".jpeg") by reflexivity.
      rewrite (HasSuffix_append _ ".webp" ".webp") by reflexivity.
      replace (w_uuid_image w +:+ "." +:+ "webp")
        with ((w_uuid_image w +:+ ".") +:+ "webp")
        by (now rewrite string_append_assoc).
      now rewrite (HasSuffix_append _ "webp" ".jpg").
    + intros ->. change ("." +:+ "png") with ".png".
      rewrite (HasSuffix_append _ ".png" ".jpg") by reflexivity.
      rewrite (HasSuffix_longer _ ".png" ".jpeg")
        by (reflexivity || (intros c; cbn; now destruct (Ascii.eqb c _))).
      rewrite (HasSuffix_longer _ ".png" ".webp")
        by (reflexivity || (intros c; cbn; now destruct (Ascii.eqb c _))).
      reflexivity.
Qed.

Lemma staged_image_is_served_while_it_lasts_witness :
  exists contentType,
    imageHandler
      (snd (fst (generateCoverWithNanoBanana sampleWorldNoRemoval ∅ "QUJD" "webp" "nb-key"
                   "u1" "storage" "")))
      (sampleNoon + 29 * Minute) None ("img-a" +:+ "." +:+ "webp")
    = mkResponse StatusOK (BData contentType [Byte.x41; Byte.x42; Byte.x43])
    /\ ("webp" = "jpg" \/ "webp" = "jpeg" -> contentType = "image/jpeg")
    /\ ("webp" = "webp" -> contentType = "image/webp")
    /\ ("webp" = "png" -> contentType = "image/png").
Proof.
  apply (staged_image_is_served_while_it_lasts sampleWorldNoRemoval ∅ "QUJD" "webp" "nb-key"
           "u1" "storage" "" [Byte.x41; Byte.x42; Byte.x43] (sampleNoon + 29 * Minute));
    [reflexivity|reflexivity|reflexivity|reflexivity|vm_compute; reflexivity].
Defined.

Lemma string_append_nil_r (s : string) : s +:+ EmptyString = s.
Proof.
  induction s as [|x s IH]; [reflexivity|].
  change (String x (s +:+ EmptyString) = String x s). now rewrite IH.
Qed.

Lemma prefix_append (sep rest : string) : String.prefix sep (sep +:+ rest) = true.
Proof.
  induction sep as [|x sep IH]; [now destruct rest|].
  change (String.prefix (String x sep) (String x (sep +:+ rest)) = true).
  simpl. destruct (ascii_dec x x) as [_|Hne]; [exact IH|now destruct Hne].
Qed.

Lemma prefix_other_head (c d : ascii) (sep' rest : string) :
  Ascii.eqb d c = false -> String.prefix (String c sep') (String d rest) = false.
Proof.
  intros Hne. simpl. destruct (ascii_dec c d) as [->|_]; [|reflexivity].
  now rewrite Ascii.eqb_refl in Hne.
Qed.

Lemma splitFrom_skip (sep x cur rest : string) :
  splitFrom sep (String.length x) cur (x +:+ rest) = splitFrom sep 0 cur rest.
Proof.
  induction x as [|d x IH]; [reflexivity|].
  change (String d x +:+ rest) with (String d (x +:+ rest)). exact IH.
Qed.

Lemma splitFrom_without (c : ascii) (sep' s cur : string) :
  occurs c s = false -> splitFrom (String c sep') 0 cur s = [cur +:+ s].
Proof.
  revert cur. induction s as [|d s IH]; intros cur Hs.
  - now rewrite string_append_nil_r.
  - simpl in Hs. apply orb_false_iff in Hs as [Hd Hs].
    cbn [splitFrom]. rewrite (prefix_other_head c d sep' s Hd).
    rewrite (IH _ Hs), string_append_assoc. reflexivity.
Qed.

Lemma splitFrom_first (c : ascii) (sep' a rest cur : string) :
  occurs c a = false ->
  splitFrom (String c sep') 0 cur (a +:+ String c sep' +:+ rest)
  = (cur +:+ a) :: splitFrom (String c sep') 0 EmptyString rest.
Proof.
  revert cur. induction a as [|d a IH]; intros cur Ha.
  - change (EmptyString +:+ String c sep' +:+ rest) with (String c (sep' +:+ rest)).
    cbn [splitFrom].
    change (String c (sep' +:+ rest)) with (String c sep' +:+ rest).
    rewrite prefix_append, string_append_nil_r.
    change (String.length (String c sep') - 1)%nat with (String.length sep' - 0)%nat.
    rewrite Nat.sub_0_r, splitFrom_skip. reflexivity.
  - simpl in Ha. apply orb_false_iff in Ha as [Hd Ha].
    change (String d a +:+ String c sep' +:+ rest)
      with (String d (a +:+ String c sep' +:+ rest)).
    cbn [splitFrom]. rewrite (prefix_other_head c d sep' _ Hd).
    rewrite (IH _ Ha), string_append_assoc. reflexivity.
Qed.

Lemma occurs_append (c : ascii) (a b : string) :
  occurs c (a +:+ b) = occurs c a || occurs c b.
Proof.
  induction a as [|d a IH]; [reflexivity|].
  change (String d a +:+ b) with (String d (a +:+ b)). simpl.
  now rewrite IH, orb_assoc.
Qed.

(** X26.  A data URI [data:image/<format>;base64,<payload>] is taken apart
    into its payload and its format, whatever the two are, as long as the
    format holds no [;] and no [/] and the payload no [;]; an empty format
    counts as png. *)
Theorem parseImage_reads_data_uri (format payload : string) :
  occurs ";" format = false -> occurs "/" format = false ->
  occurs ";" payload = false ->
  parseImage ("data:image/" +:+ format +:+ ";base64," +:+ payload)
  = (payload, if String.eqb format "" then "png" else format).
Proof.
  intros Hf1 Hf2 Hp. unfold parseImage.
  assert (Hpre : HasPrefix ("data:image/" +:+ format +:+ ";base64," +:+ payload)
                   "data:image" = true).
  { unfold HasPrefix.
    change ("data:image/" +:+ format +:+ ";base64," +:+ payload)
      with ("data:image" +:+ ("/" +:+ format +:+ ";base64," +:+ payload)).
    apply prefix_append. }
  rewrite Hpre. unfold Split.
  rewrite <- (string_append_assoc "data:image/" format).
  rewrite (splitFrom_first ";" "base64," ("data:image/" +:+ format) payload "")
    by (rewrite occurs_append, Hf1; reflexivity).
  rewrite (splitFrom_without ";" "base64," payload "" Hp).
  change (EmptyString +:+ payload) with payload.
  change (EmptyString +:+ "data:image/" +:+ format) with ("data:image" +:+ "/" +:+ format).
  rewrite (splitFrom_first "/" "" "data:image" format "") by reflexivity.
  rewrite (splitFrom_without "/" "" format "" Hf2).
  reflexivity.
Qed.

Lemma parseImage_reads_data_uri_witness :
  parseImage ("data:image/" +:+ "webp" +:+ ";base64," +:+ "UklGRg==") = ("UklGRg==", "webp").
Proof.
  apply (parseImage_reads_data_uri "webp" "UklGRg=="); reflexivity.
Defined.
